(** * Mental Arithmetic Trainer (MAT.py): a shallow embedding and its properties

    The development follows the layout of [MAT.py]:

    - [Py]: the Python built-ins the program relies on ([int], [str],
      [str.rstrip], [str.split], [str.join], [file.readlines], [sum],
      list slicing, [random.randint]);
    - the module-level functions [settings_errors], [get_answer],
      [write_cfg], [read_cfg];
    - the class [ArithmeticProgram] as a record of its attributes, with one
      function per method;
    - the Tk event loop as a list of events run against that record.

    Python integers are unbounded and are modelled by [Z].  A Python [str]
    is modelled by [string], one [ascii] per code point, which covers the
    code points below 256 (the operator glyph U+00B7 is the character 183). *)

From Stdlib Require Import ZArith List String Ascii Bool Lia Permutation.
From Stdlib Require Import DecimalString DecimalZ DecimalPos DecimalFacts.
Import ListNotations.

Open Scope string_scope.
Open Scope list_scope.
Open Scope Z_scope.

(* ===================================================================== *)
(** ** Python built-ins *)
(* ===================================================================== *)

Module Py.

(** Exceptions the program can meet. *)
Inductive exn : Type :=
| IndexError
| ValueError
| AttributeError
| OSError.

(** The result of running a piece of Python: a value or a raised exception. *)
Inductive outcome (A : Type) : Type :=
| Returns (a : A)
| Raises (e : exn).

Arguments Returns {A} a.
Arguments Raises {A} e.

Definition LF : ascii := "010"%char.
Definition CR : ascii := "013"%char.

Definition code (c : ascii) : nat := nat_of_ascii c.

(** [str.isspace] on one character, for code points below 256:
    TAB..CR, FS..US, SPACE, NEL (0x85) and NBSP (0xA0). *)
Definition isspace (c : ascii) : bool :=
  (((9 <=? code c) && (code c <=? 13)) ||
   ((28 <=? code c) && (code c <=? 32)) ||
   (code c =? 133) || (code c =? 160))%nat.

(** The whitespace [int()] skips around a literal: the ASCII blanks
    TAB..CR and SPACE, and the non-ASCII spaces, which [int()] first maps
    to SPACE. *)
Definition int_isspace (c : ascii) : bool :=
  (((9 <=? code c) && (code c <=? 13)) || (code c =? 32) ||
   (code c =? 133) || (code c =? 160))%nat.

Fixpoint lstrip_by (sp : ascii -> bool) (s : string) : string :=
  match s with
  | EmptyString => EmptyString
  | String c r => if sp c then lstrip_by sp r else s
  end.

Fixpoint rstrip_by (sp : ascii -> bool) (s : string) : string :=
  match s with
  | EmptyString => EmptyString
  | String c r =>
      match rstrip_by sp r with
      | EmptyString => if sp c then EmptyString else String c EmptyString
      | r' => String c r'
      end
  end.

(** [s.rstrip()] *)
Definition rstrip (s : string) : string := rstrip_by isspace s.

Definition digit_of (c : ascii) : option (Decimal.uint -> Decimal.uint) :=
  match c with
  | "0"%char => Some Decimal.D0
  | "1"%char => Some Decimal.D1
  | "2"%char => Some Decimal.D2
  | "3"%char => Some Decimal.D3
  | "4"%char => Some Decimal.D4
  | "5"%char => Some Decimal.D5
  | "6"%char => Some Decimal.D6
  | "7"%char => Some Decimal.D7
  | "8"%char => Some Decimal.D8
  | "9"%char => Some Decimal.D9
  | _ => None
  end.

(** The digit part of a base-10 literal: one digit, then digits each
    optionally preceded by a single underscore. *)
Fixpoint digits (s : string) : option Decimal.uint :=
  match s with
  | EmptyString => None
  | String c r =>
      match digit_of c with
      | None => None
      | Some d =>
          match r with
          | EmptyString => Some (d Decimal.Nil)
          | String "_"%char r' => option_map d (digits r')
          | String _ _ => option_map d (digits r)
          end
      end
  end.

(** [int(s)] for a [str] argument; [None] stands for [ValueError].  The
    limit recent interpreters put on the number of digits of a literal is
    not modelled. *)
Definition int (s : string) : option Z :=
  let t := rstrip_by int_isspace (lstrip_by int_isspace s) in
  match t with
  | String "-"%char r => option_map (fun d => - Z.of_uint d) (digits r)
  | String "+"%char r => option_map Z.of_uint (digits r)
  | _ => option_map Z.of_uint (digits t)
  end.

(** [str(z)] for an [int] argument. *)
Definition str (z : Z) : string := NilZero.string_of_int (Z.to_int z).

(** [sep.join(words)] *)
Fixpoint join (sep : string) (words : list string) : string :=
  match words with
  | [] => EmptyString
  | [w] => w
  | w :: ws => (w ++ sep ++ join sep ws)%string
  end.

(** [s.split(sep)] for a one-character separator. *)
Fixpoint split (sep : ascii) (s : string) : list string :=
  match s with
  | EmptyString => [EmptyString]
  | String c r =>
      if Ascii.eqb c sep then EmptyString :: split sep r
      else match split sep r with
           | [] => [String c EmptyString]
           | w :: ws => String c w :: ws
           end
  end.

(** Universal newlines on reading a text file: CR LF and a lone CR become LF. *)
Fixpoint universal_newlines (s : string) : string :=
  match s with
  | EmptyString => EmptyString
  | String c r =>
      if Ascii.eqb c CR then
        String LF (match r with
                   | String c' r' =>
                       if Ascii.eqb c' LF then universal_newlines r'
                       else universal_newlines r
                   | EmptyString => EmptyString
                   end)
      else String c (universal_newlines r)
  end.

(** The lines of a text, each with its terminating LF when it has one. *)
Fixpoint lines_of (s : string) : list string :=
  match s with
  | EmptyString => []
  | String c r =>
      if Ascii.eqb c LF then String LF EmptyString :: lines_of r
      else match lines_of r with
           | [] => [String c EmptyString]
           | l :: ls => String c l :: ls
           end
  end.

(** [f.readlines()] on a file opened in text mode. *)
Definition readlines (text : string) : list string :=
  lines_of (universal_newlines text).

(** [sum(numbers)]: starts from 0 and adds from left to right. *)
Definition sum (numbers : list Z) : Z := fold_left Z.add numbers 0.

(** Where the slice [l[i:]] starts in a list of length [len]: a negative
    index counts from the end, and the result is clipped to the list. *)
Definition slice_start (i : Z) (len : nat) : nat :=
  Z.to_nat (if i <? 0 then Z.max 0 (Z.of_nat len + i)
            else Z.min i (Z.of_nat len)).

(** [l[i:]] *)
Definition slice_from {A : Type} (i : Z) (l : list A) : list A :=
  skipn (slice_start i (List.length l)) l.

(** [s.strip()] *)
Definition strip (s : string) : string :=
  rstrip_by isspace (lstrip_by isspace s).

(** [random.randint(low, high)]: the value drawn is fixed by the entropy
    [r] the generator supplies for this call; an empty range raises. *)
Definition randint (r : Z) (low high : Z) : outcome Z :=
  if high <? low then Raises ValueError
  else Returns (low + r mod (high - low + 1)).

End Py.

Import Py.

(* ===================================================================== *)
(** ** Program parameters and the settings dictionaries *)
(* ===================================================================== *)

Definition MAX_NUMBERS : Z := 5.
Definition op_add : string := "+".
Definition op_sub : string := "-".
(** The multiplication glyph, MIDDLE DOT (U+00B7). *)
Definition op_mul : string := String "183"%char EmptyString.
Definition OPERATORS : list string := [op_add; op_sub; op_mul].
Definition RANGE_LIMIT : Z := 1000.
Definition MAX_TIME_LIMIT : Z := 900.

(** A message box. *)
Inductive dialog : Type :=
| showerror (title message : string).

(** A dictionary value: the program stores [str] and [int] values. *)
Inductive pyval : Type :=
| PyStr (s : string)
| PyInt (z : Z).

(** [int(v)]: an [int] is returned as it is, a [str] is parsed. *)
Definition int_of (v : pyval) : option Z :=
  match v with
  | PyInt z => Some z
  | PyStr s => Py.int s
  end.

(** [str(v)] *)
Definition str_of (v : pyval) : string :=
  match v with
  | PyInt z => Py.str z
  | PyStr s => s
  end.

(** The dictionary [push_settings] builds from the widgets and hands to
    [settings_errors], which converts its numeric values in place.  The
    keys are fixed, in this order. *)
Record raw_settings : Type := mk_raw {
  raw_numbercount : pyval;
  raw_range_lower : pyval;
  raw_range_upper : pyval;
  raw_operator : string;
  raw_time_limit : pyval
}.

(** A settings dictionary whose numeric values are all [int]: what
    [settings_errors] returns at its last line, what [read_cfg] produces
    and what [self.__settings] holds. *)
Record Settings : Type := mk_settings {
  numbercount : Z;
  range_lower : Z;
  range_upper : Z;
  operator : string;
  time_limit : Z
}.

Definition defaults : Settings :=
  {| numbercount := 2;
     range_lower := 0;
     range_upper := 20;
     operator := nth 0 OPERATORS EmptyString;
     time_limit := 120 |}.

(* ===================================================================== *)
(** ** [settings_errors] *)
(* ===================================================================== *)

Definition msg_integers : string :=
  "All input fields except operator must only contain integers.".

Definition msg_numbercount : string :=
  ("Number settings: maximum amount of numbers allowed in the calculation is "
   ++ Py.str MAX_NUMBERS ++ ".")%string.

Definition msg_range : string :=
  ("Range settings: allowed range for the numbers is from "
   ++ Py.str 0 ++ " to " ++ Py.str RANGE_LIMIT ++ ".")%string.

Definition msg_order : string :=
  "Range settings: lower range must be smaller than upper range.".

Definition msg_operator : string :=
  "Operator: unsupported operator, choose one from dropdown list.".

Definition msg_time : string :=
  ("Time limit: must be between 0 and " ++ Py.str MAX_TIME_LIMIT ++ ".")%string.

(** [op in OPERATORS] *)
Definition in_operators (op : string) : bool :=
  existsb (String.eqb op) OPERATORS.

(** The two [return] statements of [settings_errors]: the early one inside
    the conversion loop, with the dictionary converted up to the failing
    key, and the final one, where every numeric value is an [int]. *)
Inductive validation : Type :=
| NotIntegers (s : raw_settings)
| Checked (error_messages : list string) (s : Settings).

(** [error_messages] as the caller receives it. *)
Definition errors_of (v : validation) : list string :=
  match v with
  | NotIntegers _ => [msg_integers]
  | Checked error_messages _ => error_messages
  end.

(** The range checks, after the conversion loop. *)
Definition settings_checks (s : Settings) : list string :=
  let error_messages := [] in
  let error_messages :=
    if negb ((1 <? numbercount s) && (numbercount s <=? MAX_NUMBERS))
    then error_messages ++ [msg_numbercount] else error_messages in
  let error_messages :=
    if negb ((0 <=? range_lower s) && (range_lower s <=? RANGE_LIMIT))
       || negb ((0 <=? range_upper s) && (range_upper s <=? RANGE_LIMIT))
    then error_messages ++ [msg_range] else error_messages in
  let error_messages :=
    if range_lower s >=? range_upper s
    then error_messages ++ [msg_order] else error_messages in
  let error_messages :=
    if negb (in_operators (operator s))
    then error_messages ++ [msg_operator] else error_messages in
  let error_messages :=
    if negb ((-1 <? time_limit s) && (time_limit s <? MAX_TIME_LIMIT))
    then error_messages ++ [msg_time] else error_messages in
  error_messages.

(** The conversion loop runs over the keys in insertion order and returns
    at the first value [int()] rejects. *)
Definition settings_errors (s : raw_settings) : validation :=
  match int_of (raw_numbercount s) with
  | None => NotIntegers s
  | Some n =>
  let s1 := mk_raw (PyInt n) (raw_range_lower s) (raw_range_upper s)
                   (raw_operator s) (raw_time_limit s) in
  match int_of (raw_range_lower s1) with
  | None => NotIntegers s1
  | Some l =>
  let s2 := mk_raw (PyInt n) (PyInt l) (raw_range_upper s1)
                   (raw_operator s1) (raw_time_limit s1) in
  match int_of (raw_range_upper s2) with
  | None => NotIntegers s2
  | Some u =>
  let s3 := mk_raw (PyInt n) (PyInt l) (PyInt u)
                   (raw_operator s2) (raw_time_limit s2) in
  match int_of (raw_time_limit s3) with
  | None => NotIntegers s3
  | Some t =>
      let s4 := mk_settings n l u (raw_operator s3) t in
      Checked (settings_checks s4) s4
  end end end end.

(* ===================================================================== *)
(** ** [get_answer] *)
(* ===================================================================== *)

Definition msg_no_operator : dialog :=
  showerror "No" "This really shouldn't happen. Bug report time.".

(** The dialogs shown during the call, and its result. *)
Definition get_answer (numbers : list Z) (op : string)
  : list dialog * outcome Z :=
  if String.eqb op "+" then
    ([], Returns (Py.sum numbers))
  else if String.eqb op "-" then
    match numbers with
    | [] => ([], Raises IndexError)
    | base :: rest =>
        ([], Returns (fold_left (fun base i => base - i) rest base))
    end
  else if String.eqb op op_mul then
    match numbers with
    | [] => ([], Raises IndexError)
    | base :: rest =>
        ([], Returns (fold_left (fun base i => base * i) rest base))
    end
  else
    ([msg_no_operator], Returns 0).

(** What the specification calls the sum and the product of the operands. *)
Definition sum_of (l : list Z) : Z := fold_right Z.add 0 l.
Definition product_of (l : list Z) : Z := fold_right Z.mul 1 l.

(* ===================================================================== *)
(** ** The configuration file: [write_cfg] and [read_cfg] *)
(* ===================================================================== *)

(** A dictionary with string keys, in insertion order. *)
Definition dict : Type := list (string * pyval).

Fixpoint dict_set (k : string) (v : pyval) (d : dict) : dict :=
  match d with
  | [] => [(k, v)]
  | (k', v') :: d' =>
      if String.eqb k' k then (k', v) :: d' else (k', v') :: dict_set k v d'
  end.

Definition dict_has (k : string) (d : dict) : bool :=
  existsb (fun kv => String.eqb (fst kv) k) d.

(** A [Settings] dictionary, key by key. *)
Definition dict_of (s : Settings) : dict :=
  [ ("numbercount", PyInt (numbercount s));
    ("range_lower", PyInt (range_lower s));
    ("range_upper", PyInt (range_upper s));
    ("operator", PyStr (operator s));
    ("time_limit", PyInt (time_limit s)) ].

(** The text [write_cfg] puts in the file. *)
Definition cfg_text (settings : dict) : string :=
  let lines :=
    map (fun kv => Py.join ";" [fst kv; str_of (snd kv)]) settings in
  Py.join (String LF EmptyString) lines.

(** The file [CFG_FILE]: absent, or its text. [write_cfg] replaces it,
    where [open] may write the path; [write_cfg_io] below is the function
    with the failure of [open]. *)
Definition write_cfg (settings : dict) (file : option string) : option string :=
  Some (cfg_text settings).

(** One turn of the loop over the lines of the file. *)
Definition read_line (temp_settings : dict) (i : string) : outcome dict :=
  let line := Py.rstrip i in
  let words := Py.split ";"%char line in
  match words with
  | setting :: value :: _ =>
      if negb (String.eqb setting "operator") then
        match Py.int value with
        | Some z => Returns (dict_set setting (PyInt z) temp_settings)
        | None => Raises ValueError
        end
      else Returns (dict_set setting (PyStr value) temp_settings)
  | _ => Raises IndexError
  end.

Fixpoint read_lines (temp_settings : dict) (lines : list string)
  : outcome dict :=
  match lines with
  | [] => Returns temp_settings
  | i :: rest =>
      match read_line temp_settings i with
      | Returns temp_settings' => read_lines temp_settings' rest
      | Raises e => Raises e
      end
  end.

(** The body of the [try] block. *)
Definition read_cfg_try (file : option string) : outcome dict :=
  match file with
  | None => Raises OSError
  | Some text =>
      match read_lines [] (Py.readlines text) with
      | Returns temp_settings =>
          if forallb (fun kv => dict_has (fst kv) temp_settings)
                     (dict_of defaults)
          then Returns temp_settings
          else Raises ValueError
      | Raises e => Raises e
      end
  end.

Definition msg_faulty : dialog :=
  showerror "File error"
    ("The configuration file is faulty." ++ String LF EmptyString
     ++ "Creating a new default file.").

Definition msg_not_found : dialog :=
  showerror "File error"
    ("The configuration file was not found or could not be accessed. "
     ++ "A new one will be created. " ++ String LF EmptyString
     ++ "If this is the first time you're launching"
     ++ "the program, this is supposed to happen.").

(** [read_cfg()] where [open] may read and write the path: the settings
    returned, the dialogs shown and the file afterwards.  [read_cfg_io]
    below is the function with the failures of [open]. *)
Definition read_cfg (file : option string)
  : dict * list dialog * option string :=
  match read_cfg_try file with
  | Returns temp_settings => (temp_settings, [], file)
  | Raises OSError =>
      (dict_of defaults, [msg_not_found], write_cfg (dict_of defaults) file)
  | Raises _ =>
      (dict_of defaults, [msg_faulty], write_cfg (dict_of defaults) file)
  end.

(* ===================================================================== *)
(** ** The class [ArithmeticProgram] *)
(* ===================================================================== *)

(** Widget layout, label widths, the operator label and keyboard focus are
    presentation and are left out; what the methods read back is kept: the
    texts of the entries and whether a widget is enabled.  The widgets of
    [self.__running_active_widgets] are always configured together, and so
    are those of [self.__stopped_active_widgets], so one state stands for
    each list. *)

Inductive widget_state : Type :=
| NORMAL
| DISABLED.

Record field_texts : Type := mk_fields {
  text_numbercount : string;
  text_range_lower : string;
  text_range_upper : string;
  text_op_dropdown : string;
  text_time_entry : string
}.

Record ArithmeticProgram : Type := mk_program {
  (** [self.__settings] *)
  settings : Settings;
  (** [self.__answers_correct] *)
  answers_correct : Z;
  (** [self.__answers_all] *)
  answers_all : Z;
  (** [self.__stoptimer] *)
  stoptimer : bool;
  (** [self.__results_cur] *)
  results_cur : string;
  (** [self.__results_prev] *)
  results_prev : string;
  (** [self.__time_left] *)
  time_left : Z;
  (** [self.__numbers]: the values of the [MAX_NUMBERS] control variables *)
  numbers : list Z;
  (** [self.__numbers_in_use]: the index in [self.__numbers] where the
      slice starts; the attribute does not exist before the first
      [start_game_setup] *)
  numbers_in_use : option nat;
  (** the texts of the five settings widgets *)
  entries : field_texts;
  (** the text of the entry [self.__uanswer] *)
  uanswer : string;
  (** the state of the widgets of [self.__running_active_widgets] *)
  running_active_widgets : widget_state;
  (** the state of the widgets of [self.__stopped_active_widgets] *)
  stopped_active_widgets : widget_state;
  (** the [countdown] calls registered with [self.__window.after] and not
      yet run, oldest first: the argument [count] of each *)
  scheduled : list Z;
  (** the message boxes shown so far, oldest first *)
  dialogs : list dialog;
  (** the random generator: the entropy behind its n-th draw *)
  entropy : nat -> Z;
  (** the number of draws made so far *)
  drawn : nat
}.

(** Attribute assignment, one function per attribute: the object is taken
    apart and rebuilt with the new value. *)
Definition set_settings (v : Settings) (p : ArithmeticProgram)
  : ArithmeticProgram :=
  match p with
  | mk_program st ac aa sp rc rp tl ns nu en ua rw sw sc dg
      et dr =>
      mk_program v ac aa sp rc rp tl ns nu en ua rw sw sc dg et dr
  end.

Definition set_answers_correct (v : Z) (p : ArithmeticProgram)
  : ArithmeticProgram :=
  match p with
  | mk_program st ac aa sp rc rp tl ns nu en ua rw sw sc dg
      et dr =>
      mk_program st v aa sp rc rp tl ns nu en ua rw sw sc dg et dr
  end.

Definition set_answers_all (v : Z) (p : ArithmeticProgram)
  : ArithmeticProgram :=
  match p with
  | mk_program st ac aa sp rc rp tl ns nu en ua rw sw sc dg
      et dr =>
      mk_program st ac v sp rc rp tl ns nu en ua rw sw sc dg et dr
  end.

Definition set_stoptimer (v : bool) (p : ArithmeticProgram)
  : ArithmeticProgram :=
  match p with
  | mk_program st ac aa sp rc rp tl ns nu en ua rw sw sc dg
      et dr =>
      mk_program st ac aa v rc rp tl ns nu en ua rw sw sc dg et dr
  end.

Definition set_results_cur (v : string) (p : ArithmeticProgram)
  : ArithmeticProgram :=
  match p with
  | mk_program st ac aa sp rc rp tl ns nu en ua rw sw sc dg
      et dr =>
      mk_program st ac aa sp v rp tl ns nu en ua rw sw sc dg et dr
  end.

Definition set_results_prev (v : string) (p : ArithmeticProgram)
  : ArithmeticProgram :=
  match p with
  | mk_program st ac aa sp rc rp tl ns nu en ua rw sw sc dg
      et dr =>
      mk_program st ac aa sp rc v tl ns nu en ua rw sw sc dg et dr
  end.

Definition set_time_left (v : Z) (p : ArithmeticProgram)
  : ArithmeticProgram :=
  match p with
  | mk_program st ac aa sp rc rp tl ns nu en ua rw sw sc dg
      et dr =>
      mk_program st ac aa sp rc rp v ns nu en ua rw sw sc dg et dr
  end.

Definition set_numbers (v : list Z) (p : ArithmeticProgram)
  : ArithmeticProgram :=
  match p with
  | mk_program st ac aa sp rc rp tl ns nu en ua rw sw sc dg
      et dr =>
      mk_program st ac aa sp rc rp tl v nu en ua rw sw sc dg et dr
  end.

Definition set_numbers_in_use (v : option nat) (p : ArithmeticProgram)
  : ArithmeticProgram :=
  match p with
  | mk_program st ac aa sp rc rp tl ns nu en ua rw sw sc dg
      et dr =>
      mk_program st ac aa sp rc rp tl ns v en ua rw sw sc dg et dr
  end.

Definition set_entries (v : field_texts) (p : ArithmeticProgram)
  : ArithmeticProgram :=
  match p with
  | mk_program st ac aa sp rc rp tl ns nu en ua rw sw sc dg
      et dr =>
      mk_program st ac aa sp rc rp tl ns nu v ua rw sw sc dg et dr
  end.

Definition set_uanswer (v : string) (p : ArithmeticProgram)
  : ArithmeticProgram :=
  match p with
  | mk_program st ac aa sp rc rp tl ns nu en ua rw sw sc dg
      et dr =>
      mk_program st ac aa sp rc rp tl ns nu en v rw sw sc dg et dr
  end.

Definition set_running_active_widgets (v : widget_state) (p : ArithmeticProgram)
  : ArithmeticProgram :=
  match p with
  | mk_program st ac aa sp rc rp tl ns nu en ua rw sw sc dg
      et dr =>
      mk_program st ac aa sp rc rp tl ns nu en ua v sw sc dg et dr
  end.

Definition set_stopped_active_widgets (v : widget_state) (p : ArithmeticProgram)
  : ArithmeticProgram :=
  match p with
  | mk_program st ac aa sp rc rp tl ns nu en ua rw sw sc dg
      et dr =>
      mk_program st ac aa sp rc rp tl ns nu en ua rw v sc dg et dr
  end.

Definition set_scheduled (v : list Z) (p : ArithmeticProgram)
  : ArithmeticProgram :=
  match p with
  | mk_program st ac aa sp rc rp tl ns nu en ua rw sw sc dg
      et dr =>
      mk_program st ac aa sp rc rp tl ns nu en ua rw sw v dg et dr
  end.

Definition set_dialogs (v : list dialog) (p : ArithmeticProgram)
  : ArithmeticProgram :=
  match p with
  | mk_program st ac aa sp rc rp tl ns nu en ua rw sw sc dg
      et dr =>
      mk_program st ac aa sp rc rp tl ns nu en ua rw sw sc v et dr
  end.

Definition set_drawn (v : nat) (p : ArithmeticProgram)
  : ArithmeticProgram :=
  match p with
  | mk_program st ac aa sp rc rp tl ns nu en ua rw sw sc dg
      et dr =>
      mk_program st ac aa sp rc rp tl ns nu en ua rw sw sc dg et v
  end.
(** A method call returns or raises, and leaves the object in a new state;
    what was assigned before an exception stays assigned. *)
Definition method (A : Type) : Type :=
  ArithmeticProgram -> outcome A * ArithmeticProgram.

Definition ret {A : Type} (a : A) : method A :=
  fun p => (Returns a, p).

Definition bind {A B : Type} (m : method A) (k : A -> method B) : method B :=
  fun p =>
    match m p with
    | (Returns a, p') => k a p'
    | (Raises e, p') => (Raises e, p')
    end.

(** A statement that cannot raise. *)
Definition exec (f : ArithmeticProgram -> ArithmeticProgram) : method unit :=
  fun p => (Returns tt, f p).

Notation "m1 ;; m2" := (bind m1 (fun _ => m2))
  (at level 61, right associativity).

(** [showerror(title, message)] *)
Definition show (d : dialog) (p : ArithmeticProgram) : ArithmeticProgram :=
  set_dialogs (dialogs p ++ [d]) p.

(** [clear_field(self.__uanswer)]: [delete] does nothing on a disabled
    entry (see the comment in [stop_game]). *)
Definition clear_field (p : ArithmeticProgram) : ArithmeticProgram :=
  match running_active_widgets p with
  | NORMAL => set_uanswer EmptyString p
  | DISABLED => p
  end.

(** [var.set(v)] for the control variable at index [i] of [self.__numbers]. *)
Fixpoint list_set (i : nat) (v : Z) (l : list Z) : list Z :=
  match l, i with
  | [], _ => []
  | _ :: l', O => v :: l'
  | x :: l', S i' => x :: list_set i' v l'
  end.

(** The control variables of [self.__numbers_in_use], by index. *)
Definition in_use (k : nat) (p : ArithmeticProgram) : list nat :=
  seq k (List.length (numbers p) - k).

(** The loop of [set_new_calculation] over the control variables [vars]. *)
Fixpoint draw_each (low high : Z) (vars : list nat) : method unit :=
  match vars with
  | [] => ret tt
  | i :: rest =>
      fun p =>
        match Py.randint (entropy p (drawn p)) low high with
        | Raises e => (Raises e, p)
        | Returns random_number =>
            draw_each low high rest
              (set_numbers (list_set i random_number (numbers p))
                 (set_drawn (S (drawn p)) p))
        end
  end.

Definition set_new_calculation : method unit :=
  fun p =>
    let low := range_lower (settings p) in
    let high := range_upper (settings p) in
    match numbers_in_use p with
    | None => (Raises AttributeError, p)
    | Some k => (draw_each low high (in_use k p) ;; exec clear_field) p
    end.

Definition stop_game (p : ArithmeticProgram) : ArithmeticProgram :=
  let p := set_stoptimer true p in
  let p := set_time_left 0 p in
  let p := clear_field p in
  let p := set_running_active_widgets DISABLED p in
  let p := set_stopped_active_widgets NORMAL p in
  let p := set_answers_correct 0 p in
  set_answers_all 0 p.

(** [self.__window.after(1000, self.countdown, count)] *)
Definition after (count : Z) (p : ArithmeticProgram) : ArithmeticProgram :=
  set_scheduled (scheduled p ++ [count]) p.

Definition countdown (count : Z) (p : ArithmeticProgram) : ArithmeticProgram :=
  if stoptimer p then p
  else if count >? 0 then after (count - 1) (set_time_left (count - 1) p)
  else stop_game p.

(** ["%s / %s" % (correct, all)] *)
Definition score_text (correct all : Z) : string :=
  (Py.str correct ++ " / " ++ Py.str all)%string.

Definition advance_turn (correct : bool) : method unit :=
  fun p =>
    let p := set_answers_all (answers_all p + 1) p in
    let p := if correct then set_answers_correct (answers_correct p + 1) p
             else p in
    let p := set_results_cur
               (score_text (answers_correct p) (answers_all p)) p in
    set_new_calculation p.

Definition msg_bad_input : dialog :=
  showerror "Bad input" "Input can only be an integer or empty".

(** The [except ValueError] clause of [answer_process]. *)
Definition answer_except (uanswer : string) : method unit :=
  if String.eqb uanswer EmptyString then advance_turn false
  else exec (fun p => show msg_bad_input (clear_field p)).

(** The numbers read from the control variables in use. *)
Definition numbers_shown (k : nat) (p : ArithmeticProgram) : list Z :=
  skipn k (numbers p).

Definition answer_process (uanswer : string) : method unit :=
  fun p =>
    match numbers_in_use p with
    | None => (Raises AttributeError, p)
    | Some k =>
        let numbers := numbers_shown k p in
        let (shown, result) := get_answer numbers (operator (settings p)) in
        let p := set_dialogs (dialogs p ++ shown) p in
        match result with
        | Raises e => (Raises e, p)
        | Returns answer =>
            (* try: *)
            match Py.int uanswer with
            | None => answer_except uanswer p
            | Some u =>
                match advance_turn (u =? answer) p with
                | (Raises ValueError, p') => answer_except uanswer p'
                | r => r
                end
            end
        end
    end.

(** The dictionary [push_settings] reads from the widgets. *)
Definition temp_settings (p : ArithmeticProgram) : raw_settings :=
  {| raw_numbercount := PyStr (text_numbercount (entries p));
     raw_range_lower := PyStr (text_range_lower (entries p));
     raw_range_upper := PyStr (text_range_upper (entries p));
     raw_operator := text_op_dropdown (entries p);
     raw_time_limit := PyStr (text_time_entry (entries p)) |}.

Definition input_error (errors : list string) : dialog :=
  let nl := String LF EmptyString in
  showerror "Input error"
    ("The following errors were found:" ++ nl ++ nl
     ++ Py.join (nl ++ nl) errors).

Definition push_settings (display_errors : bool) (p : ArithmeticProgram)
  : bool * ArithmeticProgram :=
  match settings_errors (temp_settings p) with
  | Checked [] temp__settings => (true, set_settings temp__settings p)
  | v =>
      if display_errors then (false, show (input_error (errors_of v)) p)
      else (false, p)
  end.

(** Transfer results to previous and clear current if the last game had any. *)
Definition transfer_results (p : ArithmeticProgram) : ArithmeticProgram :=
  if negb (String.eqb (results_cur p) EmptyString)
  then set_results_cur EmptyString (set_results_prev (results_cur p) p)
  else p.

Definition start_game_setup : method unit :=
  fun p =>
    let p := set_stopped_active_widgets DISABLED p in
    let p := set_running_active_widgets NORMAL p in
    let first_used_number_index := MAX_NUMBERS - numbercount (settings p) in
    let p := set_numbers_in_use
               (Some (Py.slice_start first_used_number_index
                                     (List.length (numbers p)))) p in
    let p := set_stoptimer false p in
    let p := transfer_results p in
    set_new_calculation p.

Definition start_game : method unit :=
  fun p =>
    match push_settings true p with
    | (true, p) =>
        (start_game_setup ;;
         exec (fun p =>
                 if negb (time_limit (settings p) =? 0)
                 then countdown (time_limit (settings p)) p
                 else p)) p
    | (false, p) => (Returns tt, p)
    end.

(** The state [__init__] leaves when it returns, given the settings
    [read_cfg] returned, as a record, and the generator.  [__init__]
    also makes the labels of the equation, and raises when that fails:
    see [create_left_eq] and [launch].  The field for the number count
    is a spinbox from 2 to [MAX_NUMBERS]; its text is given here as the
    number count itself. *)
Definition init (s : Settings) (rnd : nat -> Z) : ArithmeticProgram :=
  {| settings := s;
     answers_correct := 0;
     answers_all := 0;
     stoptimer := false;
     results_cur := EmptyString;
     results_prev := EmptyString;
     time_left := 0;
     numbers := repeat 0 (Z.to_nat MAX_NUMBERS);
     numbers_in_use := None;
     entries := {| text_numbercount := Py.str (numbercount s);
                   text_range_lower := Py.str (range_lower s);
                   text_range_upper := Py.str (range_upper s);
                   text_op_dropdown := operator s;
                   text_time_entry := Py.str (time_limit s) |};
     uanswer := EmptyString;
     running_active_widgets := DISABLED;
     stopped_active_widgets := NORMAL;
     scheduled := [];
     dialogs := [];
     entropy := rnd;
     drawn := O |}.

(* ===================================================================== *)
(** ** The event loop *)
(* ===================================================================== *)

(** What the host can deliver.  A disabled button does not run its
    command, and a disabled entry takes neither keys nor edits.  A timer
    event runs the oldest registered [countdown] call: all are registered
    with the same delay.  An exception raised by a callback is reported by
    Tk and the loop goes on. *)
Inductive event : Type :=
| press_start
| press_stop
| press_submit_key
| press_clear_key
| type_answer (text : string)
| edit_fields (texts : field_texts)
| timer_fires.

Definition when_enabled (w : widget_state)
  (f : ArithmeticProgram -> ArithmeticProgram) (p : ArithmeticProgram)
  : ArithmeticProgram :=
  match w with
  | NORMAL => f p
  | DISABLED => p
  end.

Definition step (e : event) (p : ArithmeticProgram) : ArithmeticProgram :=
  match e with
  | press_start =>
      when_enabled (stopped_active_widgets p) (fun p => snd (start_game p)) p
  | press_stop =>
      when_enabled (running_active_widgets p) stop_game p
  | press_submit_key =>
      when_enabled (running_active_widgets p)
        (fun p => snd (answer_process (uanswer p) p)) p
  | press_clear_key =>
      when_enabled (running_active_widgets p) clear_field p
  | type_answer text =>
      when_enabled (running_active_widgets p) (set_uanswer text) p
  | edit_fields texts =>
      when_enabled (stopped_active_widgets p) (set_entries texts) p
  | timer_fires =>
      match scheduled p with
      | [] => p
      | count :: rest => countdown count (set_scheduled rest p)
      end
  end.

Definition run (events : list event) (p : ArithmeticProgram)
  : ArithmeticProgram :=
  fold_left (fun p e => step e p) events p.

(** The mode of the session, as the widgets show it. *)
Inductive mode : Type :=
| Stopped
| Running.

Definition mode_of (p : ArithmeticProgram) : mode :=
  match running_active_widgets p with
  | NORMAL => Running
  | DISABLED => Stopped
  end.

(* ===================================================================== *)
(** ** Vocabulary of the statements *)
(* ===================================================================== *)

(** The result of [get_answer] for [op] depends on the order of the
    operands: two orderings of the same operands give different results. *)
Definition depends_on_order (op : string) : Prop :=
  exists l l' : list Z,
    Permutation l l' /\ get_answer l op <> get_answer l' op.

(** The five rules of the validator, on the integer values. *)
Definition rule_numbercount (s : Settings) : Prop :=
  1 < numbercount s <= MAX_NUMBERS.
Definition rule_range (s : Settings) : Prop :=
  (0 <= range_lower s <= RANGE_LIMIT) /\ (0 <= range_upper s <= RANGE_LIMIT).
Definition rule_order (s : Settings) : Prop :=
  range_lower s < range_upper s.
Definition rule_operator (s : Settings) : Prop :=
  In (operator s) OPERATORS.
Definition rule_time (s : Settings) : Prop :=
  0 <= time_limit s < MAX_TIME_LIMIT.

Definition valid (s : Settings) : Prop :=
  rule_numbercount s /\ rule_range s /\ rule_order s /\ rule_operator s /\
  rule_time s.

(** The five conditions tested by [settings_checks], each true when its
    rule fails. *)
Definition fails_numbercount (s : Settings) : bool :=
  negb ((1 <? numbercount s) && (numbercount s <=? MAX_NUMBERS)).
Definition fails_range (s : Settings) : bool :=
  negb ((0 <=? range_lower s) && (range_lower s <=? RANGE_LIMIT))
  || negb ((0 <=? range_upper s) && (range_upper s <=? RANGE_LIMIT)).
Definition fails_order (s : Settings) : bool :=
  range_lower s >=? range_upper s.
Definition fails_operator (s : Settings) : bool :=
  negb (in_operators (operator s)).
Definition fails_time (s : Settings) : bool :=
  negb ((-1 <? time_limit s) && (time_limit s <? MAX_TIME_LIMIT)).

(** Whether a list of messages has [m], and whether it repeats none. *)
Definition has_message (m : string) (l : list string) : bool :=
  existsb (String.eqb m) l.

Fixpoint no_repeat (l : list string) : bool :=
  match l with
  | [] => true
  | m :: l' => negb (has_message m l') && no_repeat l'
  end.

(** The integers the numeric fields of a raw dictionary parse to. *)
Definition parses_to (raw : raw_settings) (s : Settings) : Prop :=
  int_of (raw_numbercount raw) = Some (numbercount s) /\
  int_of (raw_range_lower raw) = Some (range_lower s) /\
  int_of (raw_range_upper raw) = Some (range_upper s) /\
  raw_operator raw = operator s /\
  int_of (raw_time_limit raw) = Some (time_limit s).

(** Some numeric field is rejected by [int()]. *)
Definition some_field_not_integer (raw : raw_settings) : Prop :=
  int_of (raw_numbercount raw) = None \/
  int_of (raw_range_lower raw) = None \/
  int_of (raw_range_upper raw) = None \/
  int_of (raw_time_limit raw) = None.

(** The score counters are consistent. *)
Definition score_invariant (p : ArithmeticProgram) : Prop :=
  0 <= answers_correct p <= answers_all p.

(** Every character of [s] satisfies [f]. *)
Fixpoint all_chars (f : ascii -> bool) (s : string) : bool :=
  match s with
  | EmptyString => true
  | String c r => f c && all_chars f r
  end.

Definition is_digit (c : ascii) : bool :=
  match digit_of c with
  | Some _ => true
  | None => false
  end.

(** A character of a decimal number as [str] prints it. *)
Definition is_number_char (c : ascii) : bool :=
  is_digit c || Ascii.eqb c "-"%char.

(** A character that is not white space. *)
Definition is_visible (c : ascii) : bool := negb (Py.isspace c).

(** A character that is neither white space nor the separator of the
    configuration file. *)
Definition is_plain (c : ascii) : bool :=
  negb (Py.isspace c) && negb (Ascii.eqb c ";"%char).

(** One line of the configuration file, without its newline. *)
Definition cfg_line (name value : string) : string :=
  (name ++ String ";"%char value)%string.

(** The [n]-th operand drawn for an equation, counting from the draw
    [first] of the generator. *)
Definition operand (p : ArithmeticProgram) (first n : nat) : Z :=
  range_lower (settings p)
  + entropy p (first + n)%nat
    mod (range_upper (settings p) - range_lower (settings p) + 1).

(** The state [start_game_setup] works on when it calls
    [set_new_calculation]. *)
Definition set_up (p : ArithmeticProgram) : ArithmeticProgram :=
  transfer_results
    (set_stoptimer false
       (set_numbers_in_use
          (Some (Py.slice_start (MAX_NUMBERS - numbercount (settings p))
                                (List.length (numbers p))))
          (set_running_active_widgets NORMAL
             (set_stopped_active_widgets DISABLED p)))).

(** Events that neither start nor stop a game. *)
Definition plays_on (e : event) : bool :=
  match e with
  | press_start | press_stop => false
  | _ => true
  end.

(** The number of timer events among [events]. *)
Fixpoint ticks (events : list event) : nat :=
  match events with
  | [] => O
  | timer_fires :: rest => S (ticks rest)
  | _ :: rest => ticks rest
  end.

(** [q] has the widget state of the game, the stop flag, the displayed
    time and the registered countdown calls of [p]. *)
Definition same_clock (q p : ArithmeticProgram) : Prop :=
  running_active_widgets q = running_active_widgets p /\
  stoptimer q = stoptimer p /\
  time_left q = time_left p /\
  scheduled q = scheduled p.

(** The state of a session with time limit [t] after [n] ticks: before
    the [t]-th tick it is running, shows [t - 1 - n] and has the next
    tick registered with that count; from the [t]-th tick on it is
    stopped, shows 0 and has no tick registered. *)
Definition in_session (t : Z) (n : nat) (r : ArithmeticProgram) : Prop :=
  (Z.of_nat n < t ->
   running_active_widgets r = NORMAL /\ stoptimer r = false /\
   time_left r = t - 1 - Z.of_nat n /\
   scheduled r = [t - 1 - Z.of_nat n]) /\
  (t <= Z.of_nat n ->
   running_active_widgets r = DISABLED /\ stoptimer r = true /\
   time_left r = 0 /\ scheduled r = []).

(** A running session as [start_game] sets it up: the answer entry is
    enabled, the operands in use are a non-empty slice of the control
    variables, and the settings passed validation. *)
Record running_session (p : ArithmeticProgram) (k : nat) : Prop := {
  rs_enabled : running_active_widgets p = NORMAL;
  rs_in_use : numbers_in_use p = Some k;
  rs_some : (k < List.length (numbers p))%nat;
  rs_valid : valid (settings p)
}.

(** The state after an attempt: the counters and the score text are
    updated, the entry is cleared and fresh operands are drawn for the
    control variables in use; no dialog is shown. *)
Definition attempted (correct : bool) (k : nat)
  (p p' : ArithmeticProgram) : Prop :=
  answers_all p' = answers_all p + 1 /\
  answers_correct p' = answers_correct p + (if correct then 1 else 0) /\
  results_cur p' = score_text (answers_correct p') (answers_all p') /\
  dialogs p' = dialogs p /\
  uanswer p' = EmptyString /\
  drawn p' = (drawn p + (List.length (numbers p) - k))%nat /\
  numbers p' =
    firstn k (numbers p)
    ++ map (operand p (drawn p)) (seq 0 (List.length (numbers p) - k)).

(** The state after a rejected input: only the entry and the dialogs change. *)
Definition rejected (p p' : ArithmeticProgram) : Prop :=
  answers_all p' = answers_all p /\
  answers_correct p' = answers_correct p /\
  results_cur p' = results_cur p /\
  dialogs p' = dialogs p ++ [msg_bad_input] /\
  uanswer p' = EmptyString /\
  drawn p' = drawn p /\
  numbers p' = numbers p.

(** What holds in every state the event loop reaches: the control
    variables are all there, the two widget lists are enabled in turn, a
    running game is a running session, and a stopped game has its
    counters and its time at 0 and, before the first game, no countdown
    call registered. *)
Record coherent (p : ArithmeticProgram) : Prop := {
  co_numbers : List.length (numbers p) = Z.to_nat MAX_NUMBERS;
  co_widgets :
    stopped_active_widgets p
    = match running_active_widgets p with
      | NORMAL => DISABLED
      | DISABLED => NORMAL
      end;
  co_running :
    running_active_widgets p = NORMAL -> exists k, running_session p k;
  co_stopped :
    running_active_widgets p = DISABLED ->
    answers_correct p = 0 /\ answers_all p = 0 /\ time_left p = 0 /\
    (stoptimer p = false -> scheduled p = [])
}.


(** Pressing the submit key produces an answer: the entry is enabled and
    its text is empty or an integer. *)
Definition is_attempt (p : ArithmeticProgram) : bool :=
  match running_active_widgets p with
  | NORMAL =>
      String.eqb (uanswer p) EmptyString ||
      match Py.int (uanswer p) with
      | Some _ => true
      | None => false
      end
  | DISABLED => false
  end.


(* ===================================================================== *)
(** ** The configuration file when [open] fails *)
(* ===================================================================== *)

(** Whether [open(CFG_FILE, 'r')] and [open(CFG_FILE, 'w')] are
    permitted: the file or its directory can be protected, or the path
    can be a directory.  [read_cfg] and [write_cfg] above are the two
    functions where both are permitted (see [read_cfg_io_accessible]). *)
Record access : Type := mk_access {
  may_read : bool;
  may_write : bool
}.

(** The file as [open(CFG_FILE, 'r')] finds it: for a file that may not
    be read [open] raises [OSError], as it does for an absent one. *)
Definition open_r (a : access) (file : option string) : option string :=
  if may_read a then file else None.

(** [write_cfg(settings)]: [open(CFG_FILE, 'w')] raises [OSError] when
    writing is not permitted, and the file is left as it is. *)
Definition write_cfg_io (a : access) (settings : dict)
  (file : option string) : outcome unit * option string :=
  if may_write a then (Returns tt, write_cfg settings file)
  else (Raises OSError, file).

(** [read_cfg()]: the outcome, the dialogs shown and the file afterwards.
    An exception [write_cfg] raises inside a handler leaves [read_cfg];
    the [IndexError] handler writes before it shows its dialog, the other
    two show it first.  No handler takes an [AttributeError]. *)
Definition read_cfg_io (a : access) (file : option string)
  : outcome dict * list dialog * option string :=
  match read_cfg_try (open_r a file) with
  | Returns temp_settings => (Returns temp_settings, [], file)
  | Raises IndexError =>
      match write_cfg_io a (dict_of defaults) file with
      | (Returns _, file) => (Returns (dict_of defaults), [msg_faulty], file)
      | (Raises e, file) => (Raises e, [], file)
      end
  | Raises ValueError =>
      match write_cfg_io a (dict_of defaults) file with
      | (Returns _, file) => (Returns (dict_of defaults), [msg_faulty], file)
      | (Raises e, file) => (Raises e, [msg_faulty], file)
      end
  | Raises OSError =>
      match write_cfg_io a (dict_of defaults) file with
      | (Returns _, file) =>
          (Returns (dict_of defaults), [msg_not_found], file)
      | (Raises e, file) => (Raises e, [msg_not_found], file)
      end
  | Raises AttributeError => (Raises AttributeError, [], file)
  end.

(* ===================================================================== *)
(** ** Leaving the program, and reading a dictionary *)
(* ===================================================================== *)

(** [d[k]]; [None] stands for [KeyError]. *)
Fixpoint dict_get (k : string) (d : dict) : option pyval :=
  match d with
  | [] => None
  | (k', v) :: d' => if String.eqb k' k then Some v else dict_get k d'
  end.

(** [quit].  [self.__settings] is a dictionary: the one [read_cfg]
    returned, with the keys in the order of the file and whatever other
    keys the file had, until a [push_settings] passes and replaces it by
    the dictionary of the five fields.  The record [settings p] is what
    the methods read in it; [held] is the dictionary itself, which is
    what [write_cfg] is given.  The settings are pushed without dialogs,
    the dictionary then held is written, and the window is destroyed,
    which ends the program; when [write_cfg] raises, [quit] does, before
    the window is destroyed. *)
Definition quit (a : access) (held : dict) (p : ArithmeticProgram)
  (file : option string)
  : outcome unit * (ArithmeticProgram * dict) * option string :=
  let (pushed, p) := push_settings false p in
  let held := if pushed then dict_of (settings p) else held in
  let (result, file) := write_cfg_io a held file in
  (result, (p, held), file).

(* ===================================================================== *)
(** ** Vocabulary of the further statements *)
(* ===================================================================== *)

(** [x] lies in the closed range from [low] to [high]. *)
Definition between (low high x : Z) : Prop := low <= x <= high.

(** The control variables after new operands were drawn for those from
    index [k] on. *)
Definition fresh_numbers (k : nat) (p : ArithmeticProgram) : list Z :=
  firstn k (numbers p)
  ++ map (operand p (drawn p)) (seq 0 (List.length (numbers p) - k)).

(** The state after [set_new_calculation] drew new operands. *)
Definition redrawn (k : nat) (p : ArithmeticProgram) : ArithmeticProgram :=
  set_uanswer EmptyString
    (set_numbers (fresh_numbers k p)
       (set_drawn (drawn p + (List.length (numbers p) - k))%nat p)).

(** The state after an attempt was counted and a new calculation set. *)
Definition answered (correct : bool) (k : nat) (p : ArithmeticProgram)
  : ArithmeticProgram :=
  let all := answers_all p + 1 in
  let right := answers_correct p + (if correct then 1 else 0) in
  redrawn k
    (set_results_cur (score_text right all)
       (set_answers_correct right (set_answers_all all p))).

(** The index where the operands in use start, for the settings [s]. *)
Definition first_used (s : Settings) (p : ArithmeticProgram) : nat :=
  Py.slice_start (MAX_NUMBERS - numbercount s) (List.length (numbers p)).

(** The state after a game was started with the settings [s]. *)
Definition started (s : Settings) (p : ArithmeticProgram)
  : ArithmeticProgram :=
  let q := redrawn (first_used s p) (set_up (set_settings s p)) in
  if time_limit s =? 0 then q
  else after (time_limit s - 1) (set_time_left (time_limit s - 1) q).

(** Whether the event [e] reaches a callback in the state [p]: its widget
    is enabled, or a countdown call is registered. *)
Definition delivered (e : event) (p : ArithmeticProgram) : bool :=
  match e with
  | press_start | edit_fields _ =>
      match stopped_active_widgets p with
      | NORMAL => true
      | DISABLED => false
      end
  | press_stop | press_submit_key | press_clear_key | type_answer _ =>
      match running_active_widgets p with
      | NORMAL => true
      | DISABLED => false
      end
  | timer_fires =>
      match scheduled p with
      | [] => false
      | _ :: _ => true
      end
  end.

(** What one event does to a state the event loop reaches. *)
Inductive moves (p : ArithmeticProgram)
  : event -> ArithmeticProgram -> Prop :=
| mv_nothing (e : event) :
    delivered e p = false ->
    moves p e p
| mv_typed (text : string) :
    running_active_widgets p = NORMAL ->
    moves p (type_answer text) (set_uanswer text p)
| mv_cleared :
    running_active_widgets p = NORMAL ->
    moves p press_clear_key (set_uanswer EmptyString p)
| mv_fields (texts : field_texts) :
    stopped_active_widgets p = NORMAL ->
    moves p (edit_fields texts) (set_entries texts p)
| mv_refused :
    stopped_active_widgets p = NORMAL ->
    errors_of (settings_errors (temp_settings p)) <> [] ->
    moves p press_start
      (show (input_error (errors_of (settings_errors (temp_settings p)))) p)
| mv_started (s : Settings) :
    stopped_active_widgets p = NORMAL ->
    parses_to (temp_settings p) s ->
    valid s ->
    moves p press_start (started s p)
| mv_answered (correct : bool) (k : nat) :
    running_session p k ->
    is_attempt p = true ->
    moves p press_submit_key (answered correct k p)
| mv_rejected :
    running_active_widgets p = NORMAL ->
    is_attempt p = false ->
    moves p press_submit_key
      (show msg_bad_input (set_uanswer EmptyString p))
| mv_stopped :
    running_active_widgets p = NORMAL ->
    moves p press_stop (stop_game p)
| mv_tick_ignored (count : Z) (rest : list Z) :
    scheduled p = count :: rest ->
    stoptimer p = true ->
    moves p timer_fires (set_scheduled rest p)
| mv_tick_counted (count : Z) (rest : list Z) :
    scheduled p = count :: rest ->
    stoptimer p = false ->
    0 < count ->
    moves p timer_fires
      (after (count - 1) (set_time_left (count - 1) (set_scheduled rest p)))
| mv_timed_out (count : Z) (rest : list Z) :
    scheduled p = count :: rest ->
    stoptimer p = false ->
    count <= 0 ->
    moves p timer_fires (stop_game (set_scheduled rest p)).

(** The settings [__init__] reads from the dictionary [d]: the five keys
    are there, with [int] values for the numeric ones. *)
Definition settings_in (d : dict) (s : Settings) : Prop :=
  dict_get "numbercount" d = Some (PyInt (numbercount s)) /\
  dict_get "range_lower" d = Some (PyInt (range_lower s)) /\
  dict_get "range_upper" d = Some (PyInt (range_upper s)) /\
  dict_get "operator" d = Some (PyStr (operator s)) /\
  dict_get "time_limit" d = Some (PyInt (time_limit s)).

(** Every value of [d] has the type [read_cfg] gives its key. *)
Definition typed_values (d : dict) : Prop :=
  forall k v,
    dict_get k d = Some v ->
    if String.eqb k "operator" then exists text, v = PyStr text
    else exists z, v = PyInt z.

(** The operands shown in a running game are as many as the settings say
    and lie in the range of the settings. *)
Definition equation_fits (p : ArithmeticProgram) : Prop :=
  running_active_widgets p = NORMAL ->
  exists k,
    numbers_in_use p = Some k /\
    Z.of_nat (List.length (numbers_shown k p)) = numbercount (settings p) /\
    Forall (between (range_lower (settings p)) (range_upper (settings p)))
           (numbers_shown k p).


(** The displayed time and the counts of the registered countdown calls
    stay below the time limit and never go negative. *)
Definition time_in_bounds (p : ArithmeticProgram) : Prop :=
  0 <= time_left p < MAX_TIME_LIMIT - 1 /\
  Forall (fun count => 0 <= count < MAX_TIME_LIMIT - 1) (scheduled p).


(* ===================================================================== *)
(** ** The labels of the left side of the equation *)
(* ===================================================================== *)

(** The labels are kept apart from the record [ArithmeticProgram]: no
    method reads them back, and they are enabled and disabled with the
    other widgets of [self.__running_active_widgets]. *)

Module PyList.

(** [range(start, stop, step)] for a positive [step]. *)
Definition range (start stop step : Z) : list Z :=
  map (fun k => start + step * Z.of_nat k)
      (seq 0 (Z.to_nat ((stop - start + step - 1) / step))).

(** The position [l[i]] reads in a list of length [len]: a negative index
    counts from the end, an index out of range raises [IndexError]. *)
Definition index (len : nat) (i : Z) : option nat :=
  let n := Z.of_nat len in
  if (0 <=? i) && (i <? n) then Some (Z.to_nat i)
  else if (- n <=? i) && (i <? 0) then Some (Z.to_nat (i + n))
  else None.

End PyList.

(** What a label displays: a number control variable, the operator
    control variable, or a fixed text. *)
Inductive label_text : Type :=
| textvariable_number (i : nat)
| textvariable_operator
| text (s : string).

(** A [tk.Label] of the equation: what it displays, its grid column once
    it was gridded, whether it is on screen, and its width option. *)
Record Label : Type := mk_label {
  shows : label_text;
  column : option nat;
  gridded : bool;
  width : Z
}.

Definition new_label (t : label_text) : Label := mk_label t None false 0.

(** [l.grid(row=0, column=c)], [l.grid()] and [l.grid_remove()] *)
Definition grid_at (c : nat) (l : Label) : Label :=
  mk_label (shows l) (Some c) true (width l).

Definition grid (l : Label) : Label :=
  mk_label (shows l) (column l) true (width l).

Definition grid_remove (l : Label) : Label :=
  mk_label (shows l) (column l) false (width l).

(** [l.configure(width=w)] *)
Definition configure_width (w : Z) (l : Label) : Label :=
  mk_label (shows l) (column l) (gridded l) w.

(** [self.__operator] and [self.__eq_labels]. *)
Record eq_left : Type := mk_eq_left {
  operator_var : string;
  eq_labels : list Label
}.

(** The labels with [f] called on the one at position [k]. *)
Fixpoint alter (f : Label -> Label) (k : nat) (labels : list Label)
  : list Label :=
  match labels, k with
  | [], _ => []
  | l :: rest, O => f l :: rest
  | l :: rest, S k => l :: alter f k rest
  end.

(** [for i in indices: f(eq_labels[i])] *)
Fixpoint for_labels (f : Label -> Label) (indices : list Z)
  (labels : list Label) : outcome unit * list Label :=
  match indices with
  | [] => (Returns tt, labels)
  | i :: rest =>
      match PyList.index (List.length labels) i with
      | None => (Raises IndexError, labels)
      | Some k => for_labels f rest (alter f k labels)
      end
  end.

Definition left_eq_config (s : Settings) (g : eq_left)
  : outcome unit * eq_left :=
  let numcount := numbercount s in
  let number_label_width :=
    Z.of_nat (String.length (Py.str (range_upper s))) + 1 in
  let operator := operator s in
  let labels := map grid_remove (eq_labels g) in
  let first_used_label_index :=
    Z.of_nat (List.length labels) - numcount * 2 in
  match for_labels (configure_width number_label_width)
          (PyList.range first_used_label_index (MAX_NUMBERS * 2 - 1) 2)
          labels with
  | (Raises e, labels) => (Raises e, mk_eq_left operator labels)
  | (Returns _, labels) =>
      let (r, labels) :=
        for_labels grid
          (PyList.range first_used_label_index (MAX_NUMBERS * 2) 1)
          labels in
      (r, mk_eq_left operator labels)
  end.

(** [create_left_eq], given the settings [read_cfg] returned.  The number
    control variables are those of [init]. *)
Definition create_left_eq (s : Settings) : outcome unit * eq_left :=
  let operator := operator s in
  let eq_labels :=
    flat_map
      (fun i =>
         [new_label (textvariable_number i);
          if Z.of_nat i =? MAX_NUMBERS - 1 then new_label (text "=")
          else new_label textvariable_operator])
      (seq 0 (Z.to_nat MAX_NUMBERS)) in
  let eq_labels :=
    map (fun il => grid_remove (grid_at (fst il) (snd il)))
        (combine (seq 0 (List.length eq_labels)) eq_labels) in
  left_eq_config s (mk_eq_left operator eq_labels).

(** [ArithmeticProgram()], given the settings [read_cfg] returned and the
    generator: [__init__] calls [create_left_eq] before it disables the
    game widgets, so it raises when [create_left_eq] does and no program
    state exists then; otherwise the state is that of [init], with the
    labels [create_left_eq] made. *)
Definition launch (s : Settings) (rnd : nat -> Z)
  : outcome (ArithmeticProgram * eq_left) :=
  match create_left_eq s with
  | (Raises e, _) => Raises e
  | (Returns _, g) => Returns (init s rnd, g)
  end.

(** The labels of the equation from operand [k] on: each number label is
    followed by the operator label, the last one by the label "=". *)
Definition equation_labels (k : nat) : list label_text :=
  flat_map
    (fun i =>
       [textvariable_number i;
        if Z.of_nat i =? MAX_NUMBERS - 1 then text "="
        else textvariable_operator])
    (seq k (Z.to_nat MAX_NUMBERS - k)).

(** The labels are those [create_left_eq] made, each in its column. *)
Definition laid_out (g : eq_left) : Prop :=
  map (fun l => (shows l, column l)) (eq_labels g)
  = combine (equation_labels 0)
            (map Some (seq 0 (2 * Z.to_nat MAX_NUMBERS))).

(** What the labels on screen display, from left to right. *)
Definition on_screen (g : eq_left) : list label_text :=
  map shows (filter gridded (eq_labels g)).

(** Every number label on screen has the width [w]. *)
Definition number_labels_wide (w : Z) (g : eq_left) : Prop :=
  Forall (fun l =>
            gridded l = true ->
            forall i, shows l = textvariable_number i -> width l = w)
         (eq_labels g).

(** The text a label displays: the value of its control variable, printed
    as [str] does for a number, or its fixed text. *)
Definition label_reads (g : eq_left) (p : ArithmeticProgram)
  (t : label_text) : string :=
  match t with
  | textvariable_number i => Py.str (nth i (numbers p) 0)
  | textvariable_operator => operator_var g
  | text s => s
  end.

(** What the screen reads, from left to right. *)
Definition screen_reads (g : eq_left) (p : ArithmeticProgram)
  : list string :=
  map (label_reads g p) (on_screen g).

(** The operands [numbers] written with [op] between them and "=" at the
    end. *)
Fixpoint equation_reads (op : string) (numbers : list Z) : list string :=
  match numbers with
  | [] => []
  | [x] => [Py.str x; "="]
  | x :: rest => Py.str x :: op :: equation_reads op rest
  end.

(* ===================================================================== *)
(** * Properties *)
(* ===================================================================== *)

(** ** Lists and folds *)

Lemma fold_left_add_shift (l : list Z) (a : Z) :
  fold_left Z.add l a = a + fold_right Z.add 0 l.
Proof.
  revert a; induction l as [|x l IH]; intros a; simpl.
  - lia.
  - rewrite IH. lia.
Qed.

Lemma fold_left_sub_shift (l : list Z) (a : Z) :
  fold_left (fun base i => base - i) l a = a - fold_right Z.add 0 l.
Proof.
  revert a; induction l as [|x l IH]; intros a; simpl.
  - lia.
  - rewrite IH. lia.
Qed.

Lemma fold_left_mul_shift (l : list Z) (a : Z) :
  fold_left (fun base i => base * i) l a = a * fold_right Z.mul 1 l.
Proof.
  revert a; induction l as [|x l IH]; intros a; simpl.
  - lia.
  - rewrite IH. lia.
Qed.

Lemma sum_of_perm (l l' : list Z) :
  Permutation l l' -> sum_of l = sum_of l'.
Proof.
  unfold sum_of.
  induction 1; simpl; lia.
Qed.

Lemma product_of_perm (l l' : list Z) :
  Permutation l l' -> product_of l = product_of l'.
Proof.
  unfold product_of.
  induction 1; simpl; lia.
Qed.

(** ** [get_answer] *)

Lemma get_answer_add (numbers : list Z) :
  get_answer numbers op_add = ([], Returns (sum_of numbers)).
Proof.
  unfold get_answer, Py.sum, sum_of; simpl.
  now rewrite fold_left_add_shift.
Qed.

Lemma get_answer_sub (x : Z) (xs : list Z) :
  get_answer (x :: xs) op_sub = ([], Returns (x - sum_of xs)).
Proof.
  unfold get_answer, sum_of; simpl.
  now rewrite fold_left_sub_shift.
Qed.

Lemma get_answer_mul (numbers : list Z) :
  numbers <> [] ->
  get_answer numbers op_mul = ([], Returns (product_of numbers)).
Proof.
  destruct numbers as [|x xs]; [congruence|intros _].
  unfold get_answer, product_of; simpl.
  now rewrite fold_left_mul_shift.
Qed.

Lemma get_answer_mul_perm (l l' : list Z) :
  Permutation l l' -> get_answer l op_mul = get_answer l' op_mul.
Proof.
  intros HP.
  destruct l as [|x xs].
  - apply Permutation_nil in HP. now subst.
  - assert (l' <> []) as Hne.
    { intros ->. apply Permutation_sym, Permutation_nil in HP. discriminate. }
    rewrite (get_answer_mul (x :: xs)) by discriminate.
    rewrite (get_answer_mul l') by assumption.
    now rewrite (product_of_perm _ _ HP).
Qed.

Lemma get_answer_add_perm (l l' : list Z) :
  Permutation l l' -> get_answer l op_add = get_answer l' op_add.
Proof.
  intros HP. rewrite !get_answer_add. now rewrite (sum_of_perm _ _ HP).
Qed.

Lemma mul_order_independent : ~ depends_on_order op_mul.
Proof.
  intros (l & l' & HP & Hne). apply Hne. now apply get_answer_mul_perm.
Qed.

Lemma sub_order_dependent : depends_on_order op_sub.
Proof.
  exists [1; 2], [2; 1]. split.
  - apply perm_swap.
  - discriminate.
Qed.

(** C1, as stated, fails for Multiply: the product of the operands is the
    same in every order, so the result of [get_answer] for the
    multiplication operator does not depend on the order of the operands. *)
Lemma multiply_does_not_depend_on_order :
  ~ depends_on_order op_mul /\
  get_answer [2; 3] op_mul = get_answer [3; 2] op_mul.
Proof.
  split; [exact mul_order_independent | reflexivity].
Qed.

(** C1 (amended): on a non-empty list of integers [get_answer] returns,
    without showing a dialog, for Add the sum of all operands, for Subtract
    the left fold of subtraction (the first operand minus each later one in
    sequence order, which is the first operand minus the sum of the
    others), and for Multiply the left fold of multiplication (which is the
    product of all operands).  For Subtract the result depends on the order
    of the operands; for Multiply, as for Add, it does not. *)
Theorem get_answer_evaluates (x : Z) (xs : list Z) :
  get_answer (x :: xs) op_add = ([], Returns (sum_of (x :: xs))) /\
  get_answer (x :: xs) op_sub = ([], Returns (fold_left Z.sub xs x)) /\
  fold_left Z.sub xs x = x - sum_of xs /\
  get_answer (x :: xs) op_mul = ([], Returns (fold_left Z.mul xs x)) /\
  fold_left Z.mul xs x = product_of (x :: xs) /\
  depends_on_order op_sub /\
  ~ depends_on_order op_mul /\
  ~ depends_on_order op_add.
Proof.
  split; [apply get_answer_add|].
  split; [reflexivity|].
  split; [apply (fold_left_sub_shift xs x)|].
  split; [reflexivity|].
  split; [apply (fold_left_mul_shift xs x)|].
  split; [apply sub_order_dependent|].
  split; [apply mul_order_independent|].
  intros (l & l' & HP & Hne). apply Hne. now apply get_answer_add_perm.
Qed.

Lemma in_operators_spec (op : string) :
  in_operators op = true <-> In op OPERATORS.
Proof.
  unfold in_operators. rewrite existsb_exists. split.
  - intros (o & Hin & Heq). apply String.eqb_eq in Heq. now subst.
  - intros Hin. exists op. split; [assumption|apply String.eqb_refl].
Qed.

Lemma get_answer_other (numbers : list Z) (op : string) :
  in_operators op = false ->
  get_answer numbers op = ([msg_no_operator], Returns 0).
Proof.
  unfold in_operators, OPERATORS, get_answer, op_add, op_sub. simpl.
  intros H.
  destruct (String.eqb op "+"); [discriminate|].
  destruct (String.eqb op "-"); [discriminate|].
  destruct (String.eqb op op_mul); [discriminate|].
  reflexivity.
Qed.

(** C6, as stated, fails: for the operator "/" and the operands 6 and 3,
    [get_answer] shows its dialog and then returns the default value 0 to
    its caller; no exception is raised. *)
Lemma unknown_operator_returns_zero :
  ~ In "/" OPERATORS /\
  get_answer [6; 3] "/" = ([msg_no_operator], Returns 0) /\
  (forall e, snd (get_answer [6; 3] "/") <> Raises e).
Proof.
  split; [|split].
  - rewrite <- in_operators_spec. discriminate.
  - reflexivity.
  - intros e. discriminate.
Qed.

(** C6 (amended): for every operand list and every operator outside the
    operator set, [get_answer] surfaces the problem in an error dialog
    ("This really shouldn't happen. Bug report time.") and then returns the
    default value 0 to its caller; the error is shown, not fatal. *)
Theorem get_answer_unknown_operator (numbers : list Z) (op : string) :
  ~ In op OPERATORS ->
  get_answer numbers op = ([msg_no_operator], Returns 0).
Proof.
  intros H. apply get_answer_other.
  destruct (in_operators op) eqn:E; [|reflexivity].
  apply in_operators_spec in E. contradiction.
Qed.

Lemma get_answer_unknown_operator_witness :
  ~ In "x" OPERATORS /\
  get_answer [4; 5; 6] "x" = ([msg_no_operator], Returns 0).
Proof.
  assert (~ In "x" OPERATORS) as H.
  { rewrite <- in_operators_spec. discriminate. }
  split; [exact H|].
  exact (get_answer_unknown_operator [4; 5; 6] "x" H).
Defined.

(** ** [settings_errors] *)

Lemma holds_fails (b : bool) (P : Prop) :
  (b = false <-> P) -> (b = true <-> ~ P).
Proof.
  intros [H1 H2]. destruct b; split; intros H; try reflexivity.
  - intros HP. apply H2 in HP. discriminate HP.
  - discriminate H.
  - exfalso. apply H. now apply H1.
Qed.

Lemma rule_numbercount_holds (s : Settings) :
  fails_numbercount s = false <-> rule_numbercount s.
Proof.
  unfold fails_numbercount, rule_numbercount.
  destruct (Z.ltb_spec 1 (numbercount s));
    destruct (Z.leb_spec (numbercount s) MAX_NUMBERS); simpl;
    split; intros; try discriminate; try reflexivity; lia.
Qed.

Lemma rule_range_holds (s : Settings) :
  fails_range s = false <-> rule_range s.
Proof.
  unfold fails_range, rule_range.
  destruct (Z.leb_spec 0 (range_lower s));
    destruct (Z.leb_spec (range_lower s) RANGE_LIMIT);
    destruct (Z.leb_spec 0 (range_upper s));
    destruct (Z.leb_spec (range_upper s) RANGE_LIMIT); simpl;
    split; intros; try discriminate; try reflexivity; lia.
Qed.

Lemma rule_order_holds (s : Settings) :
  fails_order s = false <-> rule_order s.
Proof.
  unfold fails_order, rule_order.
  destruct (range_lower s >=? range_upper s) eqn:E.
  - rewrite Z.geb_le in E. split; intros; [discriminate|lia].
  - split; intros; [|reflexivity].
    destruct (Z.lt_ge_cases (range_lower s) (range_upper s)) as [Hlt|Hge];
      [exact Hlt|].
    apply Z.geb_le in Hge. congruence.
Qed.

Lemma rule_operator_holds (s : Settings) :
  fails_operator s = false <-> rule_operator s.
Proof.
  unfold fails_operator, rule_operator.
  rewrite <- in_operators_spec.
  destruct (in_operators (operator s)); simpl; split; intros;
    try discriminate; reflexivity.
Qed.

Lemma rule_time_holds (s : Settings) :
  fails_time s = false <-> rule_time s.
Proof.
  unfold fails_time, rule_time.
  destruct (Z.ltb_spec (-1) (time_limit s));
    destruct (Z.ltb_spec (time_limit s) MAX_TIME_LIMIT); simpl;
    split; intros; try discriminate; try reflexivity; lia.
Qed.

Lemma settings_checks_shape (s : Settings) :
  settings_checks s =
    (if fails_numbercount s then [msg_numbercount] else [])
    ++ (if fails_range s then [msg_range] else [])
    ++ (if fails_order s then [msg_order] else [])
    ++ (if fails_operator s then [msg_operator] else [])
    ++ (if fails_time s then [msg_time] else []).
Proof.
  unfold settings_checks.
  fold (fails_numbercount s) (fails_range s) (fails_order s)
       (fails_operator s) (fails_time s).
  destruct (fails_numbercount s), (fails_range s), (fails_order s),
    (fails_operator s), (fails_time s); reflexivity.
Qed.

Lemma has_message_spec (m : string) (l : list string) :
  has_message m l = true <-> In m l.
Proof.
  unfold has_message. rewrite existsb_exists. split.
  - intros (x & Hin & Heq). apply String.eqb_eq in Heq. now subst.
  - intros Hin. exists m. split; [assumption|apply String.eqb_refl].
Qed.

Lemma no_repeat_spec (l : list string) :
  no_repeat l = true -> NoDup l.
Proof.
  induction l as [|m l IH]; simpl; intros H.
  - constructor.
  - apply andb_true_iff in H. destruct H as [H1 H2].
    constructor; [|now apply IH].
    rewrite <- has_message_spec. now destruct (has_message m l).
Qed.

Lemma settings_checks_messages (s : Settings) :
  (In msg_numbercount (settings_checks s) <-> fails_numbercount s = true) /\
  (In msg_range (settings_checks s) <-> fails_range s = true) /\
  (In msg_order (settings_checks s) <-> fails_order s = true) /\
  (In msg_operator (settings_checks s) <-> fails_operator s = true) /\
  (In msg_time (settings_checks s) <-> fails_time s = true) /\
  ~ In msg_integers (settings_checks s) /\
  NoDup (settings_checks s).
Proof.
  rewrite <- !has_message_spec.
  assert (no_repeat (settings_checks s) = true -> NoDup (settings_checks s))
    as HN by apply no_repeat_spec.
  revert HN. generalize (NoDup (settings_checks s)). intros P HN.
  rewrite settings_checks_shape in *.
  destruct (fails_numbercount s), (fails_range s), (fails_order s),
    (fails_operator s), (fails_time s);
    (split; [|split; [|split; [|split; [|split; [|split]]]]]);
    try (apply HN; vm_compute; reflexivity);
    try (vm_compute; split; intros H; (reflexivity || discriminate H));
    vm_compute; intros H; discriminate H.
Qed.

Lemma settings_checks_nil (s : Settings) :
  settings_checks s = [] <-> valid s.
Proof.
  unfold valid.
  rewrite <- rule_numbercount_holds, <- rule_range_holds,
    <- rule_order_holds, <- rule_operator_holds, <- rule_time_holds.
  rewrite settings_checks_shape.
  destruct (fails_numbercount s), (fails_range s), (fails_order s),
    (fails_operator s), (fails_time s); cbn [app];
    split; intros H; try discriminate H;
    repeat match goal with H : _ /\ _ |- _ => destruct H end;
    try discriminate; repeat split.
Qed.

Lemma settings_errors_parsed (raw : raw_settings) (s : Settings) :
  parses_to raw s ->
  settings_errors raw = Checked (settings_checks s) s.
Proof.
  intros (Hn & Hl & Hu & Ho & Ht).
  unfold settings_errors. rewrite Hn. cbn [raw_range_lower].
  rewrite Hl. cbn [raw_range_upper]. rewrite Hu.
  cbn [raw_time_limit raw_operator]. rewrite Ht, Ho.
  now destruct s.
Qed.

Lemma settings_errors_not_integer (raw : raw_settings) :
  some_field_not_integer raw ->
  exists partly, settings_errors raw = NotIntegers partly.
Proof.
  unfold some_field_not_integer, settings_errors.
  destruct (int_of (raw_numbercount raw)); [|eexists; reflexivity].
  cbn [raw_range_lower].
  destruct (int_of (raw_range_lower raw)); [|eexists; reflexivity].
  cbn [raw_range_upper].
  destruct (int_of (raw_range_upper raw)); [|eexists; reflexivity].
  cbn [raw_time_limit].
  destruct (int_of (raw_time_limit raw)); [|eexists; reflexivity].
  intros [H|[H|[H|H]]]; discriminate H.
Qed.

(** C2: when the numeric fields of the raw settings all parse as
    integers, [settings_errors] returns an empty error list exactly when
    the five rules hold, and otherwise every failing rule, and no other,
    contributes its own message, once; when a numeric field does not parse
    as an integer, the only error is the generic must-be-integers one. *)
Theorem settings_errors_rules (raw : raw_settings) :
  (forall s : Settings,
      parses_to raw s ->
      let errors := errors_of (settings_errors raw) in
      (errors = [] <-> valid s) /\
      (In msg_numbercount errors <-> ~ rule_numbercount s) /\
      (In msg_range errors <-> ~ rule_range s) /\
      (In msg_order errors <-> ~ rule_order s) /\
      (In msg_operator errors <-> ~ rule_operator s) /\
      (In msg_time errors <-> ~ rule_time s) /\
      ~ In msg_integers errors /\
      NoDup errors) /\
  (some_field_not_integer raw ->
   errors_of (settings_errors raw) = [msg_integers]).
Proof.
  split.
  - intros s Hp. rewrite (settings_errors_parsed raw s Hp). cbn [errors_of].
    destruct (settings_checks_messages s) as (M1 & M2 & M3 & M4 & M5 & M6 & M7).
    rewrite <- (holds_fails _ _ (rule_numbercount_holds s)),
      <- (holds_fails _ _ (rule_range_holds s)),
      <- (holds_fails _ _ (rule_order_holds s)),
      <- (holds_fails _ _ (rule_operator_holds s)),
      <- (holds_fails _ _ (rule_time_holds s)).
    split; [apply settings_checks_nil|].
    repeat (split; [assumption|]). assumption.
  - intros Hn. destruct (settings_errors_not_integer raw Hn) as (partly & E).
    now rewrite E.
Qed.

Lemma settings_errors_rules_witness :
  let raw := mk_raw (PyStr "1") (PyStr " 5") (PyStr "2_000") "x" (PyStr "900") in
  let s := mk_settings 1 5 2000 "x" 900 in
  let raw' := mk_raw (PyStr "2") (PyStr "0") (PyStr "1e3") "+" (PyStr "60") in
  (In msg_numbercount (errors_of (settings_errors raw))
   <-> ~ rule_numbercount s) /\
  errors_of (settings_errors raw') = [msg_integers].
Proof.
  intros raw s raw'.
  assert (parses_to raw s) as Hp by (repeat split; reflexivity).
  assert (some_field_not_integer raw') as Hn
    by (right; right; left; reflexivity).
  split.
  - exact (proj1 (proj2 (proj1 (settings_errors_rules raw) s Hp))).
  - exact (proj2 (settings_errors_rules raw') Hn).
Defined.

(** ** Strings *)

Lemma all_chars_app (f : ascii -> bool) (a b : string) :
  all_chars f (a ++ b) = all_chars f a && all_chars f b.
Proof.
  induction a as [|c a IH]; simpl.
  - reflexivity.
  - now rewrite IH, andb_assoc.
Qed.

Lemma all_chars_weaken (f g : ascii -> bool) (s : string) :
  (forall c, f c = true -> g c = true) ->
  all_chars f s = true -> all_chars g s = true.
Proof.
  intros Hfg. induction s as [|c s IH]; simpl; [reflexivity|].
  intros H. apply andb_true_iff in H. destruct H as [H1 H2].
  now rewrite (Hfg c H1), (IH H2).
Qed.

Lemma universal_newlines_visible (s : string) :
  all_chars is_visible s = true -> Py.universal_newlines s = s.
Proof.
  induction s as [|c s IH]; simpl; [reflexivity|].
  intros H. apply andb_true_iff in H. destruct H as [H1 H2].
  destruct (Ascii.eqb_spec c CR) as [->|_]; [discriminate H1|].
  now rewrite IH.
Qed.

Lemma universal_newlines_line (a rest : string) :
  all_chars is_visible a = true ->
  Py.universal_newlines (a ++ String LF rest)
  = (a ++ String LF (Py.universal_newlines rest))%string.
Proof.
  induction a as [|c a IH]; simpl; [reflexivity|].
  intros H. apply andb_true_iff in H. destruct H as [H1 H2].
  destruct (Ascii.eqb_spec c CR) as [->|_]; [discriminate H1|].
  now rewrite IH.
Qed.

Lemma lines_of_line (a rest : string) :
  all_chars is_visible a = true ->
  Py.lines_of (a ++ String LF rest)
  = (a ++ String LF EmptyString)%string :: Py.lines_of rest.
Proof.
  induction a as [|c a IH]; simpl; [reflexivity|].
  intros H. apply andb_true_iff in H. destruct H as [H1 H2].
  destruct (Ascii.eqb_spec c LF) as [->|_]; [discriminate H1|].
  now rewrite IH.
Qed.

Lemma lines_of_last (a : string) :
  a <> EmptyString -> all_chars is_visible a = true -> Py.lines_of a = [a].
Proof.
  induction a as [|c a IH]; [congruence|]. simpl.
  intros _ H. apply andb_true_iff in H. destruct H as [H1 H2].
  destruct (Ascii.eqb_spec c LF) as [->|_]; [discriminate H1|].
  destruct a as [|c' a]; [reflexivity|].
  now rewrite IH.
Qed.

Lemma rstrip_by_all (sp : ascii -> bool) (b : string) :
  all_chars sp b = true -> Py.rstrip_by sp b = EmptyString.
Proof.
  induction b as [|c b IH]; simpl; [reflexivity|].
  intros H. apply andb_true_iff in H. destruct H as [H1 H2].
  now rewrite IH, H1.
Qed.

Lemma rstrip_by_tail (sp : ascii -> bool) (a b : string) :
  all_chars (fun c => negb (sp c)) a = true ->
  all_chars sp b = true ->
  Py.rstrip_by sp (a ++ b) = a.
Proof.
  intros Ha Hb. induction a as [|c a IH]; simpl.
  - now apply rstrip_by_all.
  - simpl in Ha. apply andb_true_iff in Ha. destruct Ha as [H1 H2].
    rewrite (IH H2). apply negb_true_iff in H1. rewrite H1.
    now destruct a.
Qed.

Lemma append_empty (a : string) : (a ++ EmptyString)%string = a.
Proof.
  induction a as [|c a IH]; simpl; [reflexivity|now rewrite IH].
Qed.

Lemma rstrip_by_none (sp : ascii -> bool) (a : string) :
  all_chars (fun c => negb (sp c)) a = true -> Py.rstrip_by sp a = a.
Proof.
  intros Ha. rewrite <- (append_empty a) at 1. now apply rstrip_by_tail.
Qed.

Lemma rstrip_line (a : string) :
  all_chars is_visible a = true ->
  Py.rstrip (a ++ String LF EmptyString) = a /\ Py.rstrip a = a.
Proof.
  intros H. unfold Py.rstrip. split.
  - now apply rstrip_by_tail.
  - now apply rstrip_by_none.
Qed.

Lemma is_plain_visible (s : string) :
  all_chars is_plain s = true -> all_chars is_visible s = true.
Proof.
  apply all_chars_weaken. intros c H.
  unfold is_plain in H. now apply andb_true_iff in H.
Qed.

Lemma split_none (v : string) :
  all_chars is_plain v = true -> Py.split ";"%char v = [v].
Proof.
  induction v as [|c v IH]; simpl; [reflexivity|].
  intros H. apply andb_true_iff in H. destruct H as [H1 H2].
  unfold is_plain in H1. apply andb_true_iff in H1. destruct H1 as [_ H1].
  apply negb_true_iff in H1. rewrite H1. now rewrite IH.
Qed.

Lemma split_cfg_line (name value : string) :
  all_chars is_plain name = true ->
  all_chars is_plain value = true ->
  Py.split ";"%char (cfg_line name value) = [name; value].
Proof.
  intros Hn Hv. unfold cfg_line.
  induction name as [|c name IH]; simpl.
  - now rewrite split_none.
  - simpl in Hn. apply andb_true_iff in Hn. destruct Hn as [H1 H2].
    unfold is_plain in H1. apply andb_true_iff in H1. destruct H1 as [_ H1].
    apply negb_true_iff in H1. rewrite H1. now rewrite IH.
Qed.

Lemma cfg_line_visible (name value : string) :
  all_chars is_plain name = true ->
  all_chars is_plain value = true ->
  all_chars is_visible (cfg_line name value) = true.
Proof.
  intros Hn Hv. unfold cfg_line.
  rewrite all_chars_app. cbn [all_chars].
  now rewrite (is_plain_visible _ Hn), (is_plain_visible _ Hv).
Qed.

(** ** [int] and [str] *)

Ltac each_char c := destruct c as [[] [] [] [] [] [] [] []].

Lemma digit_char (c : ascii) :
  is_digit c = true ->
  Py.int_isspace c = false /\ is_plain c = true /\
  Ascii.eqb c "-"%char = false /\ Ascii.eqb c "+"%char = false /\
  Ascii.eqb c "_"%char = false.
Proof.
  each_char c; intros H; try discriminate H; repeat split; reflexivity.
Qed.

Lemma number_char_plain (c : ascii) :
  is_number_char c = true -> is_plain c = true /\ Py.int_isspace c = false.
Proof.
  each_char c; intros H; try discriminate H; split; reflexivity.
Qed.

Lemma string_of_uint_digits (d : Decimal.uint) :
  all_chars is_digit (NilEmpty.string_of_uint d) = true.
Proof.
  induction d; simpl; assumption || reflexivity.
Qed.

Lemma string_of_uint_head (d : Decimal.uint) :
  d <> Decimal.Nil ->
  exists c r, NilEmpty.string_of_uint d = String c r /\ is_digit c = true.
Proof.
  destruct d; intros H; try congruence; simpl; eexists; eexists;
    (split; [reflexivity|reflexivity]).
Qed.

Lemma digits_step (c c' : ascii) (r : string)
  (f : Decimal.uint -> Decimal.uint) :
  digit_of c = Some f ->
  is_digit c' = true ->
  Py.digits (String c (String c' r))
  = option_map f (Py.digits (String c' r)).
Proof.
  intros Hc Hc'. cbn [Py.digits]. rewrite Hc.
  each_char c'; try discriminate Hc'; reflexivity.
Qed.

Lemma digits_string_of_uint (d : Decimal.uint) :
  d <> Decimal.Nil -> Py.digits (NilEmpty.string_of_uint d) = Some d.
Proof.
  induction d as [|d IH|d IH|d IH|d IH|d IH|d IH|d IH|d IH|d IH|d IH];
    intros H; try congruence;
    cbn [NilEmpty.string_of_uint];
    (destruct (Decimal.uint_eq_dec d Decimal.Nil) as [->|Hd];
     [reflexivity|];
     destruct (string_of_uint_head d Hd) as (c & r & E & Hc);
     rewrite E; erewrite (digits_step _ c r); [|reflexivity|exact Hc];
     rewrite <- E, (IH Hd); reflexivity).
Qed.

Lemma int_unsigned (c : ascii) (r : string) :
  is_digit c = true ->
  all_chars is_digit r = true ->
  Py.int (String c r) = option_map Z.of_uint (Py.digits (String c r)).
Proof.
  intros Hc Hr. unfold Py.int.
  destruct (digit_char c Hc) as (Hs & _ & Hm & Hp & _).
  cbn [Py.lstrip_by]. rewrite Hs.
  rewrite rstrip_by_none.
  - each_char c; try discriminate Hc; reflexivity.
  - cbn [all_chars]. rewrite Hs. cbn [negb andb].
    revert Hr. apply all_chars_weaken.
    intros c' Hc'. now rewrite (proj1 (digit_char c' Hc')).
Qed.

Lemma int_negative (r : string) :
  all_chars is_digit r = true ->
  Py.int (String "-"%char r)
  = option_map (fun d => - Z.of_uint d) (Py.digits r).
Proof.
  intros Hr. unfold Py.int.
  change (Py.lstrip_by Py.int_isspace (String "-"%char r))
    with (String "-"%char r).
  rewrite rstrip_by_none; [reflexivity|].
  cbn [all_chars].
  change (negb (Py.int_isspace "-"%char)) with true. cbn [andb].
  revert Hr. apply all_chars_weaken.
  intros c' Hc'. now rewrite (proj1 (digit_char c' Hc')).
Qed.

Lemma of_uint_to_uint (p : positive) : Z.of_uint (Pos.to_uint p) = Z.pos p.
Proof.
  unfold Z.of_uint. now rewrite DecimalPos.Unsigned.of_to.
Qed.

(** [int(str(z)) == z] *)
Lemma int_str (z : Z) : Py.int (Py.str z) = Some z.
Proof.
  unfold Py.str. destruct z as [|p|p]; [reflexivity| |].
  - cbn [Z.to_int NilZero.string_of_int].
    pose proof (DecimalPos.Unsigned.to_uint_nonnil p) as Hn.
    assert (NilZero.string_of_uint (Pos.to_uint p)
            = NilEmpty.string_of_uint (Pos.to_uint p)) as E
      by (destruct (Pos.to_uint p); congruence || reflexivity).
    rewrite E.
    destruct (string_of_uint_head _ Hn) as (c & r & E' & Hc).
    pose proof (string_of_uint_digits (Pos.to_uint p)) as Hd.
    rewrite E' in Hd. cbn [all_chars] in Hd.
    apply andb_true_iff in Hd. destruct Hd as [_ Hd].
    rewrite E', (int_unsigned c r Hc Hd), <- E'.
    rewrite (digits_string_of_uint _ Hn). cbn [option_map].
    now rewrite of_uint_to_uint.
  - cbn [Z.to_int NilZero.string_of_int].
    pose proof (DecimalPos.Unsigned.to_uint_nonnil p) as Hn.
    assert (NilZero.string_of_uint (Pos.to_uint p)
            = NilEmpty.string_of_uint (Pos.to_uint p)) as E
      by (destruct (Pos.to_uint p); congruence || reflexivity).
    rewrite E.
    rewrite (int_negative _ (string_of_uint_digits _)).
    rewrite (digits_string_of_uint _ Hn). cbn [option_map].
    now rewrite of_uint_to_uint.
Qed.

Lemma str_number_chars (z : Z) :
  all_chars is_number_char (Py.str z) = true.
Proof.
  assert (forall d, all_chars is_number_char (NilZero.string_of_uint d) = true)
    as Hu.
  { intros d.
    assert (all_chars is_number_char (NilEmpty.string_of_uint d) = true) as H.
    { apply (all_chars_weaken is_digit); [|apply string_of_uint_digits].
      intros c Hc. unfold is_number_char. now rewrite Hc. }
    destruct d; exact H || reflexivity. }
  unfold Py.str. destruct (Z.to_int z) as [d|d]; cbn [NilZero.string_of_int].
  - apply Hu.
  - cbn [all_chars]. now rewrite Hu.
Qed.

Lemma str_plain (z : Z) : all_chars is_plain (Py.str z) = true.
Proof.
  apply (all_chars_weaken is_number_char); [|apply str_number_chars].
  intros c Hc. now apply number_char_plain.
Qed.

Lemma str_not_empty (z : Z) : Py.str z <> EmptyString.
Proof.
  intros E. pose proof (int_str z) as H. rewrite E in H. discriminate H.
Qed.

(** ** The configuration file *)

Lemma cfg_text_lines (s : Settings) :
  cfg_text (dict_of s)
  = (cfg_line "numbercount" (Py.str (numbercount s)) ++ String LF
    (cfg_line "range_lower" (Py.str (range_lower s)) ++ String LF
    (cfg_line "range_upper" (Py.str (range_upper s)) ++ String LF
    (cfg_line "operator" (operator s) ++ String LF
    (cfg_line "time_limit" (Py.str (time_limit s)))))))%string.
Proof. reflexivity. Qed.

Lemma read_line_number (temp : dict) (name : string) (z : Z) :
  all_chars is_plain name = true ->
  String.eqb name "operator" = false ->
  read_line temp (cfg_line name (Py.str z) ++ String LF EmptyString)
  = Returns (dict_set name (PyInt z) temp) /\
  read_line temp (cfg_line name (Py.str z))
  = Returns (dict_set name (PyInt z) temp).
Proof.
  intros Hn Ho.
  pose proof (cfg_line_visible name (Py.str z) Hn (str_plain z)) as Hv.
  destruct (rstrip_line _ Hv) as [E1 E2].
  unfold read_line. rewrite E1, E2.
  rewrite (split_cfg_line name (Py.str z) Hn (str_plain z)).
  rewrite Ho. cbn [negb]. rewrite int_str. split; reflexivity.
Qed.

Lemma read_line_operator (temp : dict) (op : string) :
  all_chars is_plain op = true ->
  read_line temp (cfg_line "operator" op ++ String LF EmptyString)
  = Returns (dict_set "operator" (PyStr op) temp).
Proof.
  intros Ho.
  pose proof (cfg_line_visible "operator" op eq_refl Ho) as Hv.
  destruct (rstrip_line _ Hv) as [E1 _].
  unfold read_line. rewrite E1.
  rewrite (split_cfg_line "operator" op eq_refl Ho).
  reflexivity.
Qed.

Lemma cfg_line_not_empty (name value : string) :
  cfg_line name value <> EmptyString.
Proof.
  unfold cfg_line. destruct name; discriminate.
Qed.

Lemma readlines_cfg_text (s : Settings) :
  all_chars is_plain (operator s) = true ->
  Py.readlines (cfg_text (dict_of s))
  = [ (cfg_line "numbercount" (Py.str (numbercount s))
       ++ String LF EmptyString)%string;
      (cfg_line "range_lower" (Py.str (range_lower s))
       ++ String LF EmptyString)%string;
      (cfg_line "range_upper" (Py.str (range_upper s))
       ++ String LF EmptyString)%string;
      (cfg_line "operator" (operator s) ++ String LF EmptyString)%string;
      cfg_line "time_limit" (Py.str (time_limit s)) ].
Proof.
  intros Ho. rewrite cfg_text_lines. unfold Py.readlines.
  pose proof (cfg_line_visible "numbercount" _ eq_refl
                (str_plain (numbercount s))) as V1.
  pose proof (cfg_line_visible "range_lower" _ eq_refl
                (str_plain (range_lower s))) as V2.
  pose proof (cfg_line_visible "range_upper" _ eq_refl
                (str_plain (range_upper s))) as V3.
  pose proof (cfg_line_visible "operator" _ eq_refl Ho) as V4.
  pose proof (cfg_line_visible "time_limit" _ eq_refl
                (str_plain (time_limit s))) as V5.
  rewrite (universal_newlines_line _ _ V1), (universal_newlines_line _ _ V2),
    (universal_newlines_line _ _ V3), (universal_newlines_line _ _ V4),
    (universal_newlines_visible _ V5).
  rewrite (lines_of_line _ _ V1), (lines_of_line _ _ V2),
    (lines_of_line _ _ V3), (lines_of_line _ _ V4).
  rewrite (lines_of_last _ (cfg_line_not_empty _ _) V5).
  reflexivity.
Qed.

Lemma read_cfg_try_cfg_text (s : Settings) :
  all_chars is_plain (operator s) = true ->
  read_cfg_try (Some (cfg_text (dict_of s))) = Returns (dict_of s).
Proof.
  intros Ho. unfold read_cfg_try.
  rewrite (readlines_cfg_text s Ho).
  cbn [read_lines].
  rewrite (proj1 (read_line_number [] "numbercount" (numbercount s)
                    eq_refl eq_refl)).
  rewrite (proj1 (read_line_number _ "range_lower" (range_lower s)
                    eq_refl eq_refl)).
  rewrite (proj1 (read_line_number _ "range_upper" (range_upper s)
                    eq_refl eq_refl)).
  rewrite (read_line_operator _ (operator s) Ho).
  rewrite (proj2 (read_line_number _ "time_limit" (time_limit s)
                    eq_refl eq_refl)).
  reflexivity.
Qed.

Lemma operators_plain (op : string) :
  In op OPERATORS -> all_chars is_plain op = true.
Proof.
  intros [<-|[<-|[<-|[]]]]; reflexivity.
Qed.

(** C7: for every valid settings record, writing it with [write_cfg] and
    then reading the file with [read_cfg] returns the same dictionary (the
    four integers and the operator glyph), shows no dialog and leaves the
    file as written. *)
Theorem write_then_read_cfg (s : Settings) (file : option string) :
  valid s ->
  read_cfg (write_cfg (dict_of s) file)
  = (dict_of s, [], write_cfg (dict_of s) file).
Proof.
  intros (_ & _ & _ & Hop & _).
  unfold read_cfg, write_cfg.
  now rewrite (read_cfg_try_cfg_text s (operators_plain _ Hop)).
Qed.

Lemma write_then_read_cfg_witness :
  valid (mk_settings 5 12 1000 op_mul 899) /\
  read_cfg (write_cfg (dict_of (mk_settings 5 12 1000 op_mul 899)) None)
  = (dict_of (mk_settings 5 12 1000 op_mul 899), [],
     write_cfg (dict_of (mk_settings 5 12 1000 op_mul 899)) None).
Proof.
  assert (valid (mk_settings 5 12 1000 op_mul 899)) as H.
  { unfold valid, rule_numbercount, rule_range, rule_order, rule_operator,
      rule_time, MAX_NUMBERS, RANGE_LIMIT, MAX_TIME_LIMIT, OPERATORS; simpl.
    repeat split; try lia. right; right; left; reflexivity. }
  split; [exact H|].
  exact (write_then_read_cfg _ None H).
Defined.

(** ** What the methods assign *)

(** Taking the object apart, so that what a method assigns can be read
    back attribute by attribute. *)
Ltac open_state p :=
  destruct p as [st ac aa sp rc rp tl ns nu en ua rw sw sc dg et dr].

Tactic Notation "read_back" :=
  cbn [settings answers_correct answers_all stoptimer results_cur
       results_prev time_left numbers numbers_in_use entries uanswer
       running_active_widgets stopped_active_widgets scheduled dialogs
       entropy drawn
       set_settings set_answers_correct set_answers_all set_stoptimer
       set_results_cur set_results_prev set_time_left set_numbers
       set_numbers_in_use set_entries set_uanswer
       set_running_active_widgets set_stopped_active_widgets set_scheduled
       set_dialogs set_drawn].

Tactic Notation "read_back" "in" hyp(H) :=
  cbn [settings answers_correct answers_all stoptimer results_cur
       results_prev time_left numbers numbers_in_use entries uanswer
       running_active_widgets stopped_active_widgets scheduled dialogs
       entropy drawn
       set_settings set_answers_correct set_answers_all set_stoptimer
       set_results_cur set_results_prev set_time_left set_numbers
       set_numbers_in_use set_entries set_uanswer
       set_running_active_widgets set_stopped_active_widgets set_scheduled
       set_dialogs set_drawn] in H.

Lemma set_numbers_drawn_same (p : ArithmeticProgram) :
  set_numbers (numbers p) (set_drawn (drawn p) p) = p.
Proof. now destruct p. Qed.

Lemma set_numbers_drawn_again (N N' : list Z) (D D' : nat)
  (p : ArithmeticProgram) :
  set_numbers N (set_drawn D (set_numbers N' (set_drawn D' p)))
  = set_numbers N (set_drawn D p).
Proof. now destruct p. Qed.

(** [draw_each] assigns the control variables and advances the generator,
    nothing else. *)
Lemma draw_each_assigns (low high : Z) (vars : list nat)
  (p : ArithmeticProgram) :
  exists N D, snd (draw_each low high vars p) = set_numbers N (set_drawn D p).
Proof.
  revert p. induction vars as [|i vars IH]; intros p.
  - exists (numbers p), (drawn p). simpl. now rewrite set_numbers_drawn_same.
  - cbn [draw_each]. destruct (Py.randint _ low high) as [r|e].
    + destruct (IH (set_numbers (list_set i r (numbers p))
                      (set_drawn (S (drawn p)) p))) as (N & D & E).
      exists N, D. rewrite E. apply set_numbers_drawn_again.
    + exists (numbers p), (drawn p). simpl.
      now rewrite set_numbers_drawn_same.
Qed.

Lemma set_new_calculation_assigns (p : ArithmeticProgram) :
  exists N D U,
    snd (set_new_calculation p)
    = set_uanswer U (set_numbers N (set_drawn D p)).
Proof.
  unfold set_new_calculation. destruct (numbers_in_use p) as [k|].
  - unfold bind, exec.
    destruct (draw_each_assigns (range_lower (settings p))
                (range_upper (settings p)) (in_use k p) p) as (N & D & E).
    destruct (draw_each _ _ _ p) as [[[]|e] p']; cbn [snd] in E; subst p'.
    + open_state p. unfold clear_field. read_back. destruct rw.
      * now exists N, D, EmptyString.
      * now exists N, D, ua.
    + open_state p. now exists N, D, ua.
  - open_state p. now exists ns, dr, ua.
Qed.

(** The attributes [advance_turn] assigns, and the counters it leaves. *)
Lemma advance_turn_assigns (correct : bool) (p : ArithmeticProgram) :
  exists N D U,
    snd (advance_turn correct p)
    = set_uanswer U (set_numbers N (set_drawn D
        (set_results_cur
           (score_text (answers_correct p + (if correct then 1 else 0))
                       (answers_all p + 1))
           (set_answers_correct
              (answers_correct p + (if correct then 1 else 0))
              (set_answers_all (answers_all p + 1) p))))).
Proof.
  unfold advance_turn.
  match goal with
  | |- context [set_new_calculation ?q] =>
      destruct (set_new_calculation_assigns q) as (N & D & U & E)
  end.
  exists N, D, U. rewrite E. clear E.
  open_state p. destruct correct; read_back; rewrite ?Z.add_0_r; reflexivity.
Qed.

(** ** The score counters *)

Lemma stop_game_score (p : ArithmeticProgram) :
  score_invariant (stop_game p).
Proof.
  open_state p. unfold score_invariant, stop_game, clear_field. read_back.
  destruct rw; read_back; lia.
Qed.

Lemma countdown_score (count : Z) (p : ArithmeticProgram) :
  score_invariant p -> score_invariant (countdown count p).
Proof.
  intros H. unfold countdown.
  destruct (stoptimer p); [exact H|].
  destruct (count >? 0); [|apply stop_game_score].
  open_state p. exact H.
Qed.

Lemma advance_turn_score (correct : bool) (p : ArithmeticProgram) :
  score_invariant p -> score_invariant (snd (advance_turn correct p)).
Proof.
  intros H. destruct (advance_turn_assigns correct p) as (N & D & U & E).
  rewrite E. open_state p. unfold score_invariant in *. read_back.
  read_back in H. destruct correct; lia.
Qed.

Lemma clear_field_score (p : ArithmeticProgram) :
  score_invariant p -> score_invariant (clear_field p).
Proof.
  unfold clear_field. open_state p. read_back. now destruct rw.
Qed.

Lemma answer_except_score (uanswer : string) (p : ArithmeticProgram) :
  score_invariant p -> score_invariant (snd (answer_except uanswer p)).
Proof.
  intros H. unfold answer_except.
  destruct (String.eqb uanswer EmptyString).
  - now apply advance_turn_score.
  - unfold exec. cbn [snd]. unfold show, clear_field.
    open_state p. read_back. now destruct rw.
Qed.

Lemma answer_process_score (uanswer : string) (p : ArithmeticProgram) :
  score_invariant p -> score_invariant (snd (answer_process uanswer p)).
Proof.
  intros H. unfold answer_process.
  destruct (numbers_in_use p) as [k|]; [|exact H].
  destruct (get_answer _ _) as [shown [answer|e]].
  - set (p1 := set_dialogs (dialogs p ++ shown) p).
    assert (score_invariant p1) as H1 by (unfold p1; now open_state p).
    destruct (Py.int uanswer) as [u|].
    + pose proof (advance_turn_score (u =? answer) p1 H1) as H2.
      destruct (advance_turn (u =? answer) p1) as [[[]|e] p2]; [exact H2|].
      destruct e; try exact H2.
      now apply answer_except_score.
    + now apply answer_except_score.
  - now open_state p.
Qed.

Lemma push_settings_score (display : bool) (p : ArithmeticProgram) :
  score_invariant p -> score_invariant (snd (push_settings display p)).
Proof.
  intros H. unfold push_settings, show.
  destruct (settings_errors (temp_settings p)) as [partly|[|m errors] s];
    try destruct display; open_state p; exact H.
Qed.

Lemma set_new_calculation_score (p : ArithmeticProgram) :
  score_invariant p -> score_invariant (snd (set_new_calculation p)).
Proof.
  intros H. destruct (set_new_calculation_assigns p) as (N & D & U & E).
  rewrite E. now open_state p.
Qed.

Lemma start_game_setup_score (p : ArithmeticProgram) :
  score_invariant p -> score_invariant (snd (start_game_setup p)).
Proof.
  intros H. unfold start_game_setup.
  apply set_new_calculation_score.
  unfold transfer_results. open_state p. read_back.
  destruct (negb (String.eqb rc EmptyString)); exact H.
Qed.

Lemma start_game_score (p : ArithmeticProgram) :
  score_invariant p -> score_invariant (snd (start_game p)).
Proof.
  intros H. unfold start_game.
  pose proof (push_settings_score true p H) as H1.
  destruct (push_settings true p) as [[|] p1]; cbn [snd] in H1; [|exact H1].
  unfold bind, exec.
  pose proof (start_game_setup_score p1 H1) as H2.
  destruct (start_game_setup p1) as [[[]|e] p2]; cbn [snd] in *; [|exact H2].
  destruct (negb (time_limit (settings p2) =? 0)); [|exact H2].
  now apply countdown_score.
Qed.

Lemma step_score (e : event) (p : ArithmeticProgram) :
  score_invariant p -> score_invariant (step e p).
Proof.
  intros H. destruct e; cbn [step]; unfold when_enabled.
  - destruct (stopped_active_widgets p); [now apply start_game_score|exact H].
  - destruct (running_active_widgets p); [apply stop_game_score|exact H].
  - destruct (running_active_widgets p);
      [now apply answer_process_score|exact H].
  - destruct (running_active_widgets p);
      [now apply clear_field_score|exact H].
  - destruct (running_active_widgets p); [now open_state p|exact H].
  - destruct (stopped_active_widgets p); [now open_state p|exact H].
  - destruct (scheduled p) as [|count rest]; [exact H|].
    apply countdown_score. now open_state p.
Qed.

Lemma run_app (events events' : list event) (p : ArithmeticProgram) :
  run (events ++ events') p = run events' (run events p).
Proof. unfold run. apply fold_left_app. Qed.

Lemma run_score (events : list event) (p : ArithmeticProgram) :
  score_invariant p -> score_invariant (run events p).
Proof.
  revert p. induction events as [|e events IH]; intros p H; [exact H|].
  cbn [run fold_left]. apply IH. now apply step_score.
Qed.

(** C10: the counters satisfy 0 <= correctCount <= totalCount when the
    program is launched, every operation (start, answer submission and
    the turn advance inside it, stop, countdown tick) preserves this, and
    so it holds in every state the event loop can reach. *)
Theorem score_counters_consistent (p : ArithmeticProgram) :
  score_invariant p ->
  score_invariant (snd (start_game p)) /\
  (forall uanswer, score_invariant (snd (answer_process uanswer p))) /\
  (forall correct, score_invariant (snd (advance_turn correct p))) /\
  score_invariant (stop_game p) /\
  (forall count, score_invariant (countdown count p)) /\
  (forall events, score_invariant (run events p)) /\
  (forall s rnd events, score_invariant (run events (init s rnd))).
Proof.
  intros H.
  split; [now apply start_game_score|].
  split; [intros; now apply answer_process_score|].
  split; [intros; now apply advance_turn_score|].
  split; [apply stop_game_score|].
  split; [intros; now apply countdown_score|].
  split; [intros; now apply run_score|].
  intros s rnd events. apply run_score. unfold score_invariant. cbn. lia.
Qed.

Lemma score_counters_consistent_witness :
  let p := run [press_start; type_answer "3"; press_submit_key;
                press_submit_key] (init defaults (fun _ => 1)) in
  score_invariant p /\ score_invariant (snd (answer_process "x" p)) /\
  score_invariant (countdown 0 p).
Proof.
  intros p.
  assert (score_invariant p) as H.
  { unfold score_invariant.
    replace (answers_correct p) with 0 by (vm_compute; reflexivity).
    replace (answers_all p) with 2 by (vm_compute; reflexivity). lia. }
  pose proof (score_counters_consistent p H) as (_ & Ha & _ & _ & Hc & _).
  split; [exact H|]. split; [exact (Ha "x")|exact (Hc 0)].
Defined.

(** ** A new calculation *)

Lemma list_set_length (i : nat) (v : Z) (l : list Z) :
  List.length (list_set i v l) = List.length l.
Proof.
  revert i. induction l as [|x l IH]; intros [|i]; simpl; auto.
Qed.

Lemma firstn_list_set (k : nat) (v : Z) (l : list Z) :
  (k < List.length l)%nat ->
  firstn (S k) (list_set k v l) = firstn k l ++ [v].
Proof.
  revert k. induction l as [|x l IH]; intros k H; simpl in H; [lia|].
  destruct k as [|k].
  - reflexivity.
  - cbn [list_set]. rewrite !firstn_cons. rewrite IH by lia. reflexivity.
Qed.

Lemma draw_each_seq (low high : Z) (n : nat) :
  low <= high ->
  forall (k : nat) (p : ArithmeticProgram),
    (k + n = List.length (numbers p))%nat ->
    draw_each low high (seq k n) p
    = (Returns tt,
       set_numbers
         (firstn k (numbers p)
          ++ map (fun j => low + entropy p (drawn p + j)%nat
                                 mod (high - low + 1)) (seq 0 n))
         (set_drawn (drawn p + n)%nat p)).
Proof.
  intros Hle. induction n as [|n IH]; intros k p Hk.
  - cbn [seq draw_each map]. unfold ret. f_equal.
    rewrite List.app_nil_r, Nat.add_0_r.
    rewrite firstn_all2 by lia. now rewrite set_numbers_drawn_same.
  - cbn [seq draw_each]. unfold Py.randint.
    destruct (Z.ltb_spec high low) as [Hlt|_]; [lia|].
    open_state p. read_back. read_back in Hk.
    rewrite IH by (read_back; rewrite list_set_length; lia).
    read_back.
    rewrite firstn_list_set by lia.
    rewrite <- List.app_assoc. cbn [app map].
    rewrite Nat.add_0_r, <- seq_shift, map_map.
    replace (S dr + n)%nat with (dr + S n)%nat by lia.
    rewrite (map_ext (fun j => low + et (S dr + j)%nat mod (high - low + 1))
                     (fun j => low + et (dr + S j)%nat mod (high - low + 1)))
      by (intros j; now rewrite Nat.add_succ_r).
    reflexivity.
Qed.

Lemma set_new_calculation_fresh (p : ArithmeticProgram) (k : nat) :
  running_active_widgets p = NORMAL ->
  numbers_in_use p = Some k ->
  (k <= List.length (numbers p))%nat ->
  range_lower (settings p) <= range_upper (settings p) ->
  set_new_calculation p
  = (Returns tt,
     set_uanswer EmptyString
       (set_numbers
          (firstn k (numbers p)
           ++ map (operand p (drawn p))
                  (seq 0 (List.length (numbers p) - k)))
          (set_drawn (drawn p + (List.length (numbers p) - k))%nat p))).
Proof.
  intros Hw Hk Hlen Hle. unfold set_new_calculation. rewrite Hk.
  unfold bind, in_use. rewrite (draw_each_seq _ _ _ Hle) by lia.
  unfold exec, clear_field, operand. open_state p. read_back.
  read_back in Hw. now rewrite Hw.
Qed.

Lemma valid_range (s : Settings) :
  valid s -> range_lower s <= range_upper s.
Proof.
  intros (_ & _ & H & _). unfold rule_order in H. lia.
Qed.

Lemma advance_turn_attempted (correct : bool) (p : ArithmeticProgram)
  (k : nat) :
  running_session p k ->
  exists p',
    advance_turn correct p = (Returns tt, p') /\ attempted correct k p p'.
Proof.
  intros [Hw Hk Hlt Hv]. apply valid_range in Hv. unfold advance_turn.
  open_state p. read_back in Hw. read_back in Hk. read_back in Hlt.
  read_back in Hv. subst rw nu.
  destruct correct; read_back;
    (rewrite (set_new_calculation_fresh _ k);
     [|reflexivity|reflexivity|read_back; lia|exact Hv]);
    (eexists; split; [reflexivity|]);
    unfold attempted, operand; read_back; rewrite ?Z.add_0_r;
    repeat split; reflexivity.
Qed.

Lemma get_answer_valid (numbers : list Z) (op : string) :
  In op OPERATORS -> numbers <> [] ->
  exists answer, get_answer numbers op = ([], Returns answer).
Proof.
  intros Hop Hne. destruct numbers as [|x xs]; [congruence|].
  destruct Hop as [<-|[<-|[<-|[]]]]; eexists; reflexivity.
Qed.

Lemma numbers_shown_some (p : ArithmeticProgram) (k : nat) :
  (k < List.length (numbers p))%nat -> numbers_shown k p <> [].
Proof.
  unfold numbers_shown. intros H E.
  apply (f_equal (@List.length Z)) in E. rewrite length_skipn in E.
  simpl in E. lia.
Qed.

Lemma set_dialogs_nil (p : ArithmeticProgram) :
  set_dialogs (dialogs p ++ []) p = p.
Proof. rewrite List.app_nil_r. now destruct p. Qed.

(** C3, as stated, fails on a text of blanks: its trimmed form is empty,
    yet in a running session the submission is rejected like any other
    text that is not an integer: the total is unchanged and the notifier
    error is shown. *)
Lemma blank_answer_is_not_a_skip :
  let p := run [press_start] (init defaults (fun _ => 1)) in
  let p' := snd (answer_process " " p) in
  mode_of p = Running /\
  Py.strip " " = EmptyString /\
  answers_all p' = answers_all p /\
  dialogs p' = dialogs p ++ [msg_bad_input] /\
  numbers p' = numbers p.
Proof.
  vm_compute. repeat split.
Qed.

(** C3 (amended): in a running session the submitted text is classified
    as it is, without trimming (integer parsing itself ignores blanks
    around the number).  The empty string is a skip: the total increments,
    the correct count does not, no error is shown and a new equation is
    generated.  Text that parses as an integer equal to the answer of the
    current equation increments both counters and advances the equation;
    text that parses as an integer different from it increments only the
    total and advances the equation.  Any other text, a text of blanks
    included, changes neither counter, clears the input, shows the
    notifier error and leaves the current equation as it is. *)
Theorem answer_process_classifies (p : ArithmeticProgram) (k : nat)
  (text : string) :
  running_session p k ->
  exists (answer : Z) (p' : ArithmeticProgram),
    get_answer (numbers_shown k p) (operator (settings p))
    = ([], Returns answer) /\
    answer_process text p = (Returns tt, p') /\
    (text = EmptyString -> attempted false k p p') /\
    (forall u, Py.int text = Some u -> u = answer -> attempted true k p p') /\
    (forall u, Py.int text = Some u -> u <> answer ->
               attempted false k p p') /\
    (Py.int text = None -> text <> EmptyString -> rejected p p').
Proof.
  intros Hrs. pose proof Hrs as [Hw Hk Hlt Hv].
  destruct (get_answer_valid (numbers_shown k p) (operator (settings p)))
    as (answer & Ha).
  { now destruct Hv as (_ & _ & _ & Hop & _). }
  { now apply numbers_shown_some. }
  exists answer.
  unfold answer_process. rewrite Hk, Ha. rewrite set_dialogs_nil.
  destruct (Py.int text) as [u|] eqn:Hint.
  - destruct (advance_turn_attempted (u =? answer) p k Hrs) as (p' & E & Hatt).
    rewrite E. exists p'.
    split; [reflexivity|]. split; [reflexivity|].
    split; [intros ->; discriminate Hint|].
    split; [|split].
    + intros u' Hu' ->. injection Hu' as ->.
      now rewrite Z.eqb_refl in Hatt.
    + intros u' Hu' Hne. injection Hu' as ->.
      apply Z.eqb_neq in Hne. now rewrite Hne in Hatt.
    + discriminate.
  - unfold answer_except.
    destruct (String.eqb_spec text EmptyString) as [->|Hne].
    + destruct (advance_turn_attempted false p k Hrs) as (p' & E & Hatt).
      rewrite E. exists p'.
      split; [reflexivity|]. split; [reflexivity|].
      split; [intros _; exact Hatt|].
      split; [discriminate|]. split; [discriminate|].
      intros _ H. congruence.
    + eexists. split; [reflexivity|]. split; [reflexivity|].
      split; [congruence|].
      split; [discriminate|]. split; [discriminate|].
      intros _ _. unfold rejected, show, clear_field.
      clear Hrs Hk Hlt Hv Ha. open_state p. read_back in Hw. subst rw.
      read_back. repeat split; reflexivity.
Qed.

Lemma defaults_valid : valid defaults.
Proof.
  unfold valid, rule_numbercount, rule_range, rule_order, rule_operator,
    rule_time, MAX_NUMBERS, RANGE_LIMIT, MAX_TIME_LIMIT, OPERATORS, defaults.
  cbn. repeat split; try lia. now left.
Qed.

Lemma answer_process_classifies_witness :
  let p := run [press_start] (init defaults (fun _ => 1)) in
  running_session p 3 /\
  exists (answer : Z) (p' : ArithmeticProgram),
    get_answer (numbers_shown 3 p) (operator (settings p))
    = ([], Returns answer) /\
    answer_process " 2 " p = (Returns tt, p') /\
    (" 2 " = EmptyString -> attempted false 3 p p') /\
    (forall u, Py.int " 2 " = Some u -> u = answer -> attempted true 3 p p') /\
    (forall u, Py.int " 2 " = Some u -> u <> answer ->
               attempted false 3 p p') /\
    (Py.int " 2 " = None -> " 2 " <> EmptyString -> rejected p p').
Proof.
  intros p.
  assert (running_session p 3) as H.
  { constructor.
    - vm_compute; reflexivity.
    - vm_compute; reflexivity.
    - replace (List.length (numbers p)) with 5%nat by (vm_compute; reflexivity).
      lia.
    - replace (settings p) with defaults by (vm_compute; reflexivity).
      exact defaults_valid. }
  split; [exact H|].
  exact (answer_process_classifies p 3 " 2 " H).
Defined.

(** ** The countdown *)

Lemma countdown_positive (count : Z) (p : ArithmeticProgram) :
  stoptimer p = false -> 0 < count ->
  countdown count p = after (count - 1) (set_time_left (count - 1) p).
Proof.
  intros Hs Hc. unfold countdown. rewrite Hs.
  destruct (Z.gtb_spec count 0); [reflexivity|lia].
Qed.

Lemma countdown_zero (count : Z) (p : ArithmeticProgram) :
  stoptimer p = false -> count <= 0 -> countdown count p = stop_game p.
Proof.
  intros Hs Hc. unfold countdown. rewrite Hs.
  destruct (Z.gtb_spec count 0); [lia|reflexivity].
Qed.

Lemma countdown_stopped (count : Z) (p : ArithmeticProgram) :
  stoptimer p = true -> countdown count p = p.
Proof.
  intros Hs. unfold countdown. now rewrite Hs.
Qed.

(** A running countdown with one pending tick: after [n] ticks the label
    shows [n] seconds less and the next tick is registered. *)
Lemma ticks_count_down (n : nat) :
  forall (p : ArithmeticProgram) (count : Z),
    stoptimer p = false ->
    running_active_widgets p = NORMAL ->
    scheduled p = [count] ->
    time_left p = count ->
    Z.of_nat n <= count ->
    let q := run (repeat timer_fires n) p in
    stoptimer q = false /\
    running_active_widgets q = NORMAL /\
    scheduled q = [count - Z.of_nat n] /\
    time_left q = count - Z.of_nat n.
Proof.
  induction n as [|n IH]; intros p count Hs Hw Hsch Ht Hn q.
  - subst q. cbn [repeat run fold_left].
    rewrite Z.sub_0_r. auto.
  - subst q. cbn [repeat run fold_left].
    fold (run (repeat timer_fires n) (step timer_fires p)).
    cbn [step]. rewrite Hsch.
    rewrite countdown_positive;
      [|open_state p; exact Hs|lia].
    replace (count - Z.of_nat (S n)) with (count - 1 - Z.of_nat n) by lia.
    apply IH; [open_state p; exact Hs|open_state p; exact Hw
              |now open_state p|now open_state p|lia].
Qed.

Lemma last_tick_stops (p : ArithmeticProgram) (count : Z) (rest : list Z) :
  stoptimer p = false ->
  scheduled p = count :: rest ->
  count <= 0 ->
  let q := step timer_fires p in
  mode_of q = Stopped /\ time_left q = 0 /\ scheduled q = rest /\
  stoptimer q = true.
Proof.
  intros Hs Hsch Hc q. subst q. cbn [step]. rewrite Hsch.
  rewrite countdown_zero; [|open_state p; exact Hs|exact Hc].
  unfold mode_of, stop_game, clear_field. open_state p. read_back.
  destruct rw; read_back; auto.
Qed.

(** ** Starting a game *)

Lemma settings_errors_checked (raw : raw_settings) (errors : list string)
  (s : Settings) :
  settings_errors raw = Checked errors s ->
  parses_to raw s /\ errors = settings_checks s.
Proof.
  unfold settings_errors, parses_to.
  destruct (int_of (raw_numbercount raw)) as [n|]; [|discriminate].
  cbn [raw_range_lower].
  destruct (int_of (raw_range_lower raw)) as [l|]; [|discriminate].
  cbn [raw_range_upper].
  destruct (int_of (raw_range_upper raw)) as [u|]; [|discriminate].
  cbn [raw_time_limit raw_operator].
  destruct (int_of (raw_time_limit raw)) as [t|]; [|discriminate].
  intros H. injection H as <- <-. cbn. repeat split; reflexivity.
Qed.

Lemma push_settings_valid (display : bool) (p : ArithmeticProgram)
  (s : Settings) :
  parses_to (temp_settings p) s -> valid s ->
  push_settings display p = (true, set_settings s p).
Proof.
  intros Hp Hv. unfold push_settings.
  rewrite (settings_errors_parsed _ _ Hp).
  now rewrite (proj2 (settings_checks_nil s) Hv).
Qed.

Lemma push_settings_true (display : bool) (p q : ArithmeticProgram) :
  push_settings display p = (true, q) ->
  exists s, parses_to (temp_settings p) s /\ valid s /\ q = set_settings s p.
Proof.
  unfold push_settings.
  destruct (settings_errors (temp_settings p)) as [partly|errors s] eqn:E.
  - destruct display; discriminate.
  - apply settings_errors_checked in E. destruct E as [Hp ->].
    destruct (settings_checks s) eqn:Hc.
    + intros H. injection H as <-. exists s.
      split; [exact Hp|]. split; [|reflexivity].
      now apply settings_checks_nil.
    + destruct display; discriminate.
Qed.

Lemma push_settings_false (display : bool) (p q : ArithmeticProgram) :
  push_settings display p = (false, q) ->
  q = p \/ exists d, q = show d p.
Proof.
  unfold push_settings.
  destruct (settings_errors (temp_settings p)) as [partly|[|m errors] s];
    try discriminate;
    (destruct display; intros H; injection H as <-;
     [right; eexists; reflexivity|now left]).
Qed.

Lemma slice_start_le (i : Z) (len : nat) : (Py.slice_start i len <= len)%nat.
Proof.
  unfold Py.slice_start. destruct (Z.ltb_spec i 0); lia.
Qed.

(** What [start_game_setup] has assigned before it draws the operands. *)
Lemma set_up_fields (p : ArithmeticProgram) :
  exists P,
    set_up p
    = set_results_cur EmptyString
        (set_results_prev P
           (set_stoptimer false
              (set_numbers_in_use
                 (Some (Py.slice_start
                          (MAX_NUMBERS - numbercount (settings p))
                          (List.length (numbers p))))
                 (set_running_active_widgets NORMAL
                    (set_stopped_active_widgets DISABLED p))))) /\
    (results_cur p = EmptyString -> P = results_prev p) /\
    (results_cur p <> EmptyString -> P = results_cur p).
Proof.
  unfold set_up, transfer_results. open_state p. read_back.
  destruct (String.eqb_spec rc EmptyString) as [E|E]; cbn [negb].
  - exists rp. subst rc. split; [reflexivity|]. split; congruence.
  - exists rc. split; [reflexivity|]. split; congruence.
Qed.

Lemma start_game_setup_set_up (p : ArithmeticProgram) :
  start_game_setup p = set_new_calculation (set_up p).
Proof. now destruct p. Qed.

Lemma start_game_setup_valid (p : ArithmeticProgram) :
  valid (settings p) ->
  exists N D,
    start_game_setup p
    = (Returns tt,
       set_uanswer EmptyString (set_numbers N (set_drawn D (set_up p)))) /\
    List.length N = List.length (numbers p).
Proof.
  intros Hv. apply valid_range in Hv.
  rewrite start_game_setup_set_up.
  destruct (set_up_fields p) as (P & E & _). rewrite E. clear E.
  pose proof (slice_start_le (MAX_NUMBERS - numbercount (settings p))
                (List.length (numbers p))) as Hle.
  open_state p. read_back. read_back in Hv. read_back in Hle.
  rewrite (set_new_calculation_fresh _
             (Py.slice_start (MAX_NUMBERS - numbercount st)
                             (List.length ns)));
    [|reflexivity|reflexivity|exact Hle|exact Hv].
  eexists. eexists. split; [reflexivity|]. read_back.
  rewrite length_app, length_firstn, length_map, length_seq. lia.
Qed.

Lemma start_game_valid (p : ArithmeticProgram) (s : Settings) :
  parses_to (temp_settings p) s -> valid s ->
  exists N D,
    let q := set_uanswer EmptyString
               (set_numbers N (set_drawn D (set_up (set_settings s p)))) in
    start_game p
    = (Returns tt,
       if negb (time_limit s =? 0) then countdown (time_limit s) q else q) /\
    List.length N = List.length (numbers p).
Proof.
  intros Hp Hv. unfold start_game.
  rewrite (push_settings_valid true p s Hp Hv).
  assert (valid (settings (set_settings s p))) as Hv' by now open_state p.
  destruct (start_game_setup_valid (set_settings s p) Hv')
    as (N & D & E & HN).
  exists N, D. unfold bind, exec. rewrite E. clear E.
  destruct (set_up_fields (set_settings s p)) as (P & E & _).
  rewrite E. clear E. open_state p. read_back. read_back in HN.
  split; [reflexivity|exact HN].
Qed.

(** The state a successful [start_game] leaves when the time limit is
    positive. *)
Lemma start_game_timed (p : ArithmeticProgram) (s : Settings) :
  parses_to (temp_settings p) s ->
  valid s ->
  0 < time_limit s ->
  exists q,
    start_game p = (Returns tt, q) /\
    stoptimer q = false /\
    running_active_widgets q = NORMAL /\
    scheduled q = scheduled p ++ [time_limit s - 1] /\
    time_left q = time_limit s - 1.
Proof.
  intros Hp Hv Ht.
  destruct (start_game_valid p s Hp Hv) as (N & D & E & _).
  cbn zeta in E. rewrite E. clear E.
  destruct (Z.eqb_spec (time_limit s) 0) as [H0|_]; [lia|]. cbn [negb].
  destruct (set_up_fields (set_settings s p)) as (P & E & _).
  rewrite E. clear E. clear Hp. open_state p. read_back.
  rewrite countdown_positive; [|reflexivity|exact Ht].
  eexists. split; [reflexivity|]. unfold after. read_back.
  repeat split; reflexivity.
Qed.

Lemma repeat_snoc {A : Type} (x : A) (n : nat) :
  repeat x (S n) = repeat x n ++ [x].
Proof.
  induction n as [|n IH]; [reflexivity|].
  cbn [repeat app] in *. now rewrite <- IH.
Qed.
(** ** A session with answers between the ticks *)

Lemma answer_except_clock (uanswer : string) (p : ArithmeticProgram) :
  same_clock (snd (answer_except uanswer p)) p.
Proof.
  unfold answer_except.
  destruct (String.eqb uanswer EmptyString).
  - destruct (advance_turn_assigns false p) as (N & D & U & E).
    rewrite E. unfold same_clock. open_state p. read_back.
    repeat split; reflexivity.
  - unfold exec. cbn [snd]. unfold show, clear_field, same_clock.
    open_state p. read_back. destruct rw; read_back;
      repeat split; reflexivity.
Qed.

Lemma same_clock_trans (r q p : ArithmeticProgram) :
  same_clock r q -> same_clock q p -> same_clock r p.
Proof.
  intros (H1 & H2 & H3 & H4) (K1 & K2 & K3 & K4).
  unfold same_clock. rewrite H1, H2, H3, H4. auto.
Qed.

(** [answer_process] leaves the countdown alone, whatever is submitted
    and however it ends. *)
Lemma answer_process_clock (uanswer : string) (p : ArithmeticProgram) :
  same_clock (snd (answer_process uanswer p)) p.
Proof.
  unfold answer_process.
  destruct (numbers_in_use p) as [k|];
    [|unfold same_clock; repeat split; reflexivity].
  destruct (get_answer _ _) as [shown [answer|e]].
  - set (p1 := set_dialogs (dialogs p ++ shown) p).
    assert (same_clock p1 p) as H1
      by (unfold p1, same_clock; open_state p; read_back;
          repeat split; reflexivity).
    destruct (Py.int uanswer) as [u|].
    + assert (same_clock (snd (advance_turn (u =? answer) p1)) p1) as H2.
      { destruct (advance_turn_assigns (u =? answer) p1) as (N & D & U & E).
        rewrite E. unfold same_clock. clear. open_state p1. read_back.
        repeat split; reflexivity. }
      destruct (advance_turn (u =? answer) p1) as [[[]|e] p2];
        cbn [snd] in H2.
      * exact (same_clock_trans _ _ _ H2 H1).
      * destruct e; try exact (same_clock_trans _ _ _ H2 H1).
        apply (same_clock_trans _ p2);
          [apply answer_except_clock|exact (same_clock_trans _ _ _ H2 H1)].
    + apply (same_clock_trans _ p1); [apply answer_except_clock|exact H1].
  - cbn [snd]. unfold same_clock. open_state p. read_back.
    repeat split; reflexivity.
Qed.

(** Typing, submitting, clearing and editing leave the countdown alone. *)
Lemma step_same_clock (e : event) (r : ArithmeticProgram) :
  plays_on e = true -> e <> timer_fires -> same_clock (step e r) r.
Proof.
  intros He Hne. destruct e; try discriminate He; cbn [step];
    unfold when_enabled.
  - destruct (running_active_widgets r) eqn:Hw;
      [apply answer_process_clock|unfold same_clock; auto].
  - unfold clear_field, same_clock. open_state r. read_back.
    destruct rw; read_back; repeat split; reflexivity.
  - unfold same_clock. open_state r. read_back.
    destruct rw; read_back; repeat split; reflexivity.
  - unfold same_clock. open_state r. read_back.
    destruct sw; read_back; repeat split; reflexivity.
  - congruence.
Qed.

Lemma tick_in_session (t : Z) (n : nat) (r : ArithmeticProgram) :
  in_session t n r -> in_session t (S n) (step timer_fires r).
Proof.
  intros (Hrun & Hstop).
  destruct (Z_lt_le_dec (Z.of_nat n) t) as [Hn|Hn].
  - destruct (Hrun Hn) as (Hw & Hs & Hl & Hsc).
    destruct (Z_lt_le_dec 0 (t - 1 - Z.of_nat n)) as [Hc|Hc].
    + pose proof (ticks_count_down 1 r (t - 1 - Z.of_nat n) Hs Hw Hsc Hl
                    ltac:(lia)) as (Hs' & Hw' & Hsc' & Hl').
      cbn [repeat run fold_left] in Hs', Hw', Hsc', Hl'.
      split; [intros _|lia].
      rewrite Hw', Hs', Hl', Hsc'.
      replace (t - 1 - Z.of_nat n - Z.of_nat 1)
        with (t - 1 - Z.of_nat (S n)) by lia.
      auto.
    + pose proof (last_tick_stops r (t - 1 - Z.of_nat n) [] Hs Hsc Hc)
        as (Hm & Hl' & Hsc' & Hs').
      cbn zeta in Hm, Hl', Hsc', Hs'.
      split; [lia|intros _].
      unfold mode_of in Hm.
      destruct (running_active_widgets (step timer_fires r));
        [discriminate Hm|auto].
  - destruct (Hstop Hn) as (Hw & Hs & Hl & Hsc).
    cbn [step]. rewrite Hsc.
    split; [lia|intros _; auto].
Qed.

Lemma run_in_session (t : Z) (events : list event) :
  forall (n : nat) (r : ArithmeticProgram),
    forallb plays_on events = true ->
    in_session t n r ->
    in_session t (n + ticks events) (run events r).
Proof.
  induction events as [|e events IH]; intros n r He H.
  - cbn [ticks run fold_left]. now rewrite Nat.add_0_r.
  - cbn [forallb] in He. apply andb_true_iff in He as (He & Hrest).
    cbn [run fold_left]. fold (run events (step e r)).
    assert (e = timer_fires \/ e <> timer_fires) as [->|Hne]
      by (destruct e; (now left) || (right; discriminate)).
    + cbn [ticks]. rewrite Nat.add_succ_r, <- Nat.add_succ_l.
      apply IH; [exact Hrest|now apply tick_in_session].
    + replace (ticks (e :: events)) with (ticks events)
        by (destruct e; reflexivity || congruence).
      apply IH; [exact Hrest|].
      destruct (step_same_clock e r He Hne) as (E1 & E2 & E3 & E4).
      unfold in_session. rewrite E1, E2, E3, E4. exact H.
Qed.

(** C4, as stated, fails: with a time limit of 2 the first tick brings
    the displayed time to 0, and the session is still running with the
    next tick registered; the call [countdown(1)] assigns 0 and
    reschedules, it does not stop the game. *)
Lemma tick_reaching_zero_keeps_running :
  let fields := mk_fields "2" "0" "20" "+" "2" in
  let p := run [edit_fields fields; press_start]
               (init defaults (fun _ => 1)) in
  let q := step timer_fires p in
  time_limit (settings p) = 2 /\ time_left p = 1 /\ scheduled p = [1] /\
  time_left q = 0 /\ mode_of q = Running /\ stoptimer q = false /\
  scheduled q = [0].
Proof.
  vm_compute. repeat split.
Qed.

(** C4 (amended): when a session is started with timeLimit = t > 0 and no
    tick is pending, [start] itself shows t - 1 and registers the first
    tick.  From then on, whatever is typed, submitted or cleared between
    the ticks, as long as neither Start nor Stop is pressed: each of the
    first t - 1 ticks decrements the displayed time by one and registers
    the following tick, the session staying Running also when the display
    has reached 0; the tick after that, the t-th, triggers the
    Running-to-Stopped transition and the display reports 0, and the
    session stays Stopped with nothing registered.  In particular for
    timeLimit = 1 the session is Stopped after one tick and the display
    reports 0. *)
Theorem countdown_session (p : ArithmeticProgram) (s : Settings) :
  parses_to (temp_settings p) s ->
  valid s ->
  0 < time_limit s ->
  scheduled p = [] ->
  let t := time_limit s in
  let q := snd (start_game p) in
  (forall events : list event,
      forallb plays_on events = true ->
      let n := ticks events in
      let r := run events q in
      (Z.of_nat n < t ->
       mode_of r = Running /\
       time_left r = t - 1 - Z.of_nat n /\
       scheduled r = [t - 1 - Z.of_nat n] /\
       stoptimer r = false) /\
      (t <= Z.of_nat n ->
       mode_of r = Stopped /\ time_left r = 0 /\ scheduled r = [] /\
       stoptimer r = true)) /\
  (forall n : nat,
      Z.of_nat n < t ->
      let r := run (repeat timer_fires n) q in
      mode_of r = Running /\
      time_left r = t - 1 - Z.of_nat n /\
      scheduled r = [t - 1 - Z.of_nat n]) /\
  (let r := run (repeat timer_fires (Z.to_nat t)) q in
   mode_of r = Stopped /\ time_left r = 0 /\ scheduled r = [] /\
   stoptimer r = true) /\
  (t = 1 ->
   let r := step timer_fires q in
   mode_of r = Stopped /\ time_left r = 0).
Proof.
  intros Hp Hv Ht Hsch t q0.
  destruct (start_game_timed p s Hp Hv Ht) as (q & E & Hs & Hr & Hc & Hl).
  subst q0. rewrite E. cbn [snd]. clear E.
  rewrite Hsch in Hc. cbn [app] in Hc. fold t in Hc, Hl.
  assert (in_session t 0 q) as Hq.
  { split; [intros _|cbn; lia].
    cbn [Z.of_nat]. rewrite Z.sub_0_r. auto. }
  assert (forall events : list event,
             forallb plays_on events = true ->
             in_session t (ticks events) (run events q)) as Hsession.
  { intros events He. exact (run_in_session t events 0 q He Hq). }
  assert (forall n : nat,
             Z.of_nat n < t ->
             let r := run (repeat timer_fires n) q in
             stoptimer r = false /\
             running_active_widgets r = NORMAL /\
             scheduled r = [t - 1 - Z.of_nat n] /\
             time_left r = t - 1 - Z.of_nat n) as Hticks.
  { intros n Hn.
    exact (ticks_count_down n q (t - 1) Hs Hr Hc Hl ltac:(lia)). }
  assert (let r := run (repeat timer_fires (Z.to_nat t)) q in
          mode_of r = Stopped /\ time_left r = 0 /\ scheduled r = [] /\
          stoptimer r = true) as Hlast.
  { replace (Z.to_nat t) with (S (Z.to_nat (t - 1))) by lia.
    rewrite repeat_snoc, run_app. cbn [run fold_left].
    destruct (Hticks (Z.to_nat (t - 1))) as (Hs' & _ & Hc' & _); [lia|].
    exact (last_tick_stops _ (t - 1 - Z.of_nat (Z.to_nat (t - 1))) []
             Hs' Hc' ltac:(lia)). }
  split; [|split; [|split]].
  - intros events He. cbn zeta.
    destruct (Hsession events He) as (Hrun & Hstop). unfold mode_of.
    split.
    + intros Hn. destruct (Hrun Hn) as (Hw' & Hs' & Hl' & Hc').
      rewrite Hw'. auto.
    + intros Hn. destruct (Hstop Hn) as (Hw' & Hs' & Hl' & Hc').
      rewrite Hw'. auto.
  - intros n Hn. destruct (Hticks n Hn) as (_ & Hr' & Hc' & Hl').
    cbn zeta. unfold mode_of. rewrite Hr'.
    split; [reflexivity|]. split; [exact Hl'|exact Hc'].
  - exact Hlast.
  - intros H1. rewrite H1 in Hlast. cbn zeta in Hlast.
    change (Z.to_nat 1) with 1%nat in Hlast.
    cbn [repeat run fold_left] in Hlast.
    cbn zeta. destruct Hlast as (Hm & Hl0 & _).
    split; [exact Hm|exact Hl0].
Qed.

Lemma countdown_session_witness :
  let fields := mk_fields "3" "1" "9" "-" "1" in
  let p := step (edit_fields fields) (init defaults (fun _ => 1)) in
  let s := mk_settings 3 1 9 "-" 1 in
  let q := snd (start_game p) in
  let answers := [type_answer "-1"; press_submit_key; type_answer "x";
                  press_submit_key; press_clear_key; press_submit_key] in
  (parses_to (temp_settings p) s /\ valid s /\ 0 < time_limit s /\
   scheduled p = []) /\
  (mode_of (run answers q) = Running /\
   time_left (run answers q) = 0 /\ scheduled (run answers q) = [0] /\
   answers_all (run answers q) = 2) /\
  (mode_of (run (answers ++ [timer_fires] ++ answers) q) = Stopped /\
   time_left (run (answers ++ [timer_fires] ++ answers) q) = 0 /\
   scheduled (run (answers ++ [timer_fires] ++ answers) q) = []) /\
  (mode_of (run (repeat timer_fires 0) q) = Running /\
   time_left (run (repeat timer_fires 0) q) = 1 - 1 - Z.of_nat 0 /\
   scheduled (run (repeat timer_fires 0) q) = [1 - 1 - Z.of_nat 0]) /\
  (mode_of (step timer_fires q) = Stopped /\
   time_left (step timer_fires q) = 0).
Proof.
  intros fields p s q answers.
  assert (parses_to (temp_settings p) s) as Hp
    by (repeat split; reflexivity).
  assert (valid s) as Hv.
  { unfold valid, rule_numbercount, rule_range, rule_order, rule_operator,
      rule_time, MAX_NUMBERS, RANGE_LIMIT, MAX_TIME_LIMIT, OPERATORS, s.
    cbn. repeat split; try lia. right; now left. }
  assert (0 < time_limit s) as Ht by (cbn; lia).
  assert (scheduled p = []) as Hsch by reflexivity.
  pose proof (countdown_session p s Hp Hv Ht Hsch)
    as (Hsession & Hticks & _ & Hone).
  split; [auto|]. split; [|split; [|split]].
  - destruct (Hsession answers eq_refl) as (Hrun & _).
    destruct Hrun as (Hm & Hl & Hc & _); [cbn; lia|].
    split; [exact Hm|]. split; [exact Hl|]. split; [exact Hc|].
    vm_compute. reflexivity.
  - destruct (Hsession (answers ++ [timer_fires] ++ answers) eq_refl)
      as (_ & Hstop).
    destruct Hstop as (Hm & Hl & Hc & _); [cbn; lia|].
    split; [exact Hm|]. split; [exact Hl|exact Hc].
  - apply (Hticks 0%nat). cbn. lia.
  - apply Hone. reflexivity.
Defined.

(** ** A stop that is overtaken by a restart *)

(** C5 at its failing input: with a time limit of 5, Start registers the
    tick [countdown(4)]; Stop and a second Start follow before that tick
    fires.  The second Start clears the stop flag, so the tick registered
    before the stop is not a no-op when it fires: it decrements the
    displayed time and registers a further tick, next to the countdown of
    the new game.  With a time limit of 1 the tick registered before the
    stop stops the game that was started after it. *)
Lemma tick_registered_before_stop_fires_after_restart :
  let five := mk_fields "2" "0" "20" "+" "5" in
  let p := run [edit_fields five; press_start; press_stop; press_start]
               (init defaults (fun _ => 1)) in
  let q := step timer_fires p in
  let one := mk_fields "2" "0" "20" "+" "1" in
  let p1 := run [edit_fields one; press_start; press_stop; press_start]
                (init defaults (fun _ => 1)) in
  let q1 := step timer_fires p1 in
  (mode_of p = Running /\ scheduled p = [4; 4] /\ time_left p = 4 /\
   time_left q = 3 /\ scheduled q = [4; 3]) /\
  (mode_of p1 = Running /\ scheduled p1 = [0; 0] /\
   mode_of q1 = Stopped /\ scheduled q1 = [0]).
Proof.
  vm_compute. repeat split.
Qed.

(** While the stop flag stays set, a tick that fires is a no-op. *)
Lemma tick_after_stop_is_a_no_op (p : ArithmeticProgram) (count : Z) :
  countdown count (stop_game p) = stop_game p.
Proof.
  apply countdown_stopped. unfold stop_game, clear_field.
  open_state p. read_back. now destruct rw.
Qed.

(** ** The states the event loop reaches *)

Lemma init_coherent (s : Settings) (rnd : nat -> Z) : coherent (init s rnd).
Proof.
  constructor; cbn.
  - reflexivity.
  - reflexivity.
  - discriminate.
  - intros _. repeat split; reflexivity.
Qed.

Lemma score_text_not_empty (correct all : Z) :
  score_text correct all <> EmptyString.
Proof.
  unfold score_text. pose proof (str_not_empty correct) as H.
  destruct (Py.str correct); [congruence|discriminate].
Qed.

Lemma advance_turn_running (correct : bool) (p : ArithmeticProgram)
  (k : nat) :
  running_session p k ->
  exists N D,
    advance_turn correct p
    = (Returns tt,
       set_uanswer EmptyString (set_numbers N (set_drawn D
         (set_results_cur
            (score_text (answers_correct p + (if correct then 1 else 0))
                        (answers_all p + 1))
            (set_answers_correct
               (answers_correct p + (if correct then 1 else 0))
               (set_answers_all (answers_all p + 1) p)))))) /\
    List.length N = List.length (numbers p).
Proof.
  intros [Hw Hk Hlt Hv]. apply valid_range in Hv. unfold advance_turn.
  open_state p. read_back in Hw. read_back in Hk. read_back in Hlt.
  read_back in Hv. subst rw nu.
  destruct correct; read_back;
    (rewrite (set_new_calculation_fresh _ k);
     [|reflexivity|reflexivity|read_back; lia|exact Hv]);
    read_back; rewrite ?Z.add_0_r;
    (eexists; eexists; split; [reflexivity|]);
    rewrite length_app, length_firstn, length_map, length_seq; lia.
Qed.

Lemma advance_turn_coherent (correct : bool) (p : ArithmeticProgram) :
  coherent p ->
  running_active_widgets p = NORMAL ->
  exists q,
    advance_turn correct p = (Returns tt, q) /\
    coherent q /\
    results_cur q <> EmptyString /\
    results_prev q = results_prev p.
Proof.
  intros [Hn Hws Hr Hs] Hw. destruct (Hr Hw) as (k & Hrs).
  destruct (advance_turn_running correct p k Hrs) as (N & D & E & HN).
  rewrite E. eexists. split; [reflexivity|].
  destruct Hrs as [_ Hk Hlt Hv]. clear E Hr Hs.
  open_state p. read_back. read_back in Hn. read_back in Hws.
  read_back in Hk. read_back in Hlt. read_back in Hv. read_back in HN.
  read_back in Hw.
  split; [|split; [apply score_text_not_empty|reflexivity]].
  constructor; read_back.
  - congruence.
  - exact Hws.
  - intros _. exists k. constructor; read_back; try assumption. congruence.
  - rewrite Hw. discriminate.
Qed.

(** What [answer_process] does in a running session. *)
Lemma answer_process_cases (p : ArithmeticProgram) (k : nat)
  (text : string) (answer : Z) :
  running_session p k ->
  get_answer (numbers_shown k p) (operator (settings p))
  = ([], Returns answer) ->
  answer_process text p
  = match Py.int text with
    | Some u => advance_turn (u =? answer) p
    | None =>
        if String.eqb text EmptyString then advance_turn false p
        else (Returns tt, show msg_bad_input (clear_field p))
    end.
Proof.
  intros Hrs Ha. pose proof Hrs as [Hw Hk Hlt Hv].
  unfold answer_process. rewrite Hk, Ha. rewrite set_dialogs_nil.
  destruct (Py.int text) as [u|].
  - destruct (advance_turn_running (u =? answer) p k Hrs) as (N & D & E & _).
    now rewrite E.
  - unfold answer_except. now destruct (String.eqb text EmptyString).
Qed.

Lemma answer_process_coherent (p : ArithmeticProgram) (text : string) :
  coherent p ->
  running_active_widgets p = NORMAL ->
  let q := snd (answer_process text p) in
  coherent q /\
  results_prev q = results_prev p /\
  (if String.eqb text EmptyString ||
      match Py.int text with Some _ => true | None => false end
   then results_cur q <> EmptyString
   else results_cur q = results_cur p).
Proof.
  intros Hco Hw q. subst q.
  destruct (co_running p Hco Hw) as (k & Hrs).
  destruct (get_answer_valid (numbers_shown k p) (operator (settings p)))
    as (answer & Ha).
  { destruct Hrs as [_ _ _ (_ & _ & _ & Hop & _)]. exact Hop. }
  { apply numbers_shown_some. now destruct Hrs. }
  rewrite (answer_process_cases p k text answer Hrs Ha).
  destruct (Py.int text) as [u|].
  - rewrite orb_true_r.
    destruct (advance_turn_coherent (u =? answer) p Hco Hw)
      as (q & E & Hq & Hc & Hp).
    rewrite E. cbn [snd]. auto.
  - rewrite orb_false_r. destruct (String.eqb text EmptyString).
    + destruct (advance_turn_coherent false p Hco Hw)
        as (q & E & Hq & Hc & Hp).
      rewrite E. cbn [snd]. auto.
    + cbn [snd]. unfold show, clear_field.
      destruct Hco as [Hn Hws Hr Hs]. destruct (Hr Hw) as (k' & Hrs').
      destruct Hrs' as [_ Hk Hlt Hv]. clear Hr Hs Hrs Ha.
      open_state p. read_back in Hw. subst rw. read_back.
      read_back in Hn. read_back in Hws. read_back in Hk.
      read_back in Hlt. read_back in Hv.
      split; [|split; reflexivity].
      constructor; read_back.
      * exact Hn.
      * exact Hws.
      * intros _. exists k'. constructor; read_back; assumption || reflexivity.
      * discriminate.
Qed.

Lemma stop_game_coherent (p : ArithmeticProgram) :
  coherent p -> coherent (stop_game p).
Proof.
  intros [Hn _ _ _]. unfold stop_game, clear_field.
  open_state p. read_back. read_back in Hn.
  destruct rw; read_back; (constructor; read_back;
    [exact Hn|reflexivity|discriminate
    |intros _; repeat split; try reflexivity; discriminate]).
Qed.

Lemma countdown_coherent (count : Z) (p : ArithmeticProgram) :
  coherent p ->
  (running_active_widgets p = DISABLED -> stoptimer p = true) ->
  coherent (countdown count p).
Proof.
  intros Hco Hst. unfold countdown.
  destruct (stoptimer p) eqn:Hs; [exact Hco|].
  destruct (count >? 0); [|now apply stop_game_coherent].
  destruct Hco as [Hn Hws Hr _]. unfold after.
  open_state p. read_back. read_back in Hn. read_back in Hws.
  read_back in Hr. read_back in Hst. read_back in Hs.
  destruct rw; [|specialize (Hst eq_refl); congruence].
  destruct (Hr eq_refl) as (k & [_ Hk Hlt Hv]).
  read_back in Hk. read_back in Hlt. read_back in Hv.
  constructor; read_back.
  - exact Hn.
  - exact Hws.
  - intros _. exists k. constructor; read_back; assumption || reflexivity.
  - discriminate.
Qed.

Lemma tick_coherent (p : ArithmeticProgram) :
  coherent p -> coherent (step timer_fires p).
Proof.
  intros Hco. cbn [step].
  destruct (scheduled p) as [|count rest] eqn:Hsch; [exact Hco|].
  destruct Hco as [Hn Hws Hr Hs].
  assert (running_active_widgets p = DISABLED -> stoptimer p = true) as Hst.
  { intros Hd. destruct (Hs Hd) as (_ & _ & _ & H).
    destruct (stoptimer p); [reflexivity|].
    specialize (H eq_refl). congruence. }
  apply countdown_coherent.
  - open_state p. read_back in Hn. read_back in Hws. read_back in Hr.
    read_back in Hs. read_back in Hst.
    constructor; read_back.
    + exact Hn.
    + exact Hws.
    + intros Hw. destruct (Hr Hw) as (k & [_ Hk Hlt Hv]).
      read_back in Hk. read_back in Hlt. read_back in Hv.
      exists k. constructor; read_back; assumption.
    + intros Hd. destruct (Hs Hd) as (H1 & H2 & H3 & _).
      repeat split; try assumption.
      rewrite (Hst Hd). discriminate.
  - open_state p. exact Hst.
Qed.

Lemma slice_start_valid (s : Settings) :
  valid s ->
  (Py.slice_start (MAX_NUMBERS - numbercount s) (Z.to_nat MAX_NUMBERS)
   < Z.to_nat MAX_NUMBERS)%nat.
Proof.
  intros (Hn & _). unfold rule_numbercount, MAX_NUMBERS in Hn.
  unfold Py.slice_start, MAX_NUMBERS.
  destruct (Z.ltb_spec (5 - numbercount s) 0); lia.
Qed.


Lemma start_game_coherent (p : ArithmeticProgram) :
  coherent p -> coherent (snd (start_game p)).
Proof.
  intros Hco.
  destruct (push_settings true p) as [[|] p1] eqn:E.
  - apply push_settings_true in E. destruct E as (s & Hp & Hv & _).
    destruct (start_game_valid p s Hp Hv) as (N & D & E & HN).
    cbn zeta in E. rewrite E. clear E. cbn [snd].
    destruct (set_up_fields (set_settings s p)) as (P & E & _).
    rewrite E. clear E Hp.
    pose proof (slice_start_valid s Hv) as Hk.
    destruct Hco as [Hn _ _ _].
    assert (coherent
              (set_uanswer EmptyString
                 (set_numbers N
                    (set_drawn D
                       (set_results_cur EmptyString
                          (set_results_prev P
                             (set_stoptimer false
                                (set_numbers_in_use
                                   (Some (Py.slice_start
                                      (MAX_NUMBERS
                                       - numbercount
                                           (settings (set_settings s p)))
                                      (List.length
                                         (numbers (set_settings s p)))))
                                   (set_running_active_widgets NORMAL
                                      (set_stopped_active_widgets DISABLED
                                         (set_settings s p))))))))))) as Hq.
    { open_state p. read_back. read_back in Hn. read_back in HN.
      constructor; read_back.
      - congruence.
      - reflexivity.
      - intros _. eexists. constructor; read_back.
        + reflexivity.
        + reflexivity.
        + rewrite HN, Hn. exact Hk.
        + exact Hv.
      - discriminate. }
    destruct (negb (time_limit s =? 0)); [|exact Hq].
    apply countdown_coherent; [exact Hq|].
    open_state p. read_back. discriminate.
  - unfold start_game. rewrite E. cbn [snd].
    apply push_settings_false in E. destruct E as [->|(d & ->)];
      [exact Hco|].
    destruct Hco as [Hn Hws Hr Hs]. unfold show.
    open_state p. read_back in Hn. read_back in Hws. read_back in Hr.
    read_back in Hs.
    constructor; read_back.
    + exact Hn.
    + exact Hws.
    + intros Hw. destruct (Hr Hw) as (k & [_ Hk Hlt Hv]).
      read_back in Hk. read_back in Hlt. read_back in Hv.
      exists k. constructor; read_back; assumption.
    + exact Hs.
Qed.

Lemma assign_entry_coherent (p : ArithmeticProgram) (text : string) :
  coherent p -> coherent (set_uanswer text p).
Proof.
  intros [Hn Hws Hr Hs].
  open_state p. read_back in Hn. read_back in Hws. read_back in Hr.
  read_back in Hs.
  constructor; read_back.
  - exact Hn.
  - exact Hws.
  - intros Hw. destruct (Hr Hw) as (k & [_ Hk Hlt Hv]).
    read_back in Hk. read_back in Hlt. read_back in Hv.
    exists k. constructor; read_back; assumption.
  - exact Hs.
Qed.

Lemma assign_fields_coherent (p : ArithmeticProgram) (texts : field_texts) :
  coherent p -> coherent (set_entries texts p).
Proof.
  intros [Hn Hws Hr Hs].
  open_state p. read_back in Hn. read_back in Hws. read_back in Hr.
  read_back in Hs.
  constructor; read_back.
  - exact Hn.
  - exact Hws.
  - intros Hw. destruct (Hr Hw) as (k & [_ Hk Hlt Hv]).
    read_back in Hk. read_back in Hlt. read_back in Hv.
    exists k. constructor; read_back; assumption.
  - exact Hs.
Qed.

Lemma step_coherent (e : event) (p : ArithmeticProgram) :
  coherent p -> coherent (step e p).
Proof.
  intros Hco. destruct e; try (now apply tick_coherent);
    cbn [step]; unfold when_enabled.
  - destruct (stopped_active_widgets p);
      [now apply start_game_coherent|exact Hco].
  - destruct (running_active_widgets p);
      [now apply stop_game_coherent|exact Hco].
  - destruct (running_active_widgets p) eqn:Hw; [|exact Hco].
    now apply answer_process_coherent.
  - destruct (running_active_widgets p) eqn:Hw; [|exact Hco].
    unfold clear_field. rewrite Hw. now apply assign_entry_coherent.
  - destruct (running_active_widgets p);
      [now apply assign_entry_coherent|exact Hco].
  - destruct (stopped_active_widgets p);
      [now apply assign_fields_coherent|exact Hco].
Qed.

Lemma run_coherent (events : list event) (p : ArithmeticProgram) :
  coherent p -> coherent (run events p).
Proof.
  revert p. induction events as [|e events IH]; intros p H; [exact H|].
  cbn [run fold_left]. apply IH. now apply step_coherent.
Qed.



(** ** Stop and start in their target state *)





(** ** The score displays *)




(* ===================================================================== *)
(** * Further properties *)
(* ===================================================================== *)

(** ** More on [get_answer] *)

(** X1: [get_answer] raises only on an empty operand list, only for the
    subtraction and the multiplication operator, and then [IndexError];
    for the addition operator the empty list evaluates to 0. *)
Theorem get_answer_raises (numbers : list Z) (op : string) (e : exn) :
  (snd (get_answer numbers op) = Raises e
   <-> numbers = [] /\ (op = op_sub \/ op = op_mul) /\ e = IndexError) /\
  get_answer [] op_add = ([], Returns 0).
Proof.
  split; [|reflexivity].
  unfold get_answer, op_sub.
  destruct (String.eqb_spec op "+") as [->|Hadd].
  - cbn [snd]. split; [discriminate|].
    intros (_ & [H|H] & _); discriminate H.
  - destruct (String.eqb_spec op "-") as [->|Hsub].
    + destruct numbers as [|x xs]; cbn [snd]; split.
      * intros H. injection H as <-. auto.
      * intros (_ & _ & ->). reflexivity.
      * discriminate.
      * intros (H & _). discriminate H.
    + destruct (String.eqb_spec op op_mul) as [->|Hmul].
      * destruct numbers as [|x xs]; cbn [snd]; split.
        -- intros H. injection H as <-. auto.
        -- intros (_ & _ & ->). reflexivity.
        -- discriminate.
        -- intros (H & _). discriminate H.
      * cbn [snd]. split; [discriminate|].
        intros (_ & [H|H] & _); congruence.
Qed.

Lemma sum_of_between (low high : Z) (l : list Z) :
  Forall (between low high) l ->
  Z.of_nat (List.length l) * low <= sum_of l
  <= Z.of_nat (List.length l) * high.
Proof.
  unfold sum_of, between.
  induction 1 as [|x l Hx Hl IH]; cbn [fold_right List.length]; [lia|].
  rewrite Nat2Z.inj_succ. lia.
Qed.

Lemma product_of_between (low high : Z) (l : list Z) :
  0 <= low ->
  Forall (between low high) l ->
  0 <= low ^ Z.of_nat (List.length l) /\
  low ^ Z.of_nat (List.length l) <= product_of l
  <= high ^ Z.of_nat (List.length l).
Proof.
  unfold product_of, between. intros Hlow.
  induction 1 as [|x l Hx Hl IH]; cbn [fold_right List.length].
  - cbn. lia.
  - rewrite Nat2Z.inj_succ, !Z.pow_succ_r by lia.
    destruct IH as (H0 & H1 & H2). nia.
Qed.

(** X2: for operands between [low] and [high] with 0 <= low, the sum of
    n operands lies between n low and n high, the left-fold difference
    between low - (n - 1) high and high - (n - 1) low (so it can be
    negative), and the left-fold product between low^n and high^n. *)
Theorem get_answer_between (low high : Z) (numbers : list Z) :
  0 <= low ->
  numbers <> [] ->
  Forall (between low high) numbers ->
  let n := Z.of_nat (List.length numbers) in
  exists sum difference product,
    get_answer numbers op_add = ([], Returns sum) /\
    get_answer numbers op_sub = ([], Returns difference) /\
    get_answer numbers op_mul = ([], Returns product) /\
    n * low <= sum <= n * high /\
    low - (n - 1) * high <= difference <= high - (n - 1) * low /\
    low ^ n <= product <= high ^ n.
Proof.
  intros Hlow Hne Hall n. subst n.
  destruct numbers as [|x xs]; [congruence|].
  exists (sum_of (x :: xs)), (x - sum_of xs), (product_of (x :: xs)).
  split; [apply get_answer_add|].
  split; [apply get_answer_sub|].
  split; [apply get_answer_mul; discriminate|].
  split; [now apply sum_of_between|].
  split; [|now apply product_of_between].
  inversion Hall as [|y ys Hx Hxs]; subst.
  pose proof (sum_of_between low high xs Hxs) as Hs.
  unfold between in Hx. cbn [List.length]. rewrite Nat2Z.inj_succ. lia.
Qed.

Lemma get_answer_between_witness :
  Forall (between 2 9) [9; 2; 9] /\
  exists sum difference product,
    get_answer [9; 2; 9] op_add = ([], Returns sum) /\
    get_answer [9; 2; 9] op_sub = ([], Returns difference) /\
    get_answer [9; 2; 9] op_mul = ([], Returns product) /\
    3 * 2 <= sum <= 3 * 9 /\
    2 - (3 - 1) * 9 <= difference <= 9 - (3 - 1) * 2 /\
    2 ^ 3 <= product <= 9 ^ 3.
Proof.
  assert (Forall (between 2 9) [9; 2; 9]) as H
    by (repeat constructor; unfold between; lia).
  split; [exact H|].
  apply (get_answer_between 2 9 [9; 2; 9]); [lia|discriminate|exact H].
Defined.

(** ** A start that is refused, and a typed answer *)

Lemma push_settings_refused (display : bool) (p : ArithmeticProgram) :
  errors_of (settings_errors (temp_settings p)) <> [] ->
  push_settings display p
  = (false,
     if display
     then show (input_error (errors_of (settings_errors (temp_settings p)))) p
     else p).
Proof.
  unfold push_settings.
  destruct (settings_errors (temp_settings p)) as [partly|[|m errors] s];
    cbn [errors_of]; intros H; try congruence; now destruct display.
Qed.

(** X3: when the fields do not pass validation, [start_game] changes
    nothing but the dialogs: it shows one "Input error" box that lists
    every error message, and returns; no game is set up, no operand is
    drawn and no countdown is registered. *)
Theorem start_game_refused (p : ArithmeticProgram) :
  errors_of (settings_errors (temp_settings p)) <> [] ->
  start_game p
  = (Returns tt,
     show (input_error (errors_of (settings_errors (temp_settings p)))) p).
Proof.
  intros H. unfold start_game. now rewrite (push_settings_refused true p H).
Qed.

Lemma start_game_refused_witness :
  let texts := mk_fields "1" "30" "20" "+" "abc" in
  let p := step (edit_fields texts) (init defaults (fun _ => 1)) in
  errors_of (settings_errors (temp_settings p)) = [msg_integers] /\
  start_game p = (Returns tt, show (input_error [msg_integers]) p).
Proof.
  intros texts p.
  assert (errors_of (settings_errors (temp_settings p)) = [msg_integers])
    as E by reflexivity.
  split; [exact E|].
  rewrite <- E. apply start_game_refused. rewrite E. discriminate.
Defined.

(** X4: in a running session, typing the answer the way [str] prints it,
    a negative one included, is counted as correct: both counters go up
    by one and the call returns. *)
Theorem printed_answer_is_correct (p : ArithmeticProgram) (k : nat)
  (answer : Z) :
  running_session p k ->
  get_answer (numbers_shown k p) (operator (settings p))
  = ([], Returns answer) ->
  exists p',
    answer_process (Py.str answer) p = (Returns tt, p') /\
    answers_correct p' = answers_correct p + 1 /\
    answers_all p' = answers_all p + 1.
Proof.
  intros Hrs Ha.
  rewrite (answer_process_cases p k (Py.str answer) answer Hrs Ha).
  rewrite int_str, Z.eqb_refl.
  destruct (advance_turn_attempted true p k Hrs) as (p' & E & Hatt).
  exists p'. split; [exact E|].
  destruct Hatt as (Hall & Hcor & _). split; [exact Hcor|exact Hall].
Qed.

Lemma printed_answer_is_correct_witness :
  let texts := mk_fields "2" "0" "20" "-" "0" in
  let p := run [edit_fields texts; press_start]
               (init defaults (fun n => Z.of_nat n)) in
  get_answer (numbers_shown 3 p) (operator (settings p))
  = ([], Returns (-1)) /\
  exists p',
    answer_process (Py.str (-1)) p = (Returns tt, p') /\
    answers_correct p' = answers_correct p + 1 /\
    answers_all p' = answers_all p + 1.
Proof.
  intros texts p.
  assert (running_session p 3) as H.
  { constructor.
    - vm_compute; reflexivity.
    - vm_compute; reflexivity.
    - replace (List.length (numbers p)) with 5%nat by (vm_compute; reflexivity).
      lia.
    - replace (settings p) with (mk_settings 2 0 20 "-" 0)
        by (vm_compute; reflexivity).
      unfold valid, rule_numbercount, rule_range, rule_order, rule_operator,
        rule_time, MAX_NUMBERS, RANGE_LIMIT, MAX_TIME_LIMIT, OPERATORS.
      cbn. repeat split; try lia. right; now left. }
  assert (get_answer (numbers_shown 3 p) (operator (settings p))
          = ([], Returns (-1))) as Ha by (vm_compute; reflexivity).
  split; [exact Ha|].
  exact (printed_answer_is_correct p 3 (-1) H Ha).
Defined.

(** ** A stopped countdown *)



(** ** Reading the configuration file in every case *)

Lemma dict_get_set (k k' : string) (v : pyval) (d : dict) :
  dict_get k' (dict_set k v d)
  = if String.eqb k k' then Some v else dict_get k' d.
Proof.
  induction d as [|[k0 v0] d IH]; cbn [dict_set dict_get].
  - destruct (String.eqb k k'); reflexivity.
  - destruct (String.eqb_spec k0 k) as [->|Hne]; cbn [dict_get].
    + destruct (String.eqb k k'); reflexivity.
    + rewrite IH. destruct (String.eqb_spec k0 k') as [->|Hne'];
        [|reflexivity].
      destruct (String.eqb_spec k k') as [->|_]; [congruence|reflexivity].
Qed.

Lemma dict_has_get (k : string) (d : dict) :
  dict_has k d = true -> exists v, dict_get k d = Some v.
Proof.
  unfold dict_has.
  induction d as [|[k0 v0] d IH]; cbn [existsb dict_get fst]; [discriminate|].
  destruct (String.eqb k0 k); [eexists; reflexivity|exact IH].
Qed.

Lemma read_line_typed (d d' : dict) (i : string) :
  typed_values d -> read_line d i = Returns d' -> typed_values d'.
Proof.
  intros Hd. unfold read_line.
  destruct (Py.split ";"%char (Py.rstrip i)) as [|setting [|value rest]];
    try discriminate.
  destruct (String.eqb setting "operator") eqn:Hop; cbn [negb].
  - intros H. injection H as <-. intros k v. rewrite dict_get_set.
    destruct (String.eqb_spec setting k) as [<-|_]; [|apply Hd].
    intros H. injection H as <-. rewrite Hop. eexists; reflexivity.
  - destruct (Py.int value) as [z|]; [|discriminate].
    intros H. injection H as <-. intros k v. rewrite dict_get_set.
    destruct (String.eqb_spec setting k) as [<-|_]; [|apply Hd].
    intros H. injection H as <-. rewrite Hop. eexists; reflexivity.
Qed.

Lemma read_line_raises (d : dict) (i : string) (e : exn) :
  read_line d i = Raises e -> e = IndexError \/ e = ValueError.
Proof.
  unfold read_line.
  destruct (Py.split ";"%char (Py.rstrip i)) as [|setting [|value rest]];
    try (intros H; injection H as <-; now left).
  destruct (negb (String.eqb setting "operator")); [|discriminate].
  destruct (Py.int value); [discriminate|].
  intros H. injection H as <-. now right.
Qed.

Lemma read_lines_typed (lines : list string) :
  forall d d' : dict,
    typed_values d -> read_lines d lines = Returns d' -> typed_values d'.
Proof.
  induction lines as [|i lines IH]; intros d d' Hd; cbn [read_lines].
  - intros H. injection H as <-. exact Hd.
  - destruct (read_line d i) as [d1|e] eqn:E; [|discriminate].
    apply IH. exact (read_line_typed d d1 i Hd E).
Qed.

Lemma read_lines_raises (lines : list string) :
  forall (d : dict) (e : exn),
    read_lines d lines = Raises e -> e = IndexError \/ e = ValueError.
Proof.
  induction lines as [|i lines IH]; intros d e; cbn [read_lines];
    [discriminate|].
  destruct (read_line d i) as [d1|e1] eqn:E.
  - apply IH.
  - intros H. injection H as <-. exact (read_line_raises d i e1 E).
Qed.

Lemma typed_values_nil : typed_values [].
Proof. intros k v H. discriminate H. Qed.

Lemma read_cfg_try_returns (file : option string) (d : dict) :
  read_cfg_try file = Returns d ->
  file <> None /\ exists s, settings_in d s.
Proof.
  unfold read_cfg_try. destruct file as [text|]; [|discriminate].
  destruct (read_lines [] (Py.readlines text)) as [d1|e] eqn:E;
    [|discriminate].
  destruct (forallb _ _) eqn:Hall; [|discriminate].
  intros H. injection H as <-. split; [discriminate|].
  pose proof (read_lines_typed _ _ _ typed_values_nil E) as Ht.
  cbn [forallb dict_of fst] in Hall.
  apply andb_true_iff in Hall. destruct Hall as [H1 Hall].
  apply andb_true_iff in Hall. destruct Hall as [H2 Hall].
  apply andb_true_iff in Hall. destruct Hall as [H3 Hall].
  apply andb_true_iff in Hall. destruct Hall as [H4 Hall].
  apply andb_true_iff in Hall. destruct Hall as [H5 _].
  apply dict_has_get in H1, H2, H3, H4, H5.
  destruct H1 as (v1 & G1). destruct H2 as (v2 & G2).
  destruct H3 as (v3 & G3). destruct H4 as (v4 & G4).
  destruct H5 as (v5 & G5).
  pose proof (Ht _ _ G1) as (n & ->).
  pose proof (Ht _ _ G2) as (l & ->).
  pose proof (Ht _ _ G3) as (u & ->).
  pose proof (Ht _ _ G4) as (op & ->).
  pose proof (Ht _ _ G5) as (t & ->).
  exists (mk_settings n l u op t). unfold settings_in. cbn. auto.
Qed.

Lemma read_cfg_try_raises (file : option string) (e : exn) :
  read_cfg_try file = Raises e ->
  (file = None /\ e = OSError) \/
  (file <> None /\ (e = IndexError \/ e = ValueError)).
Proof.
  unfold read_cfg_try. destruct file as [text|].
  - intros H. right. split; [discriminate|].
    destruct (read_lines [] (Py.readlines text)) as [d1|e1] eqn:E.
    + destruct (forallb _ _); [discriminate|].
      injection H as <-. now right.
    + injection H as <-. exact (read_lines_raises _ _ _ E).
  - intros H. injection H as <-. now left.
Qed.

Lemma settings_in_dict_of (s : Settings) : settings_in (dict_of s) s.
Proof. unfold settings_in. cbn. auto. Qed.

Lemma open_r_some (a : access) (file : option string) :
  open_r a file <> None -> may_read a = true /\ file <> None.
Proof.
  unfold open_r. destruct (may_read a); [auto|congruence].
Qed.

(** Where [open] may read and write, [read_cfg_io] is [read_cfg]. *)
Lemma read_cfg_io_accessible (a : access) (file : option string) :
  may_read a = true -> may_write a = true ->
  read_cfg_io a file
  = (Returns (fst (fst (read_cfg file))), snd (fst (read_cfg file)),
     snd (read_cfg file)).
Proof.
  intros Hr Hw. unfold read_cfg_io, read_cfg, open_r, write_cfg_io.
  rewrite Hr, Hw.
  destruct (read_cfg_try file) as [d|e] eqn:E; [reflexivity|].
  apply read_cfg_try_raises in E.
  destruct E as [[_ ->]|[_ [->| ->]]]; reflexivity.
Qed.

(** X6: [read_cfg] raises only [OSError], and only when the file can
    neither be read (it is absent, may not be opened, or is faulty) nor
    written; the file is then left as it is, and the dialog has been
    shown unless the fault was a line without a semicolon, whose handler
    writes first.  Otherwise it
    returns a dictionary that has the five settings, with integers for
    the four numeric ones: either the file was read, nothing is shown and
    the file is left alone; or the defaults are returned, one dialog is
    shown (the faulty-file one for a file that was opened, the not-found
    one otherwise) and the defaults are written to the file. *)
Theorem read_cfg_outcome (a : access) (file : option string) :
  let result := fst (fst (read_cfg_io a file)) in
  let shown := snd (fst (read_cfg_io a file)) in
  let file' := snd (read_cfg_io a file) in
  (exists d s,
      read_cfg_try (open_r a file) = Returns d /\
      may_read a = true /\ file <> None /\
      settings_in d s /\
      result = Returns d /\ shown = [] /\ file' = file) \/
  (exists e,
      read_cfg_try (open_r a file) = Raises e /\
      may_write a = true /\
      result = Returns (dict_of defaults) /\
      shown = [match open_r a file with
               | None => msg_not_found
               | Some _ => msg_faulty
               end] /\
      file' = Some (cfg_text (dict_of defaults))) \/
  (exists e,
      read_cfg_try (open_r a file) = Raises e /\
      may_write a = false /\
      result = Raises OSError /\
      shown = match e with
              | IndexError => []
              | OSError => [msg_not_found]
              | _ => [msg_faulty]
              end /\
      file' = file).
Proof.
  cbn zeta. unfold read_cfg_io.
  destruct (read_cfg_try (open_r a file)) as [d|e] eqn:E.
  - left. destruct (read_cfg_try_returns _ _ E) as (Hf & s & Hs).
    destruct (open_r_some a file Hf) as (Hr & Hfile).
    exists d, s. cbn [fst snd]. auto 10.
  - right. unfold write_cfg_io.
    pose proof (read_cfg_try_raises _ _ E) as [[Hf ->]|[Hf He]].
    + rewrite Hf. destruct (may_write a); [left|right];
        exists OSError; cbn [fst snd]; auto 10.
    + destruct (open_r a file) as [text|] eqn:Ho; [|congruence].
      destruct He as [-> | ->]; (destruct (may_write a); [left|right]);
        eexists; cbn [fst snd];
        (split; [reflexivity|]); auto 10.
Qed.

(** X7: what [read_cfg] returns it returns again at the next launch.  If
    it returns, reading the file it leaves returns the same settings and
    leaves the file as it is; nothing is shown then when the file may be
    read, and the not-found dialog is shown again when it may not. *)
Theorem read_cfg_again (a : access) (file : option string) (d : dict)
  (shown : list dialog) (file' : option string) :
  read_cfg_io a file = (Returns d, shown, file') ->
  read_cfg_io a file'
  = (Returns d, if may_read a then [] else [msg_not_found], file').
Proof.
  assert (may_write a = true ->
          read_cfg_io a (write_cfg (dict_of defaults) file)
          = (Returns (dict_of defaults),
             if may_read a then [] else [msg_not_found],
             write_cfg (dict_of defaults) file)) as Hreset.
  { intros Hw. unfold read_cfg_io, open_r, write_cfg_io, write_cfg.
    rewrite Hw. destruct (may_read a).
    - now rewrite (read_cfg_try_cfg_text defaults eq_refl).
    - reflexivity. }
  unfold read_cfg_io at 1.
  destruct (read_cfg_try (open_r a file)) as [d0|e] eqn:E.
  - intros H. injection H as <- <- <-.
    destruct (read_cfg_try_returns _ _ E) as (Hf & _).
    destruct (open_r_some a file Hf) as (Hr & _).
    rewrite Hr. unfold read_cfg_io. now rewrite E.
  - unfold write_cfg_io.
    destruct e; destruct (may_write a) eqn:Hw; intros H;
      try discriminate H; injection H as <- <- <-; now apply Hreset.
Qed.

Lemma read_cfg_again_witness :
  let write_only := mk_access false true in
  let read_write := mk_access true true in
  let reset := Some (cfg_text (dict_of defaults)) in
  (read_cfg_io write_only (Some "numbercount;3")
   = (Returns (dict_of defaults), [msg_not_found], reset) /\
   read_cfg_io write_only reset
   = (Returns (dict_of defaults), [msg_not_found], reset)) /\
  (read_cfg_io read_write (Some "numbercount;3")
   = (Returns (dict_of defaults), [msg_faulty], reset) /\
   read_cfg_io read_write reset = (Returns (dict_of defaults), [], reset)).
Proof.
  intros write_only read_write reset.
  assert (read_cfg_io write_only (Some "numbercount;3")
          = (Returns (dict_of defaults), [msg_not_found], reset)) as H1
    by (vm_compute; reflexivity).
  assert (read_cfg_io read_write (Some "numbercount;3")
          = (Returns (dict_of defaults), [msg_faulty], reset)) as H2
    by (vm_compute; reflexivity).
  split.
  - split; [exact H1|]. exact (read_cfg_again _ _ _ _ _ H1).
  - split; [exact H2|]. exact (read_cfg_again _ _ _ _ _ H2).
Defined.

(** X8: [read_cfg] does not check ranges.  Every settings record whose
    operator text has neither white space nor a semicolon, valid or not,
    negative numbers included, is read back as it was written. *)
Theorem read_cfg_reads_any_settings (s : Settings) (file : option string) :
  all_chars is_plain (operator s) = true ->
  read_cfg (write_cfg (dict_of s) file)
  = (dict_of s, [], write_cfg (dict_of s) file).
Proof.
  intros Hop. unfold read_cfg, write_cfg.
  now rewrite (read_cfg_try_cfg_text s Hop).
Qed.

Lemma read_cfg_reads_any_settings_witness :
  ~ valid (mk_settings 99 50 (-7) "mod" 1000000) /\
  read_cfg (write_cfg (dict_of (mk_settings 99 50 (-7) "mod" 1000000)) None)
  = (dict_of (mk_settings 99 50 (-7) "mod" 1000000), [],
     write_cfg (dict_of (mk_settings 99 50 (-7) "mod" 1000000)) None).
Proof.
  split.
  - intros (H & _). unfold rule_numbercount, MAX_NUMBERS in H. cbn in H. lia.
  - apply read_cfg_reads_any_settings. reflexivity.
Defined.

(** ** Leaving the program *)

Lemma push_settings_cases (display : bool) (p : ArithmeticProgram) :
  (exists s,
      parses_to (temp_settings p) s /\ valid s /\
      push_settings display p = (true, set_settings s p)) \/
  (errors_of (settings_errors (temp_settings p)) <> [] /\
   push_settings display p
   = (false,
      if display
      then show (input_error
                   (errors_of (settings_errors (temp_settings p)))) p
      else p)).
Proof.
  destruct (settings_errors (temp_settings p)) as [partly|[|m errors] s] eqn:E.
  - right. assert (errors_of (settings_errors (temp_settings p)) <> []) as H
      by (rewrite E; discriminate).
    rewrite <- E. split; [exact H|now apply push_settings_refused].
  - left. apply settings_errors_checked in E. destruct E as [Hp Hc].
    symmetry in Hc. apply settings_checks_nil in Hc.
    exists s. split; [exact Hp|]. split; [exact Hc|].
    now apply push_settings_valid.
  - right. assert (errors_of (settings_errors (temp_settings p)) <> []) as H
      by (rewrite E; discriminate).
    rewrite <- E. split; [exact H|now apply push_settings_refused].
Qed.

(** X9: [quit] shows no dialog.  When the fields pass validation it
    adopts them and holds the dictionary of the five fields; otherwise it
    keeps the settings and the dictionary it has, key order and other
    keys included.  When the file may be written it returns and the file
    is the dictionary it then holds, line by line; when not, it raises
    [OSError] and leaves the file.  After a quit with valid fields, when
    the file may be read and written, the next [read_cfg] returns exactly
    these settings without a dialog. *)
Theorem quit_saves_settings (a : access) (held : dict)
  (p : ArithmeticProgram) (file : option string) :
  let result := fst (fst (quit a held p file)) in
  let q := fst (snd (fst (quit a held p file))) in
  let held' := snd (snd (fst (quit a held p file))) in
  let file' := snd (quit a held p file) in
  dialogs q = dialogs p /\
  (forall s, parses_to (temp_settings p) s -> valid s ->
             q = set_settings s p /\ held' = dict_of s) /\
  (errors_of (settings_errors (temp_settings p)) <> [] ->
   q = p /\ held' = held) /\
  (may_write a = true ->
   result = Returns tt /\ file' = Some (cfg_text held')) /\
  (may_write a = false -> result = Raises OSError /\ file' = file) /\
  (forall s, parses_to (temp_settings p) s -> valid s ->
             may_read a = true -> may_write a = true ->
             read_cfg_io a file' = (Returns (dict_of s), [], file')).
Proof.
  cbn zeta.
  assert (forall s, parses_to (temp_settings p) s -> valid s ->
            quit a held p file
            = (fst (write_cfg_io a (dict_of s) file),
               (set_settings s p, dict_of s),
               snd (write_cfg_io a (dict_of s) file))) as Hgood.
  { intros s Hp Hv. unfold quit.
    rewrite (push_settings_valid false p s Hp Hv).
    replace (settings (set_settings s p)) with s by now open_state p.
    now destruct (write_cfg_io a (dict_of s) file). }
  assert (errors_of (settings_errors (temp_settings p)) <> [] ->
          quit a held p file
          = (fst (write_cfg_io a held file), (p, held),
             snd (write_cfg_io a held file))) as Hbad.
  { intros He. unfold quit. rewrite (push_settings_refused false p He).
    now destruct (write_cfg_io a held file). }
  split; [|split; [|split; [|split; [|split]]]].
  - destruct (push_settings_cases false p) as [(s & Hp & Hv & _)|(He & _)].
    + rewrite (Hgood s Hp Hv). cbn [fst snd]. now open_state p.
    + rewrite (Hbad He). reflexivity.
  - intros s Hp Hv. rewrite (Hgood s Hp Hv). cbn [fst snd]. auto.
  - intros He. rewrite (Hbad He). cbn [fst snd]. auto.
  - intros Hw.
    destruct (push_settings_cases false p) as [(s & Hp & Hv & _)|(He & _)];
      [rewrite (Hgood s Hp Hv)|rewrite (Hbad He)];
      unfold write_cfg_io, write_cfg; rewrite Hw; cbn [fst snd]; auto.
  - intros Hw.
    destruct (push_settings_cases false p) as [(s & Hp & Hv & _)|(He & _)];
      [rewrite (Hgood s Hp Hv)|rewrite (Hbad He)];
      unfold write_cfg_io; rewrite Hw; cbn [fst snd]; auto.
  - intros s Hp Hv Hr Hw. rewrite (Hgood s Hp Hv).
    unfold write_cfg_io, write_cfg. rewrite Hw. cbn [fst snd].
    unfold read_cfg_io, open_r. rewrite Hr.
    assert (all_chars is_plain (operator s) = true) as Hop.
    { destruct Hv as (_ & _ & _ & Ho & _). now apply operators_plain. }
    now rewrite (read_cfg_try_cfg_text s Hop).
Qed.

Lemma quit_saves_settings_witness :
  let good := mk_fields "4" "10" "99" "-" "60" in
  let bad := mk_fields "4" "99" "10" "-" "60" in
  let p := step (edit_fields good) (init defaults (fun _ => 1)) in
  let p' := step (edit_fields bad) (init defaults (fun _ => 1)) in
  let held := [("time_limit", PyInt 120); ("operator", PyStr "+");
               ("theme", PyInt 7); ("range_upper", PyInt 20);
               ("range_lower", PyInt 0); ("numbercount", PyInt 2)] in
  let a := mk_access true true in
  let locked := mk_access true false in
  (fst (snd (fst (quit a held p None)))
   = set_settings (mk_settings 4 10 99 "-" 60) p /\
   read_cfg_io a (snd (quit a held p None))
   = (Returns (dict_of (mk_settings 4 10 99 "-" 60)), [],
      snd (quit a held p None))) /\
  (snd (fst (quit a held p' None)) = (p', held) /\
   snd (quit a held p' None) = Some (cfg_text held)) /\
  (fst (fst (quit locked held p (Some "old"))) = Raises OSError /\
   snd (quit locked held p (Some "old")) = Some "old").
Proof.
  intros good bad p p' held a locked.
  assert (parses_to (temp_settings p) (mk_settings 4 10 99 "-" 60)) as Hp
    by (repeat split; reflexivity).
  assert (valid (mk_settings 4 10 99 "-" 60)) as Hv.
  { unfold valid, rule_numbercount, rule_range, rule_order, rule_operator,
      rule_time, MAX_NUMBERS, RANGE_LIMIT, MAX_TIME_LIMIT, OPERATORS.
    cbn. repeat split; try lia. right; now left. }
  assert (errors_of (settings_errors (temp_settings p')) <> []) as He
    by (vm_compute; discriminate).
  pose proof (quit_saves_settings a held p None)
    as (_ & Hgood & _ & _ & _ & Hread).
  pose proof (quit_saves_settings a held p' None)
    as (_ & _ & Hbad & Hwritten & _).
  pose proof (quit_saves_settings locked held p (Some "old"))
    as (_ & _ & _ & _ & Hlocked & _).
  cbn zeta in *.
  split; [|split].
  - split; [exact (proj1 (Hgood _ Hp Hv))|].
    exact (Hread _ Hp Hv eq_refl eq_refl).
  - destruct (Hbad He) as (E1 & E2). destruct (Hwritten eq_refl) as (_ & E3).
    split.
    + rewrite (surjective_pairing (snd (fst (quit a held p' None)))).
      now rewrite E1, E2.
    + now rewrite E3, E2.
  - exact (Hlocked eq_refl).
Defined.

(** ** What an event does *)

Lemma advance_turn_answered (correct : bool) (p : ArithmeticProgram)
  (k : nat) :
  running_session p k ->
  advance_turn correct p = (Returns tt, answered correct k p).
Proof.
  intros [Hw Hk Hlt Hv]. apply valid_range in Hv.
  unfold advance_turn, answered, redrawn, fresh_numbers.
  open_state p. read_back in Hw. read_back in Hk. read_back in Hlt.
  read_back in Hv. subst rw nu.
  destruct correct; read_back;
    (rewrite (set_new_calculation_fresh _ k);
     [|reflexivity|reflexivity|read_back; lia|exact Hv]);
    read_back; rewrite ?Z.add_0_r; reflexivity.
Qed.

Lemma start_game_started (p : ArithmeticProgram) (s : Settings) :
  parses_to (temp_settings p) s -> valid s ->
  start_game p = (Returns tt, started s p).
Proof.
  intros Hp Hv. unfold start_game.
  rewrite (push_settings_valid true p s Hp Hv).
  unfold bind, exec. rewrite start_game_setup_set_up.
  destruct (set_up_fields (set_settings s p)) as (P & E & _).
  pose proof (slice_start_le (MAX_NUMBERS - numbercount s)
                (List.length (numbers p))) as Hle.
  assert (0 <= time_limit s) as Ht
    by (destruct Hv as (_ & _ & _ & _ & H); unfold rule_time in H; lia).
  apply valid_range in Hv.
  unfold started, redrawn, fresh_numbers, first_used.
  rewrite E. clear E Hp. open_state p. read_back. read_back in Hle.
  rewrite (set_new_calculation_fresh _
             (Py.slice_start (MAX_NUMBERS - numbercount s)
                             (List.length ns)));
    [|reflexivity|reflexivity|exact Hle|exact Hv].
  read_back.
  destruct (Z.eqb_spec (time_limit s) 0) as [H0|H0]; cbn [negb];
    [reflexivity|].
  rewrite countdown_positive; [reflexivity|reflexivity|lia].
Qed.

Lemma step_moves (e : event) (p : ArithmeticProgram) :
  coherent p -> moves p e (step e p).
Proof.
  intros Hco. destruct e; cbn [step]; unfold when_enabled.
  - destruct (stopped_active_widgets p) eqn:Hsw;
      [|apply mv_nothing; cbn; now rewrite Hsw].
    destruct (push_settings_cases true p) as [(s & Hp & Hv & _)|(He & E)].
    + rewrite (start_game_started p s Hp Hv). now apply mv_started.
    + unfold start_game. rewrite E. now apply mv_refused.
  - destruct (running_active_widgets p) eqn:Hw;
      [now apply mv_stopped|apply mv_nothing; cbn; now rewrite Hw].
  - destruct (running_active_widgets p) eqn:Hw;
      [|apply mv_nothing; cbn; now rewrite Hw].
    destruct (co_running p Hco Hw) as (k & Hrs).
    destruct (get_answer_valid (numbers_shown k p) (operator (settings p)))
      as (answer & Ha).
    { destruct Hrs as [_ _ _ (_ & _ & _ & Hop & _)]. exact Hop. }
    { apply numbers_shown_some. now destruct Hrs. }
    rewrite (answer_process_cases p k (uanswer p) answer Hrs Ha).
    destruct (Py.int (uanswer p)) as [u|] eqn:Hint.
    + rewrite advance_turn_answered with (k := k) by exact Hrs.
      apply mv_answered; [exact Hrs|].
      unfold is_attempt. rewrite Hw, Hint. apply orb_true_r.
    + destruct (String.eqb (uanswer p) EmptyString) eqn:Hempty.
      * rewrite advance_turn_answered with (k := k) by exact Hrs.
        apply mv_answered; [exact Hrs|].
        unfold is_attempt. now rewrite Hw, Hempty.
      * cbn [snd]. unfold clear_field. rewrite Hw.
        apply mv_rejected; [exact Hw|].
        unfold is_attempt. now rewrite Hw, Hempty, Hint.
  - destruct (running_active_widgets p) eqn:Hw;
      [|apply mv_nothing; cbn; now rewrite Hw].
    unfold clear_field. rewrite Hw. now apply mv_cleared.
  - destruct (running_active_widgets p) eqn:Hw;
      [now apply mv_typed|apply mv_nothing; cbn; now rewrite Hw].
  - destruct (stopped_active_widgets p) eqn:Hsw;
      [now apply mv_fields|apply mv_nothing; cbn; now rewrite Hsw].
  - destruct (scheduled p) as [|count rest] eqn:Hsch;
      [apply mv_nothing; cbn; now rewrite Hsch|].
    destruct (stoptimer p) eqn:Hs.
    + rewrite countdown_stopped by (open_state p; exact Hs).
      now apply (mv_tick_ignored p count rest).
    + destruct (Z.lt_ge_cases 0 count) as [Hc|Hc].
      * rewrite countdown_positive; [|open_state p; exact Hs|exact Hc].
        now apply (mv_tick_counted p count rest).
      * rewrite countdown_zero; [|open_state p; exact Hs|lia].
        apply (mv_timed_out p count rest); [exact Hsch|exact Hs|lia].
Qed.

Lemma started_fields (s : Settings) (p : ArithmeticProgram) :
  let q := started s p in
  (running_active_widgets q = NORMAL /\
   stopped_active_widgets q = DISABLED /\
   stoptimer q = false /\
   settings q = s /\
   numbers_in_use q = Some (first_used s p)) /\
  (numbers q = fresh_numbers (first_used s p) (set_settings s p) /\
   drawn q = (drawn p + (List.length (numbers p) - first_used s p))%nat /\
   uanswer q = EmptyString) /\
  (answers_correct q = answers_correct p /\
   answers_all q = answers_all p /\
   results_cur q = EmptyString /\
   (results_cur p = EmptyString -> results_prev q = results_prev p) /\
   (results_cur p <> EmptyString -> results_prev q = results_cur p)) /\
  (entries q = entries p /\ dialogs q = dialogs p) /\
  (time_limit s = 0 ->
   time_left q = time_left p /\ scheduled q = scheduled p) /\
  (time_limit s <> 0 ->
   time_left q = time_limit s - 1 /\
   scheduled q = scheduled p ++ [time_limit s - 1]).
Proof.
  destruct (set_up_fields (set_settings s p)) as (P & E & HP1 & HP2).
  unfold started, redrawn, fresh_numbers, first_used, after, operand.
  rewrite E. clear E. open_state p. read_back.
  read_back in HP1. read_back in HP2.
  destruct (Z.eqb_spec (time_limit s) 0) as [H0|H0]; read_back;
    repeat split; try reflexivity; try assumption; intros; congruence.
Qed.

Lemma answered_fields (correct : bool) (k : nat) (p : ArithmeticProgram) :
  let q := answered correct k p in
  (running_active_widgets q = running_active_widgets p /\
   stopped_active_widgets q = stopped_active_widgets p /\
   stoptimer q = stoptimer p /\
   settings q = settings p /\
   numbers_in_use q = numbers_in_use p) /\
  (numbers q = fresh_numbers k p /\
   drawn q = (drawn p + (List.length (numbers p) - k))%nat /\
   uanswer q = EmptyString) /\
  (answers_correct q = answers_correct p + (if correct then 1 else 0) /\
   answers_all q = answers_all p + 1 /\
   results_cur q = score_text (answers_correct q) (answers_all q) /\
   results_prev q = results_prev p) /\
  (entries q = entries p /\ dialogs q = dialogs p /\
   time_left q = time_left p /\ scheduled q = scheduled p).
Proof.
  unfold answered, redrawn, fresh_numbers, operand.
  open_state p. read_back. repeat split; reflexivity.
Qed.

Lemma stop_game_fields (p : ArithmeticProgram) :
  let q := stop_game p in
  running_active_widgets q = DISABLED /\
  stopped_active_widgets q = NORMAL /\
  stoptimer q = true /\ time_left q = 0 /\
  answers_correct q = 0 /\ answers_all q = 0 /\
  (running_active_widgets p = NORMAL -> uanswer q = EmptyString) /\
  (running_active_widgets p = DISABLED -> uanswer q = uanswer p) /\
  scheduled q = scheduled p /\ settings q = settings p /\
  numbers q = numbers p /\ numbers_in_use q = numbers_in_use p /\
  results_cur q = results_cur p /\ results_prev q = results_prev p /\
  entries q = entries p /\ dialogs q = dialogs p /\ drawn q = drawn p.
Proof.
  unfold stop_game, clear_field. open_state p. read_back.
  destruct rw; read_back; repeat split; try reflexivity; discriminate.
Qed.

Lemma operand_between (p : ArithmeticProgram) (first n : nat) :
  range_lower (settings p) <= range_upper (settings p) ->
  between (range_lower (settings p)) (range_upper (settings p))
          (operand p first n).
Proof.
  intros H. unfold between, operand.
  pose proof (Z.mod_pos_bound (entropy p (first + n)%nat)
                (range_upper (settings p) - range_lower (settings p) + 1)).
  lia.
Qed.

Lemma fresh_numbers_shown (k : nat) (p : ArithmeticProgram) :
  (k <= List.length (numbers p))%nat ->
  skipn k (fresh_numbers k p)
  = map (operand p (drawn p)) (seq 0 (List.length (numbers p) - k)).
Proof.
  intros Hk. unfold fresh_numbers.
  rewrite skipn_app, length_firstn.
  rewrite skipn_all2 by (rewrite length_firstn; lia).
  replace (k - Nat.min k (List.length (numbers p)))%nat with O by lia.
  reflexivity.
Qed.

Lemma fresh_numbers_fit (k : nat) (p : ArithmeticProgram) :
  (k <= List.length (numbers p))%nat ->
  range_lower (settings p) <= range_upper (settings p) ->
  List.length (skipn k (fresh_numbers k p))
  = (List.length (numbers p) - k)%nat /\
  Forall (between (range_lower (settings p)) (range_upper (settings p)))
         (skipn k (fresh_numbers k p)) /\
  List.length (fresh_numbers k p) = List.length (numbers p) /\
  firstn k (fresh_numbers k p) = firstn k (numbers p).
Proof.
  intros Hk Hr. rewrite (fresh_numbers_shown k p Hk).
  split; [now rewrite length_map, length_seq|].
  split.
  - apply Forall_forall. intros x Hx. apply in_map_iff in Hx.
    destruct Hx as (n & <- & _). now apply operand_between.
  - unfold fresh_numbers. split.
    + rewrite length_app, length_firstn, length_map, length_seq. lia.
    + rewrite firstn_app, length_firstn.
      replace (k - Nat.min k (List.length (numbers p)))%nat with O by lia.
      cbn [firstn]. rewrite List.app_nil_r.
      rewrite firstn_firstn. now rewrite Nat.min_id.
Qed.

Lemma first_used_valid (s : Settings) (p : ArithmeticProgram) :
  valid s ->
  List.length (numbers p) = Z.to_nat MAX_NUMBERS ->
  (first_used s p <= List.length (numbers p))%nat /\
  Z.of_nat (List.length (numbers p) - first_used s p) = numbercount s.
Proof.
  intros (Hn & _) Hlen. unfold rule_numbercount, MAX_NUMBERS in Hn.
  unfold first_used, Py.slice_start. rewrite Hlen. unfold MAX_NUMBERS.
  destruct (Z.ltb_spec (5 - numbercount s) 0); lia.
Qed.

(** ** What holds whatever the events *)

Lemma run_moves (I : ArithmeticProgram -> Prop) :
  (forall p e q, coherent p -> I p -> moves p e q -> I q) ->
  forall (events : list event) (p : ArithmeticProgram),
    coherent p -> I p -> I (run events p).
Proof.
  intros Hstep. induction events as [|e events IH]; intros p Hco HI;
    [exact HI|].
  cbn [run fold_left]. apply IH.
  - now apply step_coherent.
  - apply (Hstep p e); [exact Hco|exact HI|now apply step_moves].
Qed.

Lemma equation_fits_moves (p : ArithmeticProgram) (e : event)
  (q : ArithmeticProgram) :
  coherent p -> equation_fits p -> moves p e q -> equation_fits q.
Proof.
  intros Hco H Hm. destruct Hm.
  - exact H.
  - unfold equation_fits, numbers_shown in *. now open_state p.
  - unfold equation_fits, numbers_shown in *. now open_state p.
  - unfold equation_fits, numbers_shown in *. now open_state p.
  - unfold equation_fits, numbers_shown, show in *. now open_state p.
  - destruct (started_fields s p)
      as ((_ & _ & _ & Hset & Hnu) & (Hnum & _) & _).
    destruct (first_used_valid s p H2 (co_numbers p Hco)) as (Hle & Hnc).
    assert (range_lower (settings (set_settings s p))
            <= range_upper (settings (set_settings s p))) as Hr
      by (open_state p; now apply valid_range).
    assert (List.length (numbers (set_settings s p))
            = List.length (numbers p)) as Hlen by now open_state p.
    assert (settings (set_settings s p) = s) as Hs by now open_state p.
    destruct (fresh_numbers_fit (first_used s p) (set_settings s p))
      as (Hl & Hall & _); [lia|exact Hr|].
    intros _. exists (first_used s p). split; [exact Hnu|].
    unfold numbers_shown. rewrite Hnum, Hset.
    rewrite Hs in Hall. rewrite Hl, Hlen. split; [exact Hnc|exact Hall].
  - destruct (answered_fields correct k p)
      as ((Hr & _ & _ & Hset & Hnu) & (Hnum & _) & _).
    destruct H0 as [Hw Hk Hlt Hv].
    destruct (H Hw) as (k' & Hk' & Hlen & _).
    assert (k' = k) by congruence. subst k'.
    destruct (fresh_numbers_fit k p) as (Hl & Hall & _);
      [lia|now apply valid_range|].
    intros _. exists k. split; [congruence|].
    unfold numbers_shown in *. rewrite Hnum, Hset, Hl.
    rewrite length_skipn in Hlen. split; [exact Hlen|exact Hall].
  - unfold equation_fits, numbers_shown, show in *. now open_state p.
  - destruct (stop_game_fields p) as (Hr & _). intros Hw. congruence.
  - unfold equation_fits, numbers_shown in *. now open_state p.
  - unfold equation_fits, numbers_shown, after in *. now open_state p.
  - destruct (stop_game_fields (set_scheduled rest p)) as (Hr & _).
    intros Hw. congruence.
Qed.

(** X10: whatever events the program has received since launch, a
    running game shows exactly [numbercount] operands and each of them
    lies between [range_lower] and [range_upper] of the settings in
    effect. *)
Theorem equation_always_fits (s : Settings) (rnd : nat -> Z)
  (events : list event) :
  let p := run events (init s rnd) in
  mode_of p = Running ->
  exists k,
    numbers_in_use p = Some k /\
    Z.of_nat (List.length (numbers_shown k p)) = numbercount (settings p) /\
    Forall (between (range_lower (settings p)) (range_upper (settings p)))
           (numbers_shown k p).
Proof.
  intros p Hmode.
  assert (equation_fits p) as H.
  { apply (run_moves equation_fits equation_fits_moves);
      [apply init_coherent|]. intros Hw. discriminate Hw. }
  apply H. unfold mode_of in Hmode.
  destruct (running_active_widgets p); [reflexivity|discriminate].
Qed.

Lemma equation_always_fits_witness :
  let texts := mk_fields "4" "10" "12" "+" "60" in
  let events := [edit_fields texts; press_start; type_answer "1";
                 press_submit_key; timer_fires] in
  let p := run events (init defaults (fun n => Z.of_nat n)) in
  mode_of p = Running /\
  exists k,
    numbers_in_use p = Some k /\
    Z.of_nat (List.length (numbers_shown k p)) = numbercount (settings p) /\
    Forall (between (range_lower (settings p)) (range_upper (settings p)))
           (numbers_shown k p).
Proof.
  intros texts events p.
  assert (mode_of p = Running) as H by (vm_compute; reflexivity).
  split; [exact H|].
  exact (equation_always_fits defaults (fun n => Z.of_nat n) events H).
Defined.





Lemma time_moves (p : ArithmeticProgram) (e : event)
  (q : ArithmeticProgram) :
  coherent p -> time_in_bounds p -> moves p e q -> time_in_bounds q.
Proof.
  intros _ H Hm. destruct Hm.
  - exact H.
  - unfold time_in_bounds in *. now open_state p.
  - unfold time_in_bounds in *. now open_state p.
  - unfold time_in_bounds in *. now open_state p.
  - unfold time_in_bounds, show in *. now open_state p.
  - destruct (started_fields s p) as (_ & _ & _ & _ & Hz & Hnz).
    destruct H2 as (_ & _ & _ & _ & Ht). unfold rule_time in Ht.
    destruct H as (Hl & Hsc). unfold time_in_bounds.
    destruct (Z.eq_dec (time_limit s) 0) as [E|E].
    + destruct (Hz E) as (-> & ->). auto.
    + destruct (Hnz E) as (-> & ->). split; [lia|].
      apply Forall_app. split; [exact Hsc|].
      constructor; [lia|constructor].
  - destruct (answered_fields correct k p) as (_ & _ & _ & _ & _ & Hl & Hsc).
    unfold time_in_bounds. now rewrite Hl, Hsc.
  - unfold time_in_bounds, show in *. now open_state p.
  - destruct (stop_game_fields p) as (_ & _ & _ & Hl & _ & _ & _ & _ & Hsc & _).
    destruct H as (_ & H). unfold time_in_bounds, MAX_TIME_LIMIT.
    rewrite Hl, Hsc. split; [lia|exact H].
  - unfold time_in_bounds in *. open_state p. read_back in H.
    read_back in H0. subst sc. read_back. destruct H as (Hl & Hsc).
    inversion Hsc; subst. auto.
  - unfold time_in_bounds, after in *. open_state p. read_back in H.
    read_back in H0. subst sc. read_back. destruct H as (Hl & Hsc).
    inversion Hsc as [|c l Hc Hrest]; subst. split; [lia|].
    apply Forall_app. split; [exact Hrest|]. constructor; [lia|constructor].
  - destruct (stop_game_fields (set_scheduled rest p))
      as (_ & _ & _ & Hl & _ & _ & _ & _ & Hsc & _).
    destruct H as (_ & H). unfold time_in_bounds, MAX_TIME_LIMIT.
    rewrite Hl, Hsc. split; [lia|].
    open_state p. read_back in H. read_back in H0. subst sc. read_back.
    inversion H; subst. assumption.
Qed.

(** X12: whatever events the program has received since launch, the
    displayed time and the count of every registered countdown call are
    at least 0 and at most MAX_TIME_LIMIT - 2. *)
Theorem time_always_in_bounds (s : Settings) (rnd : nat -> Z)
  (events : list event) :
  let p := run events (init s rnd) in
  0 <= time_left p <= MAX_TIME_LIMIT - 2 /\
  Forall (fun count => 0 <= count <= MAX_TIME_LIMIT - 2) (scheduled p).
Proof.
  intros p.
  assert (time_in_bounds p) as (Hl & Hsc).
  { apply (run_moves time_in_bounds time_moves); [apply init_coherent|].
    unfold time_in_bounds, MAX_TIME_LIMIT. cbn. split; [lia|constructor]. }
  split; [lia|].
  revert Hsc. apply Forall_impl. intros c Hc. lia.
Qed.








Lemma goes_on_moves (p : ArithmeticProgram) (e : event)
  (q : ArithmeticProgram) :
  plays_on e = true ->
  running_active_widgets p = NORMAL /\ scheduled p = [] ->
  moves p e q ->
  running_active_widgets q = NORMAL /\ scheduled q = [].
Proof.
  intros He (Hw & Hsc) Hm. destruct Hm; try discriminate He.
  - auto.
  - now open_state p.
  - now open_state p.
  - now open_state p.
  - destruct (answered_fields correct k p)
      as ((Hr & _) & _ & _ & _ & _ & _ & Hq).
    rewrite Hr, Hq. auto.
  - unfold show. now open_state p.
  - congruence.
  - congruence.
  - congruence.
Qed.

Lemma run_goes_on (events : list event) :
  forall p : ArithmeticProgram,
    coherent p ->
    forallb plays_on events = true ->
    running_active_widgets p = NORMAL /\ scheduled p = [] ->
    running_active_widgets (run events p) = NORMAL /\
    scheduled (run events p) = [].
Proof.
  induction events as [|e events IH]; intros p Hco He H; [exact H|].
  cbn [forallb] in He. apply andb_true_iff in He as (He & Hrest).
  cbn [run fold_left]. apply IH.
  - now apply step_coherent.
  - exact Hrest.
  - apply (goes_on_moves p e); [exact He|exact H|now apply step_moves].
Qed.

(** X15: a game with no countdown call registered is never stopped by
    the program itself.  From a reachable state where a game is running
    and nothing is registered (a game started with time limit 0 once the
    calls of earlier games have fired), whatever is typed, submitted or
    cleared, the game is still running and nothing is registered; only
    the Stop button ends it. *)
Theorem game_without_countdown_goes_on (s : Settings) (rnd : nat -> Z)
  (before events : list event) :
  let p := run before (init s rnd) in
  mode_of p = Running ->
  scheduled p = [] ->
  forallb plays_on events = true ->
  mode_of (run events p) = Running /\ scheduled (run events p) = [].
Proof.
  intros p Hmode Hsc He.
  assert (running_active_widgets p = NORMAL) as Hw.
  { unfold mode_of in Hmode.
    destruct (running_active_widgets p); [reflexivity|discriminate]. }
  destruct (run_goes_on events p) as (Hr & Hq).
  - apply run_coherent. apply init_coherent.
  - exact He.
  - auto.
  - unfold mode_of. rewrite Hr. auto.
Qed.

Lemma game_without_countdown_goes_on_witness :
  let before := [edit_fields (mk_fields "2" "0" "20" "+" "0");
                 press_start] in
  let events := [timer_fires; type_answer "3"; press_submit_key;
                 timer_fires; press_clear_key; press_submit_key;
                 timer_fires] in
  let p := run before (init defaults (fun n => Z.of_nat n)) in
  (mode_of p = Running /\ scheduled p = [] /\
   forallb plays_on events = true) /\
  mode_of (run events p) = Running /\ scheduled (run events p) = [].
Proof.
  intros before events p.
  assert (mode_of p = Running) as H1 by (vm_compute; reflexivity).
  assert (scheduled p = []) as H2 by (vm_compute; reflexivity).
  assert (forallb plays_on events = true) as H3 by reflexivity.
  split; [auto|].
  exact (game_without_countdown_goes_on defaults (fun n => Z.of_nat n)
           before events H1 H2 H3).
Defined.

(** X16: a [start_game] whose fields pass validation returns, shows no
    dialog, adopts the settings, enables the game widgets and disables
    the settings widgets, clears the answer entry and leaves both
    counters and the settings fields as they are.  With time limit 0 it
    registers no countdown call and leaves the displayed time; otherwise
    it displays the limit less one and registers one call with it, after
    the calls still registered. *)
Theorem start_game_effects (p : ArithmeticProgram) (s : Settings) :
  parses_to (temp_settings p) s -> valid s ->
  exists q,
    start_game p = (Returns tt, q) /\
    dialogs q = dialogs p /\ settings q = s /\
    running_active_widgets q = NORMAL /\
    stopped_active_widgets q = DISABLED /\
    uanswer q = EmptyString /\ entries q = entries p /\
    answers_correct q = answers_correct p /\
    answers_all q = answers_all p /\
    (time_limit s = 0 ->
     time_left q = time_left p /\ scheduled q = scheduled p) /\
    (time_limit s <> 0 ->
     time_left q = time_limit s - 1 /\
     scheduled q = scheduled p ++ [time_limit s - 1]).
Proof.
  intros Hp Hv. exists (started s p).
  split; [now apply start_game_started|].
  destruct (started_fields s p)
    as ((Hr & Hs & _ & Hset & _) & (_ & _ & Hu) & (Hc & Ha & _)
        & (He & Hd) & Hz & Hnz).
  split; [exact Hd|]. split; [exact Hset|]. split; [exact Hr|].
  split; [exact Hs|]. split; [exact Hu|]. split; [exact He|].
  split; [exact Hc|]. split; [exact Ha|]. split; [exact Hz|exact Hnz].
Qed.

Lemma start_game_effects_witness :
  let fields := mk_fields "3" "1" "9" "-" "0" in
  let p := step (edit_fields fields) (init defaults (fun _ => 1)) in
  let s := mk_settings 3 1 9 "-" 0 in
  (parses_to (temp_settings p) s /\ valid s) /\
  exists q,
    start_game p = (Returns tt, q) /\
    dialogs q = dialogs p /\ settings q = s /\
    running_active_widgets q = NORMAL /\
    stopped_active_widgets q = DISABLED /\
    uanswer q = EmptyString /\ entries q = entries p /\
    answers_correct q = answers_correct p /\
    answers_all q = answers_all p /\
    (time_limit s = 0 ->
     time_left q = time_left p /\ scheduled q = scheduled p) /\
    (time_limit s <> 0 ->
     time_left q = time_limit s - 1 /\
     scheduled q = scheduled p ++ [time_limit s - 1]).
Proof.
  intros fields p s.
  assert (parses_to (temp_settings p) s) as Hp
    by (repeat split; reflexivity).
  assert (valid s) as Hv.
  { unfold valid, rule_numbercount, rule_range, rule_order, rule_operator,
      rule_time, MAX_NUMBERS, RANGE_LIMIT, MAX_TIME_LIMIT, OPERATORS, s.
    cbn. repeat split; try lia. right; now left. }
  split; [auto|]. exact (start_game_effects p s Hp Hv).
Defined.

(** ** The labels of the equation *)

Lemma range_empty (start stop step : Z) :
  stop <= start -> 0 < step -> PyList.range start stop step = [].
Proof.
  intros H Hs. unfold PyList.range.
  assert ((stop - start + step - 1) / step < 1) as Hd
    by (apply Z.div_lt_upper_bound; lia).
  replace (Z.to_nat ((stop - start + step - 1) / step)) with O by lia.
  reflexivity.
Qed.

Lemma range_first (start stop step : Z) :
  start < stop -> 0 < step ->
  exists rest, PyList.range start stop step = start :: rest.
Proof.
  intros H Hs. unfold PyList.range.
  assert (1 <= (stop - start + step - 1) / step) as Hd
    by (apply Z.div_le_lower_bound; lia).
  destruct (Z.to_nat ((stop - start + step - 1) / step)) as [|n] eqn:E;
    [lia|].
  cbn [seq map]. eexists. f_equal. cbn. lia.
Qed.

Lemma index_out_of_range (len : nat) (i : Z) :
  i < - Z.of_nat len -> PyList.index len i = None.
Proof.
  intros H. unfold PyList.index.
  destruct (Z.leb_spec 0 i); [lia|].
  destruct (Z.leb_spec (- Z.of_nat len) i); [lia|]. reflexivity.
Qed.

Ltac open_labels g H :=
  let op := fresh "op" in
  let labels := fresh "labels" in
  destruct g as [op labels]; unfold laid_out in H;
  cbn [eq_labels] in H;
  repeat (destruct labels as [|[? ? ? ?] labels];
          [discriminate H|]);
  destruct labels; [|discriminate H];
  vm_compute in H; injection H; intros; subst.

Lemma left_eq_config_above (s : Settings) (g : eq_left) :
  List.length (eq_labels g) = Z.to_nat (2 * MAX_NUMBERS) ->
  2 * MAX_NUMBERS < numbercount s ->
  left_eq_config s g
  = (Raises IndexError,
     mk_eq_left (operator s) (map grid_remove (eq_labels g))).
Proof.
  intros Hlen Hn. unfold left_eq_config.
  rewrite length_map, Hlen. unfold MAX_NUMBERS in *.
  destruct (range_first (Z.of_nat (Z.to_nat (2 * 5)) - numbercount s * 2)
              (5 * 2 - 1) 2) as (rest & ->); [lia|lia|].
  cbn [for_labels]. rewrite index_out_of_range; [reflexivity|].
  rewrite length_map, Hlen. lia.
Qed.

Lemma left_eq_config_returns (s : Settings) (g : eq_left) :
  laid_out g ->
  numbercount s <= 2 * MAX_NUMBERS ->
  exists g',
    left_eq_config s g = (Returns tt, g') /\
    laid_out g' /\
    operator_var g' = operator s /\
    on_screen g'
    = skipn (Z.to_nat (2 * MAX_NUMBERS - 2 * numbercount s))
            (equation_labels 0) /\
    number_labels_wide
      (Z.of_nat (String.length (Py.str (range_upper s))) + 1) g'.
Proof.
  intros Hg Hn. open_labels g Hg.
  unfold left_eq_config, MAX_NUMBERS in *.
  generalize (Z.of_nat (String.length (Py.str (range_upper s))) + 1).
  intros w. cbn [eq_labels map List.length].
  destruct (Z_le_gt_dec (numbercount s) 0) as [H0|H0].
  - rewrite !range_empty by lia. cbn [for_labels].
    eexists. split; [reflexivity|].
    split; [reflexivity|]. split; [reflexivity|]. split.
    + rewrite skipn_all2; [reflexivity|].
      change (List.length (equation_labels 0)) with 10%nat. lia.
    + repeat (apply Forall_cons; [cbn; intros; discriminate|]).
      apply Forall_nil.
  - assert (numbercount s = 1 \/ numbercount s = 2 \/ numbercount s = 3 \/
            numbercount s = 4 \/ numbercount s = 5 \/ numbercount s = 6 \/
            numbercount s = 7 \/ numbercount s = 8 \/ numbercount s = 9 \/
            numbercount s = 10) as Hcases by lia.
    destruct Hcases as [E|[E|[E|[E|[E|[E|[E|[E|[E|E]]]]]]]]]; rewrite E;
      lazy; (eexists; split; [reflexivity|]);
      (split; [reflexivity|]); (split; [reflexivity|]);
      (split; [reflexivity|]);
      repeat (apply Forall_cons;
              [cbn; intros; try discriminate; try reflexivity|]);
      apply Forall_nil.
Qed.

Lemma created_laid_out (op : string) (labels : list Label) :
  laid_out (mk_eq_left op labels) ->
  laid_out (mk_eq_left op (map grid_remove labels)).
Proof.
  unfold laid_out. cbn [eq_labels]. intros <-.
  rewrite map_map. reflexivity.
Qed.

Lemma laid_out_length (g : eq_left) :
  laid_out g -> List.length (eq_labels g) = Z.to_nat (2 * MAX_NUMBERS).
Proof.
  intros H. apply (f_equal (@List.length _)) in H.
  rewrite length_map in H. rewrite H. reflexivity.
Qed.

Lemma hidden_labels (labels : list Label) :
  filter gridded (map grid_remove labels) = [].
Proof.
  induction labels as [|l labels IH]; [reflexivity|exact IH].
Qed.

(** X17: whatever labels were on screen and whatever their widths, for
    settings with at most 2 * MAX_NUMBERS numbers [left_eq_config]
    returns, sets the operator variable, keeps every label in its column
    and leaves on screen the last numbercount number labels, each
    followed by the operator label and the last one by "="; every number
    label on screen has the width of the upper bound's digits plus one. *)
Theorem left_eq_config_screen (s : Settings) (g : eq_left) :
  laid_out g ->
  numbercount s <= 2 * MAX_NUMBERS ->
  exists g',
    left_eq_config s g = (Returns tt, g') /\
    laid_out g' /\
    operator_var g' = operator s /\
    on_screen g'
    = skipn (Z.to_nat (2 * MAX_NUMBERS - 2 * numbercount s))
            (equation_labels 0) /\
    number_labels_wide
      (Z.of_nat (String.length (Py.str (range_upper s))) + 1) g'.
Proof.
  apply left_eq_config_returns.
Qed.

Lemma left_eq_config_screen_witness :
  let s := mk_settings 3 0 150 "-" 0 in
  let g := snd (create_left_eq defaults) in
  (laid_out g /\ numbercount s <= 2 * MAX_NUMBERS) /\
  exists g',
    left_eq_config s g = (Returns tt, g') /\
    laid_out g' /\
    operator_var g' = "-" /\
    on_screen g'
    = [textvariable_number 2; textvariable_operator;
       textvariable_number 3; textvariable_operator;
       textvariable_number 4; text "="] /\
    number_labels_wide 4 g'.
Proof.
  intros s g.
  assert (laid_out g) as Hg by reflexivity.
  assert (numbercount s <= 2 * MAX_NUMBERS) as Hn
    by (vm_compute; discriminate).
  split; [auto|]. exact (left_eq_config_screen s g Hg Hn).
Defined.

(** X18: [left_eq_config] raises only [IndexError], and exactly for
    settings with more than 2 * MAX_NUMBERS numbers; by then it has set
    the operator variable and removed every label from the screen. *)
Theorem left_eq_config_raises (s : Settings) (g : eq_left) (e : exn) :
  laid_out g ->
  (fst (left_eq_config s g) = Raises e
   <-> 2 * MAX_NUMBERS < numbercount s /\ e = IndexError) /\
  (2 * MAX_NUMBERS < numbercount s ->
   operator_var (snd (left_eq_config s g)) = operator s /\
   on_screen (snd (left_eq_config s g)) = []).
Proof.
  intros Hg. pose proof (laid_out_length g Hg) as Hlen.
  destruct (Z_le_gt_dec (numbercount s) (2 * MAX_NUMBERS)) as [Hn|Hn].
  - destruct (left_eq_config_returns s g Hg Hn) as (g' & E & _).
    rewrite E. cbn [fst]. split; [|lia].
    split; [discriminate|lia].
  - rewrite (left_eq_config_above s g Hlen) by lia. cbn [fst snd].
    split.
    + split; [intros H; injection H as <-; split; [lia|reflexivity]|].
      intros (_ & ->). reflexivity.
    + intros _. split; [reflexivity|].
      unfold on_screen. cbn [eq_labels]. now rewrite hidden_labels.
Qed.

Lemma left_eq_config_raises_witness :
  let s := mk_settings 11 0 20 "+" 120 in
  let g := snd (create_left_eq defaults) in
  laid_out g /\
  fst (left_eq_config s g) = Raises IndexError /\
  on_screen (snd (left_eq_config s g)) = [].
Proof.
  intros s g.
  assert (laid_out g) as Hg by reflexivity.
  assert (2 * MAX_NUMBERS < numbercount s) as Hn by reflexivity.
  destruct (left_eq_config_raises s g IndexError Hg) as (Hiff & Hscreen).
  split; [exact Hg|]. split.
  - apply Hiff. split; [exact Hn|reflexivity].
  - apply (Hscreen Hn).
Defined.

(** X19: at launch [create_left_eq] makes the ten labels, each in its
    column, and returns exactly when the settings [read_cfg] gave have at
    most 2 * MAX_NUMBERS numbers; otherwise it raises [IndexError] with
    no label on screen.  When it returns, the labels on screen are those
    of the last numbercount operands: all of them for more than
    MAX_NUMBERS numbers, none for fewer than one. *)
Theorem create_left_eq_outcome (s : Settings) :
  laid_out (snd (create_left_eq s)) /\
  operator_var (snd (create_left_eq s)) = operator s /\
  fst (create_left_eq s)
  = (if 2 * MAX_NUMBERS <? numbercount s then Raises IndexError
     else Returns tt) /\
  on_screen (snd (create_left_eq s))
  = (if 2 * MAX_NUMBERS <? numbercount s then []
     else skipn (Z.to_nat (2 * MAX_NUMBERS - 2 * numbercount s))
                (equation_labels 0)).
Proof.
  unfold create_left_eq.
  match goal with
  | |- context [left_eq_config s ?g0] => set (g := g0)
  end.
  assert (laid_out g) as Hg by reflexivity.
  pose proof (laid_out_length g Hg) as Hlen.
  destruct (Z.ltb_spec (2 * MAX_NUMBERS) (numbercount s)) as [Hn|Hn].
  - rewrite (left_eq_config_above s g Hlen Hn). cbn [fst snd].
    split; [now apply created_laid_out|]. split; [reflexivity|].
    split; [reflexivity|].
    unfold on_screen. cbn [eq_labels]. now rewrite hidden_labels.
  - destruct (left_eq_config_returns s g Hg Hn)
      as (g' & E & Hg' & Hop & Hscreen & _).
    rewrite E. cbn [fst snd]. auto.
Qed.

Lemma equation_reads_screen (k : nat) (p : ArithmeticProgram)
  (g : eq_left) :
  List.length (numbers p) = Z.to_nat MAX_NUMBERS ->
  (k < Z.to_nat MAX_NUMBERS)%nat ->
  on_screen g = equation_labels k ->
  screen_reads g p = equation_reads (operator_var g) (numbers_shown k p).
Proof.
  intros Hlen Hk Hscreen. unfold screen_reads, numbers_shown, label_reads.
  rewrite Hscreen. clear Hscreen.
  destruct (numbers p) as [|x0 [|x1 [|x2 [|x3 [|x4 [|x5 rest]]]]]];
    try discriminate Hlen.
  unfold MAX_NUMBERS in Hk.
  assert (k = 0 \/ k = 1 \/ k = 2 \/ k = 3 \/ k = 4)%nat as Hcases by lia.
  destruct Hcases as [->|[->|[->|[->| ->]]]]; reflexivity.
Qed.

(** X20: whatever events the program has received since launch, while a
    game is running the labels, as [left_eq_config] sets them for the
    settings of the game, read exactly the equation [answer_process]
    checks: the operands in use, in order, with the operator of the
    settings between them and "=" at the end. *)
Theorem screen_reads_the_equation (s : Settings) (rnd : nat -> Z)
  (events : list event) (g : eq_left) :
  let p := run events (init s rnd) in
  mode_of p = Running ->
  laid_out g ->
  exists k g',
    numbers_in_use p = Some k /\
    left_eq_config (settings p) g = (Returns tt, g') /\
    on_screen g' = equation_labels k /\
    screen_reads g' p
    = equation_reads (operator (settings p)) (numbers_shown k p).
Proof.
  intros p Hmode Hg.
  assert (coherent p) as Hco by (apply run_coherent, init_coherent).
  assert (equation_fits p) as Hfit.
  { apply (run_moves equation_fits equation_fits_moves);
      [apply init_coherent|]. intros H. discriminate H. }
  assert (running_active_widgets p = NORMAL) as Hw.
  { unfold mode_of in Hmode.
    destruct (running_active_widgets p); [reflexivity|discriminate]. }
  destruct (Hfit Hw) as (k & Hk & Hcount & _).
  destruct Hco as [Hlen _ Hrun _].
  destruct (Hrun Hw) as (k' & [_ Hk' Hlt Hv]).
  assert (k' = k) by congruence. subst k'.
  destruct Hv as ((Hn1 & Hn2) & _).
  unfold numbers_shown in Hcount. rewrite length_skipn, Hlen in Hcount.
  rewrite Hlen in Hlt. unfold MAX_NUMBERS in *.
  destruct (left_eq_config_returns (settings p) g Hg)
    as (g' & E & _ & Hop & Hscreen & _); [unfold MAX_NUMBERS; lia|].
  assert (on_screen g' = equation_labels k) as Hlabels.
  { rewrite Hscreen. rewrite <- Hcount. unfold MAX_NUMBERS.
    assert (k = 0 \/ k = 1 \/ k = 2 \/ k = 3 \/ k = 4)%nat as Hcases by lia.
    destruct Hcases as [->|[->|[->|[->| ->]]]]; reflexivity. }
  exists k, g'. split; [exact Hk|]. split; [exact E|].
  split; [exact Hlabels|].
  rewrite <- Hop. apply equation_reads_screen; [exact Hlen|exact Hlt|].
  exact Hlabels.
Qed.

Lemma screen_reads_the_equation_witness :
  let texts := mk_fields "3" "1" "9" "-" "0" in
  let events := [edit_fields texts; press_start; type_answer "4";
                 press_submit_key] in
  let g := snd (create_left_eq defaults) in
  let p := run events (init defaults (fun n => Z.of_nat n)) in
  (mode_of p = Running /\ laid_out g) /\
  exists k g',
    numbers_in_use p = Some k /\
    left_eq_config (settings p) g = (Returns tt, g') /\
    on_screen g' = equation_labels k /\
    screen_reads g' p
    = equation_reads (operator (settings p)) (numbers_shown k p).
Proof.
  intros texts events g p.
  assert (mode_of p = Running) as Hmode by (vm_compute; reflexivity).
  assert (laid_out g) as Hg by reflexivity.
  split; [auto|].
  exact (screen_reads_the_equation defaults (fun n => Z.of_nat n) events g
           Hmode Hg).
Defined.

(** ** Starting right after launch *)

Lemma launch_fields_parse (s : Settings) (rnd : nat -> Z) :
  parses_to (temp_settings (init s rnd)) s.
Proof.
  unfold parses_to, temp_settings, init.
  cbn [entries text_numbercount text_range_lower text_range_upper
       text_op_dropdown text_time_entry raw_numbercount raw_range_lower
       raw_range_upper raw_operator raw_time_limit int_of].
  rewrite !int_str. repeat split; reflexivity.
Qed.

Lemma launch_outcome (s : Settings) (rnd : nat -> Z) :
  (2 * MAX_NUMBERS < numbercount s /\ launch s rnd = Raises IndexError) \/
  (numbercount s <= 2 * MAX_NUMBERS /\
   exists g, launch s rnd = Returns (init s rnd, g) /\ laid_out g).
Proof.
  unfold launch, create_left_eq.
  match goal with
  | |- context [left_eq_config s ?g0] => set (g := g0)
  end.
  assert (laid_out g) as Hg by reflexivity.
  destruct (Z_le_gt_dec (numbercount s) (2 * MAX_NUMBERS)) as [Hn|Hn].
  - right. split; [exact Hn|].
    destruct (left_eq_config_returns s g Hg Hn) as (g' & E & Hg' & _).
    rewrite E. exists g'. auto.
  - left. split; [lia|].
    rewrite (left_eq_config_above s g (laid_out_length g Hg)) by lia.
    reflexivity.
Qed.

(** X21: [__init__] raises exactly for settings with more than
    2 * MAX_NUMBERS numbers, and then [IndexError] (from
    [left_eq_config]): no program state exists then.  For settings whose
    number count is in the range of the number spinbox it returns, and
    the settings fields it has filled in read back as the settings it
    was given.  So pressing Start right after launch starts a game with
    exactly these settings when they are valid, and otherwise only shows
    the input error dialog with the messages of the range checks for
    them: a range, an operator or a time limit that [read_cfg] took from
    the file unchecked is refused here. *)
Theorem start_after_launch (s : Settings) (rnd : nat -> Z) :
  (forall e, launch s rnd = Raises e
             <-> 2 * MAX_NUMBERS < numbercount s /\ e = IndexError) /\
  (rule_numbercount s ->
   exists p g,
     launch s rnd = Returns (p, g) /\ laid_out g /\
     parses_to (temp_settings p) s /\
     (valid s ->
      exists q,
        start_game p = (Returns tt, q) /\ settings q = s /\
        mode_of q = Running /\ dialogs q = []) /\
     (~ valid s ->
      settings_checks s <> [] /\
      start_game p
      = (Returns tt, show (input_error (settings_checks s)) p))).
Proof.
  split.
  - intros e.
    destruct (launch_outcome s rnd) as [(Hn & E)|(Hn & g & E & _)];
      rewrite E.
    + split; [intros H; injection H as <-; auto|].
      intros (_ & ->). reflexivity.
    + split; [discriminate|lia].
  - intros (Hn1 & Hn2). unfold MAX_NUMBERS in *.
    destruct (launch_outcome s rnd) as [(Hn & _)|(_ & g & E & Hg)];
      [unfold MAX_NUMBERS in Hn; lia|].
    set (p := init s rnd) in *.
    pose proof (launch_fields_parse s rnd) as Hp. fold p in Hp.
    exists p, g. split; [exact E|]. split; [exact Hg|].
    split; [exact Hp|]. split.
    + intros Hv. exists (started s p).
      split; [now apply start_game_started|].
      destruct (started_fields s p)
        as ((Hr & _ & _ & Hset & _) & _ & _ & (_ & Hd) & _).
      split; [exact Hset|]. unfold mode_of. rewrite Hr.
      split; [reflexivity|]. rewrite Hd. reflexivity.
    + intros Hv.
      assert (settings_checks s <> []) as Hne
        by (intros E'; apply Hv; now apply settings_checks_nil).
      split; [exact Hne|].
      assert (errors_of (settings_errors (temp_settings p))
              = settings_checks s) as E'
        by now rewrite (settings_errors_parsed _ _ Hp).
      unfold start_game. rewrite push_settings_refused by now rewrite E'.
      now rewrite E'.
Qed.

Lemma start_after_launch_witness :
  let bad := mk_settings 4 50 (-7) "mod" 1000000 in
  let rnd := fun n => Z.of_nat n in
  (rule_numbercount defaults /\ valid defaults /\
   exists p g,
     launch defaults rnd = Returns (p, g) /\
     exists q,
       start_game p = (Returns tt, q) /\
       settings q = defaults /\ mode_of q = Running /\ dialogs q = []) /\
  (rule_numbercount bad /\ ~ valid bad /\
   exists p g,
     launch bad rnd = Returns (p, g) /\
     settings_checks bad <> [] /\
     start_game p
     = (Returns tt, show (input_error (settings_checks bad)) p)).
Proof.
  intros bad rnd.
  assert (rule_numbercount bad) as Hn
    by (unfold rule_numbercount, MAX_NUMBERS; cbn; lia).
  assert (~ valid bad) as Hbad.
  { intros (_ & (_ & H) & _). cbn in H. lia. }
  destruct (start_after_launch defaults rnd) as (_ & Hstart).
  destruct (start_after_launch bad rnd) as (_ & Hrefuse).
  split.
  - split; [exact (proj1 defaults_valid)|]. split; [exact defaults_valid|].
    destruct (Hstart (proj1 defaults_valid))
      as (p & g & E & _ & _ & Hok & _).
    exists p, g. split; [exact E|exact (Hok defaults_valid)].
  - split; [exact Hn|]. split; [exact Hbad|].
    destruct (Hrefuse Hn) as (p & g & E & _ & _ & _ & Hno).
    exists p, g. split; [exact E|exact (Hno Hbad)].
Defined.
